(** * Wallet-asset scanner: the API client and the chain scanners

    A shallow embedding of [scripts/lib/alchemy_client.py],
    [scripts/lib/chain_scanners.py], [scripts/lib/models.py],
    [scripts/lib/formatters.py] and [scripts/show_current_wallet_assets.py],
    with the properties the design document states about them and further
    properties read off the code.

    Python values are embedded as follows: [int] is [Z]; [str] is [string]
    (ASCII); [Optional[T]] is [option T]; a JSON document as returned by
    [response.json()] is a [json] tree whose objects are association lists;
    an exception is a value of [exn]; a method that talks to the upstream
    service is a state-passing computation over [World]. *)

From Stdlib Require Import ZArith NArith List Bool Ascii String Lia.
From Stdlib Require Import DecimalString.
From Stdlib Require DecimalPos.
Import ListNotations.

Local Open Scope string_scope.
Local Open Scope Z_scope.

(** ** Python strings and integers *)

Module Py.

(** [str(n)] for a Python [int]. *)
Definition str_of_Z (z : Z) : string := NilZero.string_of_int (Z.to_int z).
Definition str_of_N (n : N) : string := NilZero.string_of_uint (N.to_uint n).

(** [c * n] for a one-character string [c]. *)
Fixpoint repeat_char (c : ascii) (n : nat) : string :=
  match n with
  | O => ""
  | S k => String c (repeat_char c k)
  end.

(** [c in s] for a one-character string [c]. *)
Fixpoint contains_char (c : ascii) (s : string) : bool :=
  match s with
  | "" => false
  | String a t => Ascii.eqb a c || contains_char c t
  end.

(** [s.rstrip(c)] for a one-character string [c]. *)
Fixpoint rstrip (c : ascii) (s : string) : string :=
  match s with
  | "" => ""
  | String a t =>
      match rstrip c t with
      | "" => if Ascii.eqb a c then "" else String a ""
      | t' => String a t'
      end
  end.

(** [s[:n]] and [s[n:]] for [0 <= n]. *)
Definition take (n : nat) (s : string) : string := substring 0 n s.
Definition drop (n : nat) (s : string) : string := substring n (String.length s - n) s.

(** [old in s]. *)
Fixpoint contains (old s : string) : bool :=
  prefix old s ||
  match s with
  | "" => false
  | String _ t => contains old t
  end.

(** [s.replace(old, new)]: the occurrences of [old] are found from the left
    and do not overlap; [skip] counts the characters of a matched occurrence
    that are still to be passed over.  An empty [old] matches before every
    character and at the end. *)
Fixpoint replace_from (old new : string) (skip : nat) (s : string) : string :=
  match s with
  | "" => ""
  | String c t =>
      match skip with
      | S k => replace_from old new k t
      | O =>
          if prefix old s
          then new ++ replace_from old new (String.length old - 1) t
          else String c (replace_from old new 0 t)
      end
  end.

Fixpoint intersperse_before (new : string) (s : string) : string :=
  match s with
  | "" => new
  | String c t => new ++ String c (intersperse_before new t)
  end.

Definition replace (old new s : string) : string :=
  match old with
  | "" => intersperse_before new s
  | _ => replace_from old new 0 s
  end.

End Py.

(** ** Exceptions and outcomes *)

(** The exception classes that can cross the functions modelled here.
    [AlchemyRateLimitError] is a subclass of [AlchemyAPIError];
    [RequestException] stands for [requests.RequestException] and its
    subclasses raised by the HTTP session and by [raise_for_status];
    [Builtin cls] is an exception raised by the interpreter or the standard
    library (its message text is CPython's and is not modelled). *)
Inductive exn : Type :=
| AlchemyAPIError (message : string) (status_code : option Z)
| AlchemyRateLimitError (message : string) (status_code : option Z)
| RequestException (message : string)
| ValueError (message : string)
| Builtin (cls : string).

(** [isinstance(e, AlchemyAPIError)]. *)
Definition is_AlchemyAPIError (e : exn) : bool :=
  match e with
  | AlchemyAPIError _ _ | AlchemyRateLimitError _ _ => true
  | _ => false
  end.

(** [isinstance(e, requests.RequestException)]. *)
Definition is_RequestException (e : exn) : bool :=
  match e with
  | RequestException _ => true
  | _ => false
  end.

(** [str(e)] for the exceptions that carry a message. *)
Definition exn_str (e : exn) : string :=
  match e with
  | AlchemyAPIError m _ | AlchemyRateLimitError m _
  | RequestException m | ValueError m => m
  | Builtin cls => cls
  end.

Definition exn_status_code (e : exn) : option Z :=
  match e with
  | AlchemyAPIError _ c | AlchemyRateLimitError _ c => c
  | _ => None
  end.

(** Where the model stops: a loop that used up its [fuel] (the Python loop
    would still be running), or a run that leaves the typed model (binary
    floating point, an upstream reply that does not have the shape the
    dataclass annotations declare).  Neither is a Python exception, and no
    [except] clause of the model catches it. *)
Inductive abort : Type :=
| OutOfFuel
| Unmodelled (what : string).

Inductive outcome (A : Type) : Type :=
| Ret (a : A)
| Raise (e : exn)
| Abort (why : abort).
Arguments Ret {A} a.
Arguments Raise {A} e.
Arguments Abort {A} why.

Definition obind {A B} (o : outcome A) (f : A -> outcome B) : outcome B :=
  match o with
  | Ret a => f a
  | Raise e => Raise e
  | Abort w => Abort w
  end.

(** ** [decimal.Decimal] under the default context

    [format_quantity] divides two [Decimal]s built from integers and formats
    the quotient with ["f"].  The module follows the standard library's
    [Decimal.__truediv__], [Decimal._fix] and [Decimal.__format__] for
    finite numbers under the default context: 28 significant digits,
    [ROUND_HALF_EVEN], [Emax = 999999], [Emin = -999999], no clamping, and
    traps on [InvalidOperation], [DivisionByZero] and [Overflow]. *)

Module PyDecimal.

(** A finite decimal: [(-1)^sign * coeff * 10^exp]. *)
Record t : Type := mk { sign : bool; coeff : N; exp : Z }.

Definition prec : Z := 28.
Definition Emax : Z := 999999.
Definition Emin : Z := -999999.
Definition Etiny : Z := Emin - prec + 1.
Definition Etop : Z := Emax - prec + 1.

(** [len(self._int)]: the number of decimal digits of the coefficient
    (one for a zero coefficient). *)
Definition ndigits (n : N) : Z := Z.of_nat (String.length (Py.str_of_N n)).

(** [Decimal(n)] for an [int]: exact, whatever the context. *)
Definition of_int (z : Z) : t := mk (z <? 0) (Z.abs_N z) 0.

Definition pow10 (k : Z) : N := Z.to_N (10 ^ k).

(** The rounding function of [ROUND_HALF_EVEN] when the last [k >= 1]
    digits of [c] are dropped: [1] to round away from zero, [0] when the
    dropped digits are all zero, [-1] to truncate. *)
Definition round_half_even (c : N) (k : Z) : Z :=
  let q := (c / pow10 k)%N in
  let r := (c mod pow10 k)%N in
  let half := (5 * pow10 (k - 1))%N in
  if (r =? half)%N && N.even q then -1
  else if (half <=? r)%N then 1
  else if (r =? 0)%N then 0
  else -1.

(** [Decimal._fix]: round to the context's precision and check the
    exponent range. *)
Definition fix_ (d : t) : outcome t :=
  if (coeff d =? 0)%N then
    Ret (mk (sign d) 0 (Z.min (Z.max (exp d) Etiny) Emax))
  else
    let len := ndigits (coeff d) in
    let exp_min := len + exp d - prec in
    if Etop <? exp_min then Raise (Builtin "decimal.Overflow")
    else
      let exp_min := Z.max exp_min Etiny in
      if exp d <? exp_min then
        let digits := len + exp d - exp_min in
        let c := if digits <? 0 then 1%N else coeff d in
        let k := if digits <? 0 then 1 else len - digits in
        let changed := round_half_even c k in
        let kept := (c / pow10 k)%N in
        let coeff1 := if 0 <? changed then (kept + 1)%N else kept in
        let carried := (0 <? changed) && (prec <? ndigits coeff1) in
        let coeff2 := if carried then (coeff1 / 10)%N else coeff1 in
        let exp_min := if carried then exp_min + 1 else exp_min in
        if Etop <? exp_min then Raise (Builtin "decimal.Overflow")
        else Ret (mk (sign d) coeff2 exp_min)
      else Ret d.

(** The loop of [__truediv__] that brings an exact quotient as close to the
    ideal exponent as its trailing zeros allow; it runs at most
    [ideal - e] times. *)
Fixpoint strip_to_ideal (n : nat) (c : N) (e ideal : Z) : N * Z :=
  match n with
  | O => (c, e)
  | S n' =>
      if (e <? ideal) && (c mod 10 =? 0)%N
      then strip_to_ideal n' (c / 10)%N (e + 1) ideal
      else (c, e)
  end.

(** [self / other]. *)
Definition truediv (a b : t) : outcome t :=
  let s := xorb (sign a) (sign b) in
  if (coeff b =? 0)%N then
    Raise (Builtin (if (coeff a =? 0)%N then "decimal.InvalidOperation"
                    else "decimal.DivisionByZero"))
  else if (coeff a =? 0)%N then fix_ (mk s 0 (exp a - exp b))
  else
    let shift := ndigits (coeff b) - ndigits (coeff a) + prec + 1 in
    let e := exp a - exp b - shift in
    let num := if 0 <=? shift then (coeff a * pow10 shift)%N else coeff a in
    let den := if 0 <=? shift then coeff b else (coeff b * pow10 (- shift))%N in
    let q := (num / den)%N in
    let r := (num mod den)%N in
    if (r =? 0)%N then
      let ideal := exp a - exp b in
      let '(q', e') := strip_to_ideal (Z.to_nat (ideal - e)) q e ideal in
      fix_ (mk s q' e')
    else
      fix_ (mk s (if (q mod 5 =? 0)%N then (q + 1)%N else q) e).

(** [format(d, "f")]: fixed-point notation, every digit of the coefficient
    kept, a decimal point only when there are fractional digits. *)
Definition format_f (d : t) : string :=
  let d := if (coeff d =? 0)%N && (0 <? exp d) then mk (sign d) 0 0 else d in
  let digits := Py.str_of_N (coeff d) in
  let len := Z.of_nat (String.length digits) in
  let dotplace := exp d + len in
  let intpart :=
    if dotplace <? 0 then "0"
    else if len <? dotplace then digits ++ Py.repeat_char "0" (Z.to_nat (dotplace - len))
    else match Py.take (Z.to_nat dotplace) digits with
         | "" => "0"
         | i => i
         end in
  let fracpart :=
    if dotplace <? 0 then Py.repeat_char "0" (Z.to_nat (- dotplace)) ++ digits
    else if len <? dotplace then ""
    else Py.drop (Z.to_nat dotplace) digits in
  (if sign d then "-" else "") ++ intpart ++
  (match fracpart with
   | "" => ""
   | f => "." ++ f
   end).

End PyDecimal.

(** ** [chain_scanners.format_quantity] *)

(** [format_quantity(raw_balance, decimals)].  For a negative [decimals]
    Python evaluates [10**decimals] in binary floating point, which is
    outside the model. *)
Definition format_quantity (raw_balance decimals : Z) : outcome string :=
  if raw_balance =? 0 then Ret "0"
  else if decimals =? 0 then Ret (Py.str_of_Z raw_balance)
  else if decimals <? 0 then Abort (Unmodelled "10**decimals is a float")
  else
    obind (PyDecimal.truediv (PyDecimal.of_int raw_balance)
                             (PyDecimal.of_int (10 ^ decimals)))
      (fun balance =>
         let formatted := PyDecimal.format_f balance in
         Ret (if Py.contains_char "." formatted
              then Py.rstrip "." (Py.rstrip "0" formatted)
              else formatted)).

(** ** JSON documents *)

#[local] Set Warnings "-register-all".

(** What [response.json()] returns.  Numbers are integers (a JSON number
    with a fraction would be a Python [float]); an object is the decoded
    [dict], given by its members in order, with distinct keys. *)
Inductive json : Type :=
| JNull
| JBool (b : bool)
| JNum (n : Z)
| JStr (s : string)
| JArr (items : list json)
| JObj (members : list (string * json)).

Fixpoint assoc_get (k : string) (o : list (string * json)) : option json :=
  match o with
  | [] => None
  | (k', v) :: rest => if String.eqb k' k then Some v else assoc_get k rest
  end.

(** [bool(v)]: the truth value Python gives a decoded JSON value. *)
Definition truthy (v : json) : bool :=
  match v with
  | JNull => false
  | JBool b => b
  | JNum n => negb (n =? 0)
  | JStr s => negb (String.eqb s "")
  | JArr l => match l with [] => false | _ => true end
  | JObj o => match o with [] => false | _ => true end
  end.

(** [v == s] for a string literal [s]. *)
Definition is_str (s : string) (v : json) : bool :=
  match v with
  | JStr s' => String.eqb s' s
  | _ => false
  end.

(** [v.get(k, default)]: only a [dict] has the method. *)
Definition dict_get (v : json) (k : string) (default : json) : outcome json :=
  match v with
  | JObj o => Ret (match assoc_get k o with Some x => x | None => default end)
  | _ => Raise (Builtin "AttributeError")
  end.

Fixpoint chars (s : string) : list json :=
  match s with
  | "" => []
  | String c t => JStr (String c "") :: chars t
  end.

(** The values [for x in v] runs through. *)
Definition iterate (v : json) : outcome (list json) :=
  match v with
  | JArr l => Ret l
  | JObj o => Ret (map (fun kv => JStr (fst kv)) o)
  | JStr s => Ret (chars s)
  | _ => Raise (Builtin "TypeError")
  end.

(** Reading a decoded value at the type a dataclass field declares.  A
    value of another JSON type would be stored as it is by Python; the
    typed records of the model have no place for it. *)
Definition as_str (field : string) (v : json) : outcome string :=
  match v with
  | JStr s => Ret s
  | _ => Abort (Unmodelled (field ++ " is not a string"))
  end.

Definition as_opt_str (field : string) (v : json) : outcome (option string) :=
  match v with
  | JNull => Ret None
  | JStr s => Ret (Some s)
  | _ => Abort (Unmodelled (field ++ " is not a string or null"))
  end.

Definition as_opt_int (field : string) (v : json) : outcome (option Z) :=
  match v with
  | JNull => Ret None
  | JNum n => Ret (Some n)
  | _ => Abort (Unmodelled (field ++ " is not an integer or null"))
  end.

Definition as_bool (field : string) (v : json) : outcome bool :=
  match v with
  | JBool b => Ret b
  | _ => Abort (Unmodelled (field ++ " is not a boolean"))
  end.

(** [repr(s)] of an ASCII string: single quotes, unless the string has a
    single quote and no double quote; the quote, the backslash and the
    control characters are escaped. *)
Definition dquote : ascii := ascii_of_N 34.

Definition hex_digit (n : N) : ascii :=
  ascii_of_N (if (n <? 10)%N then 48 + n else 87 + n)%N.

Definition repr_char (quote c : ascii) : string :=
  let n := N_of_ascii c in
  if Ascii.eqb c quote || Ascii.eqb c "\" then String "\" (String c "")
  else if (n =? 9)%N then "\t"
  else if (n =? 10)%N then "\n"
  else if (n =? 13)%N then "\r"
  else if (n <? 32)%N || (n =? 127)%N
       then String "\" (String "x" (String (hex_digit (n / 16)) (String (hex_digit (n mod 16)) "")))
  else String c "".

Definition repr_str (s : string) : string :=
  let quote : ascii :=
    if Py.contains_char "'" s && negb (Py.contains_char dquote s) then dquote else "'"%char in
  String quote (String.concat "" (map (repr_char quote) (list_ascii_of_string s)))
  ++ String quote "".

(** [repr(v)] of a decoded JSON value. *)
Fixpoint repr (v : json) : string :=
  match v with
  | JNull => "None"
  | JBool true => "True"
  | JBool false => "False"
  | JNum n => Py.str_of_Z n
  | JStr s => repr_str s
  | JArr l => "[" ++ String.concat ", " (map repr l) ++ "]"
  | JObj o =>
      "{" ++ String.concat ", " (map (fun kv => repr_str (fst kv) ++ ": " ++ repr (snd kv)) o)
      ++ "}"
  end.

(** [str(v)], which is also what an f-string field renders. *)
Definition str (v : json) : string :=
  match v with
  | JStr s => s
  | _ => repr v
  end.

(** ** [int(s, 16)] *)

Module Hex.

Definition is_space (c : ascii) : bool :=
  let n := N_of_ascii c in
  ((9 <=? n) && (n <=? 13) || (n =? 32))%N.

Definition digit_value (c : ascii) : option Z :=
  let n := Z.of_N (N_of_ascii c) in
  if (48 <=? n) && (n <=? 57) then Some (n - 48)
  else if (97 <=? n) && (n <=? 102) then Some (n - 87)
  else if (65 <=? n) && (n <=? 70) then Some (n - 55)
  else None.

Fixpoint lstrip (s : list ascii) : list ascii :=
  match s with
  | c :: t => if is_space c then lstrip t else s
  | [] => []
  end.

Definition strip (s : list ascii) : list ascii := rev (lstrip (rev (lstrip s))).

(** The digits, with single underscores between them: [prev_us] tells that
    the previous character was an underscore, [acc] is the value so far. *)
Fixpoint digits (prev_us : bool) (acc : Z) (s : list ascii) : option Z :=
  match s with
  | [] => if prev_us then None else Some acc
  | c :: t =>
      if Ascii.eqb c "_" then (if prev_us then None else digits true acc t)
      else match digit_value c with
           | Some d => digits false (16 * acc + d) t
           | None => None
           end
  end.

Definition unsigned (s : list ascii) : option Z :=
  let s := match s with
           | "0"%char :: x :: t =>
               if Ascii.eqb x "x" || Ascii.eqb x "X"
               then match t with
                    | "_"%char :: t' => t'
                    | _ => t
                    end
               else s
           | _ => s
           end in
  match s with
  | [] => None
  | "_"%char :: _ => None
  | _ => digits false 0 s
  end.

(** [int(s, 16)], [None] when Python raises [ValueError]. *)
Definition int16 (s : string) : option Z :=
  match strip (list_ascii_of_string s) with
  | "-"%char :: t => option_map Z.opp (unsigned t)
  | "+"%char :: t => unsigned t
  | t => unsigned t
  end.

End Hex.

(** [int(v, 16)] for a decoded JSON value: only a [str] can be converted
    with an explicit base. *)
Definition int_base16 (v : json) : outcome Z :=
  match v with
  | JStr s => match Hex.int16 s with
              | Some n => Ret n
              | None => Raise (Builtin "ValueError")
              end
  | _ => Raise (Builtin "TypeError")
  end.

(** ** The world outside the process *)

(** An HTTP request as the session sends it. *)
Record Request : Type := mkRequest {
  verb : string;
  url : string;
  payload : json;                      (* the [json=] body of a POST *)
  query : list (string * json)         (* the [params=] of a GET *)
}.

(** What comes back: a reply with a status line and a body ([None] when
    the body is not JSON), or an exception raised by the session. *)
Record Reply : Type := mkReply {
  reply_status : Z;
  reply_reason : string;
  reply_body : option json
}.

Inductive wire : Type :=
| Replies (r : Reply)
| Fails (e : exn).

(** The upstream service and the network, as the session sees them: the
    answer to the [n]-th request of the run, and the URL that the response
    to it reports in [response.url].  [requests] reports the URL as it
    prepared it (the query string of a GET appended, characters
    percent-encoded) or, after a redirect, the URL it ended at; how it
    arrives at it is not modelled.  An upstream applied to [n] and a
    request is its answer. *)
Record Upstream : Type := mkUpstream {
  answer_to :> nat -> Request -> wire;
  reported_url : nat -> Request -> string
}.

(** [requests.Response]. *)
Record Response : Type := mkResponse {
  status_code : Z;
  reason : string;
  response_url : string;
  body : option json
}.

(** The effects of a run: the requests sent (latest first), the number of
    [time.sleep] calls, and the lines printed to [sys.stderr] (latest
    first). *)
Record World : Type := mkWorld {
  sent : list Request;
  slept : nat;
  stderr : list string
}.

Definition world0 : World := mkWorld [] 0 [].

(** A computation with effects on the world that returns, raises, or
    leaves the model. *)
Definition M (A : Type) : Type := World -> outcome A * World.

Definition ret {A} (a : A) : M A := fun w => (Ret a, w).
Definition raise {A} (e : exn) : M A := fun w => (Raise e, w).
Definition lift {A} (o : outcome A) : M A := fun w => (o, w).

Definition bind {A B} (m : M A) (f : A -> M B) : M B :=
  fun w =>
    match m w with
    | (Ret a, w') => f a w'
    | (Raise e, w') => (Raise e, w')
    | (Abort why, w') => (Abort why, w')
    end.

(** [try: m  except cls as e: handler(e)], where [catches e] tells whether
    [e] is an instance of [cls]. *)
Definition try_except {A} (m : M A) (catches : exn -> bool) (handler : exn -> M A) : M A :=
  fun w =>
    match m w with
    | (Raise e, w') => if catches e then handler e w' else (Raise e, w')
    | r => r
    end.

Declare Scope py_scope.
Delimit Scope py_scope with py.
Notation "x <- m ;; k" := (bind m (fun x => k))
  (at level 61, m at next level, right associativity) : py_scope.
Notation "m ;; k" := (bind m (fun _ => k))
  (at level 61, right associativity) : py_scope.
Local Open Scope py_scope.

(** [time.sleep(...)]: the length of the pause is a float drawn with
    [random.uniform]; the model records the pause only. *)
Definition sleep : M unit := fun w => (Ret tt, mkWorld (sent w) (S (slept w)) (stderr w)).

(** [print(line, file=sys.stderr)]. *)
Definition print_stderr (line : string) : M unit :=
  fun w => (Ret tt, mkWorld (sent w) (slept w) (line :: stderr w)).

(** ** [alchemy_client]: tables and records *)

Definition NETWORK_ENDPOINTS : list (string * string) :=
  [ ("ethereum", "eth-mainnet.g.alchemy.com");
    ("polygon", "polygon-mainnet.g.alchemy.com");
    ("base", "base-mainnet.g.alchemy.com");
    ("bnb", "bnb-mainnet.g.alchemy.com");
    ("solana", "solana-mainnet.g.alchemy.com") ].

Record NativeToken : Type := mkNativeToken {
  native_symbol : string;
  native_name : string;
  native_decimals : Z
}.

Definition NATIVE_TOKENS : list (string * NativeToken) :=
  [ ("ethereum", mkNativeToken "ETH" "Ethereum" 18);
    ("polygon", mkNativeToken "MATIC" "Polygon" 18);
    ("base", mkNativeToken "ETH" "Ethereum" 18);
    ("bnb", mkNativeToken "BNB" "BNB" 18);
    ("solana", mkNativeToken "SOL" "Solana" 9) ].

Fixpoint lookup {V} (k : string) (table : list (string * V)) : option V :=
  match table with
  | [] => None
  | (k', v) :: rest => if String.eqb k' k then Some v else lookup k rest
  end.

Definition DEFAULT_MAX_RETRIES : Z := 5.

Module TokenBalance.
Record t : Type := mk {
  contract_address : string;
  balance : string                     (* hex string *)
}.
End TokenBalance.

Module TokenMetadata.
Record t : Type := mk {
  name : option string;
  symbol : option string;
  decimals : option Z;
  logo : option string
}.
End TokenMetadata.

Module NFT.
Record t : Type := mk {
  contract_address : string;
  token_id : string;
  token_type : string;                 (* ERC721 or ERC1155 *)
  name : option string;
  collection_name : option string;
  balance : string;
  is_spam : bool
}.
End NFT.

Module SolanaAsset.
Record t : Type := mk {
  asset_id : string;
  interface : string;
  name : option string;
  symbol : option string;
  balance : option Z;
  decimals : option Z
}.
End SolanaAsset.

(** The state of an [AlchemyClient].  [initial_delay], [backoff_multiplier],
    [max_delay] and [jitter] are floats that only decide how long
    [time.sleep] pauses; [session] is the [requests.Session], seen as the
    upstream it reaches and the URLs its responses report. *)
Record AlchemyClient : Type := mkAlchemyClient {
  api_key : string;
  max_retries : Z;
  session : Upstream
}.

(** ** [AlchemyClient]: transport *)

Section Transport.

Variable self : AlchemyClient.

Definition _sanitize_error_message (message : string) : string :=
  Py.replace (api_key self) "[REDACTED]" message.

Definition _get_base_url (network : string) : outcome string :=
  match lookup network NETWORK_ENDPOINTS with
  | None => Raise (ValueError ("Unsupported network: " ++ network))
  | Some endpoint => Ret ("https://" ++ endpoint ++ "/v2/" ++ api_key self)
  end.

Definition _get_nft_api_url (network : string) : outcome string :=
  match lookup network NETWORK_ENDPOINTS with
  | None => Raise (ValueError ("Unsupported network: " ++ network))
  | Some endpoint => Ret ("https://" ++ endpoint ++ "/nft/v3/" ++ api_key self)
  end.

(** [self.session.post(url, json=...)] and [self.session.get(url,
    params=...)]: the request goes out, and the upstream's answer to it
    comes back as a [Response] or as an exception.  The URL of the
    response is the one the session reports for this request, which need
    not be the URL that was passed. *)
Definition session_send (rq : Request) : M Response :=
  fun w =>
    let w' := mkWorld (rq :: sent w) (slept w) (stderr w) in
    match session self (List.length (sent w)) rq with
    | Replies r =>
        (Ret (mkResponse (reply_status r) (reply_reason r)
                         (reported_url (session self) (List.length (sent w)) rq)
                         (reply_body r)), w')
    | Fails e => (Raise e, w')
    end.

Definition session_post (u : string) (js : json) : M Response :=
  session_send (mkRequest "POST" u js []).

Definition session_get (u : string) (params : list (string * json)) : M Response :=
  session_send (mkRequest "GET" u JNull params).

(** [response.raise_for_status()]: an [HTTPError], which is a
    [RequestException], for a status from 400 to 599. *)
Definition raise_for_status (response : Response) : M unit :=
  let code := status_code response in
  if (400 <=? code) && (code <? 500) then
    raise (RequestException (Py.str_of_Z code ++ " Client Error: " ++ reason response
                             ++ " for url: " ++ response_url response))
  else if (500 <=? code) && (code <? 600) then
    raise (RequestException (Py.str_of_Z code ++ " Server Error: " ++ reason response
                             ++ " for url: " ++ response_url response))
  else ret tt.

(** [response.json()]. *)
Definition response_json (response : Response) : M json :=
  match body response with
  | Some data => ret data
  | None => raise (RequestException "Expecting value: line 1 column 1 (char 0)")
  end.

(** The pause before a retry: [time.sleep(self._apply_jitter(min(delay,
    self.max_delay)))] and [delay *= self.backoff_multiplier]. *)
Definition backoff : M unit := sleep.

(** One pass through the body of the [for attempt in range(...)] loop of
    [_execute_with_retry]: [Some response] when the body returns, [None]
    when it reaches [continue]. *)
Definition attempt_once (request_func : M Response) (attempt : Z) : M (option Response) :=
  try_except
    (response <- request_func ;;
     if status_code response =? 429 then
       if attempt <? max_retries self then backoff ;; ret None
       else raise (AlchemyRateLimitError "Rate limit exceeded and max retries reached"
                                         (Some 429))
     else if status_code response =? 401 then
       raise (AlchemyAPIError "Invalid API key" (Some 401))
     else if 500 <=? status_code response then
       if attempt <? max_retries self then backoff ;; ret None
       else raise (AlchemyAPIError ("Server error: " ++ Py.str_of_Z (status_code response))
                                   (Some (status_code response)))
     else
       raise_for_status response ;;
       ret (Some response))
    is_RequestException
    (fun e =>
       if attempt <? max_retries self then backoff ;; ret None
       else raise (AlchemyAPIError ("Request failed: " ++ _sanitize_error_message (exn_str e))
                                   None)).

Fixpoint retry_loop (request_func : M Response) (attempts : list Z) : M Response :=
  match attempts with
  | [] => raise (AlchemyAPIError "Max retries exceeded" None)
  | attempt :: rest =>
      r <- attempt_once request_func attempt ;;
      match r with
      | Some response => ret response
      | None => retry_loop request_func rest
      end
  end.

(** [range(n)]. *)
Definition range (n : Z) : list Z := map Z.of_nat (seq 0 (Z.to_nat n)).

Definition _execute_with_retry (request_func : M Response) : M Response :=
  retry_loop request_func (range (max_retries self + 1)).

(** [_request(network, method, params, request_id=1)]. *)
Definition _request (network method : string) (params : json) : M json :=
  base <- lift (_get_base_url network) ;;
  let payload := JObj [ ("jsonrpc", JStr "2.0"); ("method", JStr method);
                        ("params", params); ("id", JNum 1) ] in
  response <- _execute_with_retry (session_post base payload) ;;
  data <- response_json response ;;
  match data with
  | JObj o =>
      match assoc_get "error" o with
      | Some error =>
          message <- lift (dict_get error "message" (JStr (str error))) ;;
          code <- lift (dict_get error "code" JNull) ;;
          status <- lift (as_opt_int "status_code" code) ;;
          raise (AlchemyAPIError ("API error: " ++ str message) status)
      | None =>
          ret (match assoc_get "result" o with Some r => r | None => JObj [] end)
      end
  | JArr l =>
      (* ["error" in data] is membership; neither [data["error"]] nor
         [data.get] works on a list *)
      raise (Builtin (if existsb (is_str "error") l then "TypeError" else "AttributeError"))
  | JStr s =>
      raise (Builtin (if Py.contains "error" s then "TypeError" else "AttributeError"))
  | _ => raise (Builtin "TypeError")
  end.

(** [_request_nft_api(network, endpoint, params)]. *)
Definition _request_nft_api (network endpoint : string) (params : list (string * json)) : M json :=
  base_url <- lift (_get_nft_api_url network) ;;
  response <- _execute_with_retry (session_get (base_url ++ "/" ++ endpoint) params) ;;
  response_json response.

End Transport.

(** ** [AlchemyClient]: typed operations *)

Section Operations.

Variable self : AlchemyClient.

(** The number of pages a paginated call may fetch before the model gives
    up on it; Python's [while True] has no such bound. *)
Variable fuel : nat.

Definition get_native_balance (network wallet : string) : M Z :=
  if String.eqb network "solana"
  then raise (ValueError "Use get_solana_assets for Solana native balance")
  else
    result <- _request self network "eth_getBalance" (JArr [JStr wallet; JStr "latest"]) ;;
    lift (int_base16 result).

(** The body of [for tb in token_balances]: the entry appended to
    [all_balances], if any. *)
Definition token_balance_entry (tb : json) : outcome (option TokenBalance.t) :=
  obind (dict_get tb "tokenBalance" (JStr "0x0")) (fun balance =>
  if truthy balance && negb (is_str "0x0" balance) then
    obind (int_base16 balance) (fun n =>
    if 0 <? n then
      obind (dict_get tb "contractAddress" (JStr "")) (fun a =>
      obind (as_str "contract_address" a) (fun contract_address =>
      Ret (Some (TokenBalance.mk contract_address (str balance)))))
    else Ret None)
  else Ret None).

Fixpoint token_balance_entries (tbs : list json) : outcome (list TokenBalance.t) :=
  match tbs with
  | [] => Ret []
  | tb :: rest =>
      obind (token_balance_entry tb) (fun e =>
      obind (token_balance_entries rest) (fun es =>
      Ret (match e with Some b => b :: es | None => es end)))
  end.

(** The [while True] loop of [get_token_balances], one page per turn. *)
Fixpoint token_balances_loop (n : nat) (network wallet : string)
    (page_key : json) (all_balances : list TokenBalance.t) : M (list TokenBalance.t) :=
  match n with
  | O => lift (Abort OutOfFuel)
  | S n' =>
      let params :=
        JArr ([JStr wallet; JStr "erc20"]
              ++ if truthy page_key then [JObj [("pageKey", page_key)]] else [])%list in
      result <- _request self network "alchemy_getTokenBalances" params ;;
      token_balances <- lift (dict_get result "tokenBalances" (JArr [])) ;;
      tbs <- lift (iterate token_balances) ;;
      found <- lift (token_balance_entries tbs) ;;
      page_key' <- lift (dict_get result "pageKey" JNull) ;;
      if negb (truthy page_key') then ret (all_balances ++ found)%list
      else token_balances_loop n' network wallet page_key' (all_balances ++ found)%list
  end.

Definition get_token_balances (network wallet : string) : M (list TokenBalance.t) :=
  if String.eqb network "solana"
  then raise (ValueError "Use get_solana_assets for Solana tokens")
  else token_balances_loop fuel network wallet JNull [].

Definition get_token_metadata (network contract : string) : M TokenMetadata.t :=
  if String.eqb network "solana"
  then raise (ValueError "Use get_solana_assets for Solana token metadata")
  else
    result <- _request self network "alchemy_getTokenMetadata" (JArr [JStr contract]) ;;
    name <- lift (obind (dict_get result "name" JNull) (as_opt_str "name")) ;;
    symbol <- lift (obind (dict_get result "symbol" JNull) (as_opt_str "symbol")) ;;
    decimals <- lift (obind (dict_get result "decimals" JNull) (as_opt_int "decimals")) ;;
    logo <- lift (obind (dict_get result "logo" JNull) (as_opt_str "logo")) ;;
    ret (TokenMetadata.mk name symbol decimals logo).

(** The body of [for nft in owned_nfts]. *)
Definition nft_entry (nft : json) : outcome NFT.t :=
  obind (dict_get nft "contract" (JObj [])) (fun contract =>
  obind (dict_get contract "address" (JStr "")) (fun address =>
  obind (dict_get nft "tokenId" (JStr "")) (fun token_id =>
  obind (dict_get contract "tokenType" (JStr "")) (fun contract_type =>
  obind (dict_get nft "tokenType" contract_type) (fun token_type =>
  obind (dict_get nft "name" JNull) (fun name =>
  obind (dict_get contract "name" JNull) (fun collection_name =>
  obind (dict_get nft "balance" (JStr "1")) (fun balance =>
  obind (dict_get contract "isSpam" (JBool false)) (fun is_spam =>
  obind (as_str "contract_address" address) (fun address =>
  obind (as_str "token_id" token_id) (fun token_id =>
  obind (as_str "token_type" token_type) (fun token_type =>
  obind (as_opt_str "name" name) (fun name =>
  obind (as_opt_str "collection_name" collection_name) (fun collection_name =>
  obind (as_str "balance" balance) (fun balance =>
  obind (as_bool "is_spam" is_spam) (fun is_spam =>
  Ret (NFT.mk address token_id token_type name collection_name balance is_spam)
  )))))))))))))))).

Fixpoint traverse {A B} (f : A -> outcome B) (l : list A) : outcome (list B) :=
  match l with
  | [] => Ret []
  | a :: rest =>
      obind (f a) (fun b =>
      obind (traverse f rest) (fun bs => Ret (b :: bs)))
  end.

(** The [while True] loop of [get_nfts_for_owner]. *)
Fixpoint nfts_loop (n : nat) (network wallet : string)
    (page_key : json) (all_nfts : list NFT.t) : M (list NFT.t) :=
  match n with
  | O => lift (Abort OutOfFuel)
  | S n' =>
      let params :=
        ([("owner", JStr wallet); ("withMetadata", JStr "true"); ("pageSize", JNum 100)]
         ++ if truthy page_key then [("pageKey", page_key)] else [])%list in
      result <- _request_nft_api self network "getNFTsForOwner" params ;;
      owned_nfts <- lift (dict_get result "ownedNfts" (JArr [])) ;;
      nfts <- lift (iterate owned_nfts) ;;
      found <- lift (traverse nft_entry nfts) ;;
      page_key' <- lift (dict_get result "pageKey" JNull) ;;
      if negb (truthy page_key') then ret (all_nfts ++ found)%list
      else nfts_loop n' network wallet page_key' (all_nfts ++ found)%list
  end.

Definition get_nfts_for_owner (network wallet : string) : M (list NFT.t) :=
  if String.eqb network "solana"
  then raise (ValueError "Use get_solana_assets for Solana NFTs")
  else nfts_loop fuel network wallet JNull [].

(** The body of [for item in items]. *)
Definition solana_entry (item : json) : outcome SolanaAsset.t :=
  obind (dict_get item "content" (JObj [])) (fun content =>
  obind (dict_get content "metadata" (JObj [])) (fun metadata =>
  obind (dict_get item "token_info" (JObj [])) (fun token_info =>
  obind (dict_get item "id" (JStr "")) (fun asset_id =>
  obind (dict_get item "interface" (JStr "")) (fun interface =>
  obind (dict_get metadata "name" JNull) (fun name =>
  obind (dict_get metadata "symbol" JNull) (fun symbol =>
  obind (dict_get token_info "balance" JNull) (fun balance =>
  obind (dict_get token_info "decimals" JNull) (fun decimals =>
  obind (as_str "asset_id" asset_id) (fun asset_id =>
  obind (as_str "interface" interface) (fun interface =>
  obind (as_opt_str "name" name) (fun name =>
  obind (as_opt_str "symbol" symbol) (fun symbol =>
  obind (as_opt_int "balance" balance) (fun balance =>
  obind (as_opt_int "decimals" decimals) (fun decimals =>
  Ret (SolanaAsset.mk asset_id interface name symbol balance decimals)
  ))))))))))))))).

(** [len(v)] for the value bound to [items]. *)
Definition len (v : json) : outcome Z :=
  match v with
  | JArr l => Ret (Z.of_nat (List.length l))
  | JObj o => Ret (Z.of_nat (List.length o))
  | JStr s => Ret (Z.of_nat (String.length s))
  | _ => Raise (Builtin "TypeError")
  end.

(** The [while True] loop of [get_solana_assets]. *)
Fixpoint solana_assets_loop (n : nat) (wallet : string)
    (page : Z) (all_assets : list SolanaAsset.t) : M (list SolanaAsset.t) :=
  match n with
  | O => lift (Abort OutOfFuel)
  | S n' =>
      let limit := 1000 in
      let params :=
        JObj [ ("ownerAddress", JStr wallet); ("page", JNum page); ("limit", JNum limit);
               ("displayOptions",
                JObj [("showFungible", JBool true); ("showNativeBalance", JBool true)]) ] in
      result <- _request self "solana" "getAssetsByOwner" params ;;
      items <- lift (dict_get result "items" (JArr [])) ;;
      its <- lift (iterate items) ;;
      found <- lift (traverse solana_entry its) ;;
      count <- lift (len items) ;;
      if count <? limit then ret (all_assets ++ found)%list
      else solana_assets_loop n' wallet (page + 1) (all_assets ++ found)%list
  end.

Definition get_solana_assets (wallet : string) : M (list SolanaAsset.t) :=
  solana_assets_loop fuel wallet 1 [].

Definition get_native_token_info (network : string) : outcome NativeToken :=
  match lookup network NATIVE_TOKENS with
  | None => Raise (ValueError ("Unsupported network: " ++ network))
  | Some info => Ret info
  end.

End Operations.

(** ** [models] *)

Module Asset.
Record t : Type := mk {
  chain : string;
  asset_name : string;
  symbol : string;
  asset_address : string;
  quantity : string;
  token_type : string;
  token_id : option string;
  collection_name : option string;
  is_spam : bool
}.
End Asset.

Module ScanResult.
Record t : Type := mk {
  chain : string;
  assets : list Asset.t;
  spam_assets : list Asset.t;
  native_count : Z;
  token_count : Z;
  nft_count : Z;
  erc721_count : Z;
  erc1155_count : Z;
  spam_count : Z;
  skipped_tokens : Z;
  error : option string
}.

(** [ScanResult(chain=..., assets=[], spam_assets=[], error=...)]: the
    counts take their defaults. *)
Definition failed (chain : string) (message : string) : t :=
  mk chain [] [] 0 0 0 0 0 0 0 (Some message).
End ScanResult.

(** ** [chain_scanners] *)

Definition WRAPPED_SOL_MINT : string := "So11111111111111111111111111111111111111112".

(** What a scanner asks of its client: the five methods of
    [AlchemyClient] that [scan] calls. *)
Record Client : Type := mkClient {
  client_get_native_balance : string -> string -> M Z;
  client_get_token_balances : string -> string -> M (list TokenBalance.t);
  client_get_token_metadata : string -> string -> M TokenMetadata.t;
  client_get_nfts_for_owner : string -> string -> M (list NFT.t);
  client_get_solana_assets : string -> M (list SolanaAsset.t)
}.

(** An [AlchemyClient] as a scanner's client. *)
Definition alchemy (self : AlchemyClient) (fuel : nat) : Client :=
  mkClient (get_native_balance self) (get_token_balances self fuel)
           (get_token_metadata self) (get_nfts_for_owner self fuel)
           (get_solana_assets self fuel).

(** [x or default] for an optional string and an optional integer: the
    default replaces [None] and every other false value. *)
Definition or_str (x : option string) (default : string) : string :=
  match x with
  | Some s => if String.eqb s "" then default else s
  | None => default
  end.

Definition or_int (x : option Z) (default : Z) : Z :=
  match x with
  | Some n => if n =? 0 then default else n
  | None => default
  end.

(** [for x in xs: acc = step(acc, x)] with effects. *)
Fixpoint for_each {A S} (step : S -> A -> M S) (xs : list A) (acc : S) : M S :=
  match xs with
  | [] => ret acc
  | x :: rest => acc' <- step acc x ;; for_each step rest acc'
  end.

Section Scanners.

Variable client : Client.
Variable chain : string.

Definition _create_native_asset (balance decimals : Z) (symbol name : string)
  : outcome Asset.t :=
  obind (format_quantity balance decimals) (fun quantity =>
  Ret (Asset.mk chain name symbol "NATIVE" quantity "NATIVE" None None false)).

(** *** [EVMChainScanner] *)

(** The running totals of the token loop: [assets], [token_count],
    [skipped_tokens]. *)
Definition token_totals : Type := (list Asset.t * Z * Z)%type.

(** The body of [for tb in token_balances], with its own [try]. *)
Definition evm_token_step (acc : token_totals) (tb : TokenBalance.t) : M token_totals :=
  let '(assets, token_count, skipped_tokens) := acc in
  try_except
    (metadata <- client_get_token_metadata client chain (TokenBalance.contract_address tb) ;;
     balance_int <- lift (int_base16 (JStr (TokenBalance.balance tb))) ;;
     let decimals := or_int (TokenMetadata.decimals metadata) 18 in
     quantity <- lift (format_quantity balance_int decimals) ;;
     let token_asset :=
       Asset.mk chain (or_str (TokenMetadata.name metadata) "")
                (or_str (TokenMetadata.symbol metadata) "")
                (TokenBalance.contract_address tb) quantity "ERC20" None None false in
     ret ((assets ++ [token_asset])%list, token_count + 1, skipped_tokens))
    is_AlchemyAPIError
    (fun _ => ret (assets, token_count, skipped_tokens + 1)).

(** The running totals of the NFT loop: [assets], [spam_assets],
    [nft_count], [erc721_count], [erc1155_count]. *)
Definition nft_totals : Type := (list Asset.t * list Asset.t * Z * Z * Z)%type.

Definition evm_nft_asset (nft : NFT.t) : Asset.t :=
  Asset.mk chain (or_str (NFT.name nft) "") "" (NFT.contract_address nft)
           (NFT.balance nft) (NFT.token_type nft) (Some (NFT.token_id nft))
           (NFT.collection_name nft) (NFT.is_spam nft).

(** The body of [for nft in nfts]. *)
Definition evm_nft_step (acc : nft_totals) (nft : NFT.t) : nft_totals :=
  let '(assets, spam_assets, nft_count, erc721_count, erc1155_count) := acc in
  let nft_asset := evm_nft_asset nft in
  if NFT.is_spam nft then
    (assets, (spam_assets ++ [nft_asset])%list, nft_count, erc721_count, erc1155_count)
  else
    ((assets ++ [nft_asset])%list, spam_assets, nft_count + 1,
     (if String.eqb (NFT.token_type nft) "ERC721" then erc721_count + 1 else erc721_count),
     (if String.eqb (NFT.token_type nft) "ERC721" then erc1155_count
      else if String.eqb (NFT.token_type nft) "ERC1155" then erc1155_count + 1
      else erc1155_count)).

(** [if native_balance > 0: ...]: the native asset, if any, and
    [native_count]. *)
Definition evm_native_step (native_balance : Z) : M (list Asset.t * Z) :=
  if 0 <? native_balance then
    match lookup chain NATIVE_TOKENS with
    | None => raise (Builtin "KeyError")
    | Some native_info =>
        native_asset <- lift (_create_native_asset native_balance
                                (native_decimals native_info)
                                (native_symbol native_info)
                                (native_name native_info)) ;;
        ret ([native_asset], 1)
    end
  else ret ([], 0).

(** [if skipped_tokens > 0: print(...)]. *)
Definition evm_report_skipped (skipped_tokens : Z) : M unit :=
  if 0 <? skipped_tokens then
    print_stderr ("[" ++ chain ++ "] Skipped " ++ Py.str_of_Z skipped_tokens
                  ++ " token(s) due to metadata fetch failures")
  else ret tt.

(** The [try] block of [EVMChainScanner.scan]. *)
Definition evm_scan_try (wallet : string) : M ScanResult.t :=
  native_balance <- client_get_native_balance client chain wallet ;;
  native <- evm_native_step native_balance ;;
  let '(assets, native_count) := native in
  token_balances <- client_get_token_balances client chain wallet ;;
  tokens <- for_each evm_token_step token_balances (assets, 0, 0) ;;
  let '(assets, token_count, skipped_tokens) := tokens in
  evm_report_skipped skipped_tokens ;;
  nfts <- client_get_nfts_for_owner client chain wallet ;;
  let '(assets, spam_assets, nft_count, erc721_count, erc1155_count) :=
    fold_left evm_nft_step nfts (assets, [], 0, 0, 0) in
  ret (ScanResult.mk chain assets spam_assets native_count token_count nft_count
                     erc721_count erc1155_count (Z.of_nat (List.length spam_assets))
                     skipped_tokens None).

(** [EVMChainScanner.scan(wallet)]. *)
Definition evm_scan (wallet : string) : M ScanResult.t :=
  try_except (evm_scan_try wallet)
    is_AlchemyAPIError
    (fun e => ret (ScanResult.failed chain (exn_str e))).

(** *** [SolanaChainScanner] *)

Definition INTERFACE_TO_TOKEN_TYPE : list (string * string) :=
  [ ("FungibleToken", "SPL");
    ("FungibleAsset", "SPL");
    ("V1_NFT", "NFT");
    ("V2_NFT", "NFT");
    ("ProgrammableNFT", "pNFT");
    ("MplCoreAsset", "MPL") ].

(** The running totals of the Solana loop: [assets], [native_count],
    [token_count], [nft_count]. *)
Definition solana_totals : Type := (list Asset.t * Z * Z * Z)%type.

(** The body of [for sa in solana_assets]. *)
Definition solana_step (acc : solana_totals) (sa : SolanaAsset.t) : outcome solana_totals :=
  let '(assets, native_count, token_count, nft_count) := acc in
  let token_type :=
    match lookup (SolanaAsset.interface sa) INTERFACE_TO_TOKEN_TYPE with
    | Some t => t
    | None => SolanaAsset.interface sa
    end in
  let is_fungible :=
    String.eqb (SolanaAsset.interface sa) "FungibleToken"
    || String.eqb (SolanaAsset.interface sa) "FungibleAsset" in
  match (if is_fungible then SolanaAsset.balance sa else None) with
  | Some balance =>
      let decimals := or_int (SolanaAsset.decimals sa) 9 in
      obind (format_quantity balance decimals) (fun quantity =>
      if match SolanaAsset.symbol sa with Some s => String.eqb s "SOL" | None => false end
         && String.eqb (SolanaAsset.asset_id sa) WRAPPED_SOL_MINT
      then
        let asset := Asset.mk chain (or_str (SolanaAsset.name sa) "Solana") "SOL" "NATIVE"
                              quantity "NATIVE" None None false in
        Ret ((assets ++ [asset])%list, 1, token_count, nft_count)
      else
        let asset := Asset.mk chain (or_str (SolanaAsset.name sa) "")
                              (or_str (SolanaAsset.symbol sa) "")
                              (SolanaAsset.asset_id sa) quantity token_type None None false in
        Ret ((assets ++ [asset])%list, native_count, token_count + 1, nft_count))
  | None =>
      let asset := Asset.mk chain (or_str (SolanaAsset.name sa) "")
                            (or_str (SolanaAsset.symbol sa) "")
                            (SolanaAsset.asset_id sa) "1" token_type
                            (Some (SolanaAsset.asset_id sa)) None false in
      Ret ((assets ++ [asset])%list, native_count, token_count, nft_count + 1)
  end.

(** The [try] block of [SolanaChainScanner.scan]. *)
Definition solana_scan_try (wallet : string) : M ScanResult.t :=
  solana_assets <- client_get_solana_assets client wallet ;;
  totals <- for_each (fun acc sa => lift (solana_step acc sa)) solana_assets ([], 0, 0, 0) ;;
  let '(assets, native_count, token_count, nft_count) := totals in
  ret (ScanResult.mk chain assets [] native_count token_count nft_count 0 0 0 0 None).

(** [SolanaChainScanner.scan(wallet)]. *)
Definition solana_scan (wallet : string) : M ScanResult.t :=
  try_except (solana_scan_try wallet)
    is_AlchemyAPIError
    (fun e => ret (ScanResult.failed chain (exn_str e))).

End Scanners.

(** A scanner, as [create_scanner] builds one. *)
Inductive Scanner : Type :=
| EVMChainScanner (client : Client) (chain : string)
| SolanaChainScanner (client : Client) (chain : string).

Definition scan (scanner : Scanner) (wallet : string) : M ScanResult.t :=
  match scanner with
  | EVMChainScanner client chain => evm_scan client chain wallet
  | SolanaChainScanner client chain => solana_scan client chain wallet
  end.

Definition create_scanner (client : Client) (chain : string) : outcome Scanner :=
  if existsb (String.eqb chain) ["ethereum"; "polygon"; "base"; "bnb"]
  then Ret (EVMChainScanner client chain)
  else if String.eqb chain "solana" then Ret (SolanaChainScanner client chain)
  else Raise (ValueError ("Unsupported chain: " ++ chain)).

(** ** The quantity as the design document words it

    The exact value [r / 10^d] in fixed-point notation, trailing zeros after
    the decimal point and a lone trailing point stripped.  This is the
    document's reading, to be compared with [format_quantity]. *)
Definition exact_quantity (r d : Z) : string :=
  let scale := 10 ^ d in
  let fraction := Py.str_of_Z (r mod scale) in
  let padding := Py.repeat_char "0" (Z.to_nat d - String.length fraction) in
  Py.rstrip "." (Py.rstrip "0" (Py.str_of_Z (r / scale) ++ "." ++ padding ++ fraction)).

(** ** Vocabulary of the properties *)

(** A request function that logs each of its calls once, so that the
    requests logged during a run count the attempts. *)
Definition counts_calls (request_func : M Response) : Prop :=
  forall w, List.length (sent (snd (request_func w))) = S (List.length (sent w)).

(** The status of the upstream's answer to request [rq] sent as the
    [n]-th request. *)
Definition status_at (up : Upstream) (rq : Request) (n : nat) : option Z :=
  match up n rq with
  | Replies r => Some (reply_status r)
  | Fails _ => None
  end.

(** The statuses of the next [k] answers to [rq] from world [w] on. *)
Definition next_statuses (self : AlchemyClient) (rq : Request) (w : World) (k : nat)
  : list (option Z) :=
  map (status_at (session self) rq) (seq (List.length (sent w)) k).

(** The world after [k] more requests [rq] and [p] more pauses. *)
Definition after (k p : nat) (rq : Request) (w : World) : World :=
  mkWorld (repeat rq k ++ sent w)%list (p + slept w) (stderr w).

(** The message of the [RequestException] an answer raises inside the
    [try] of [_execute_with_retry], if it raises one: a failure of the
    transport, or the [HTTPError] of [raise_for_status] for a status from
    400 to 499 other than 401 and 429, which quotes the URL the response
    reports. *)
Definition handled_message (reported : string) (answer : wire) : option string :=
  match answer with
  | Fails (RequestException m) => Some m
  | Fails _ => None
  | Replies r =>
      let code := reply_status r in
      if (400 <=? code) && (code <? 500) && negb (code =? 401) && negb (code =? 429)
      then Some (Py.str_of_Z code ++ " Client Error: " ++ reply_reason r
                 ++ " for url: " ++ reported)
      else None
  end.

(** The upstream's answer is a successful JSON-RPC reply whose result is
    [result]. *)
Definition answers_with (answer : wire) (result : json) : Prop :=
  exists reason o,
    answer = Replies (mkReply 200 reason (Some (JObj o))) /\
    assoc_get "error" o = None /\
    assoc_get "result" o = Some result.

(** The JSON-RPC request [_request] posts. *)
Definition rpc_request (base_url method : string) (params : json) : Request :=
  mkRequest "POST" base_url
    (JObj [("jsonrpc", JStr "2.0"); ("method", JStr method); ("params", params);
           ("id", JNum 1)]) [].

(** The request of [get_token_balances] that continues from [page_key]
    ([None] for the first page). *)
Definition token_balances_request (base_url wallet : string) (page_key : json) : Request :=
  rpc_request base_url "alchemy_getTokenBalances"
    (JArr ([JStr wallet; JStr "erc20"]
           ++ if truthy page_key then [JObj [("pageKey", page_key)]] else [])%list).

(** The balances one page of results contributes, and its cursor. *)
Definition page_entries (result : json) : outcome (list TokenBalance.t) :=
  obind (dict_get result "tokenBalances" (JArr [])) (fun token_balances =>
  obind (iterate token_balances) token_balance_entries).

Definition page_cursor (result : json) : json :=
  match dict_get result "pageKey" JNull with
  | Ret k => k
  | _ => JNull
  end.

Definition has_cursor (result : json) : bool := truthy (page_cursor result).

(** A balance that is present and not zero. *)
Definition positive_balance (tb : TokenBalance.t) : Prop :=
  exists n, Hex.int16 (TokenBalance.balance tb) = Some n /\ 0 < n.

(** [len(l)]. *)
Definition zlen {A} (l : list A) : Z := Z.of_nat (List.length l).

(** NFT records by spam flag and type tag. *)
Definition clean (nft : NFT.t) : bool := negb (NFT.is_spam nft).
Definition clean_erc721 (nft : NFT.t) : bool :=
  clean nft && String.eqb (NFT.token_type nft) "ERC721".
Definition clean_erc1155 (nft : NFT.t) : bool :=
  clean nft && String.eqb (NFT.token_type nft) "ERC1155".

(** A Solana asset the scanner treats as fungible: a fungible interface
    and a balance that is not null. *)
Definition fungible_interface (sa : SolanaAsset.t) : bool :=
  String.eqb (SolanaAsset.interface sa) "FungibleToken"
  || String.eqb (SolanaAsset.interface sa) "FungibleAsset".

Definition is_wrapped_sol (sa : SolanaAsset.t) : bool :=
  match SolanaAsset.symbol sa with
  | Some s => String.eqb s "SOL"
  | None => false
  end && String.eqb (SolanaAsset.asset_id sa) WRAPPED_SOL_MINT.

Definition has_balance (sa : SolanaAsset.t) : bool :=
  match SolanaAsset.balance sa with
  | Some _ => true
  | None => false
  end.

Definition native_like (sa : SolanaAsset.t) : bool :=
  fungible_interface sa && has_balance sa && is_wrapped_sol sa.
Definition token_like (sa : SolanaAsset.t) : bool :=
  fungible_interface sa && has_balance sa && negb (is_wrapped_sol sa).
Definition nft_like (sa : SolanaAsset.t) : bool :=
  negb (fungible_interface sa && has_balance sa).

(** The asset emitted for native SOL, and the asset emitted for a record
    of a fungible interface that has no balance. *)
Definition solana_native_asset (chain : string) (sa : SolanaAsset.t) (quantity : string)
  : Asset.t :=
  Asset.mk chain (or_str (SolanaAsset.name sa) "Solana") "SOL" "NATIVE" quantity "NATIVE"
           None None false.

Definition solana_balanceless_asset (chain : string) (sa : SolanaAsset.t) : Asset.t :=
  Asset.mk chain (or_str (SolanaAsset.name sa) "") (or_str (SolanaAsset.symbol sa) "")
           (SolanaAsset.asset_id sa) "1" "SPL" (Some (SolanaAsset.asset_id sa)) None false.

Definition not_spam (a : Asset.t) : Prop := Asset.is_spam a = false.

(** The result of a failed scan: an error message, no assets, zero counts. *)
Definition is_error_result (r : ScanResult.t) : Prop :=
  ScanResult.error r <> None /\
  ScanResult.assets r = [] /\ ScanResult.spam_assets r = [] /\
  ScanResult.native_count r = 0 /\ ScanResult.token_count r = 0 /\
  ScanResult.nft_count r = 0 /\ ScanResult.erc721_count r = 0 /\
  ScanResult.erc1155_count r = 0 /\ ScanResult.spam_count r = 0 /\
  ScanResult.skipped_tokens r = 0.

(** ** Scripted upstreams

    The upstreams of the test suite: the answers are given in the order in
    which the requests arrive, whatever the request, and every response
    reports the URL that was passed. *)

Definition as_passed : nat -> Request -> string := fun _ rq => url rq.

Definition scripted (answers : list wire) : Upstream :=
  mkUpstream (fun n _ => nth n answers (Fails (RequestException "Connection aborted"))%list)
             as_passed.

(** The upstream that gives the same answer to every request. *)
Definition always (answer : wire) : Upstream := mkUpstream (fun _ _ => answer) as_passed.

(** The query string [requests] appends for the parameters of the first
    page of [getNFTsForOwner], and an upstream that answers 404 to every
    request and reports the URL with that query string. *)
Definition first_page_query (wallet : string) : string :=
  "?owner=" ++ wallet ++ "&withMetadata=true&pageSize=100".

Definition not_found_with_query : Upstream :=
  mkUpstream (fun _ _ => Replies (mkReply 404 "Not Found" None))
             (fun _ rq => url rq ++ match query rq with
                                    | ("owner", JStr wallet) :: _ => first_page_query wallet
                                    | _ => ""
                                    end).

(** A reply with a status line and no JSON body. *)
Definition plain (code : Z) (reason : string) : wire :=
  Replies (mkReply code reason None).

(** A JSON-RPC reply carrying [result]. *)
Definition rpc_result (result : json) : wire :=
  Replies (mkReply 200 "OK"
             (Some (JObj [("jsonrpc", JStr "2.0"); ("id", JNum 1); ("result", result)]))).

(** A JSON-RPC reply carrying an error object. *)
Definition rpc_error (code : Z) (message : string) : wire :=
  Replies (mkReply 200 "OK"
             (Some (JObj [("jsonrpc", JStr "2.0"); ("id", JNum 1);
                          ("error", JObj [("code", JNum code); ("message", JStr message)])]))).

(** A REST reply. *)
Definition rest_ok (document : json) : wire :=
  Replies (mkReply 200 "OK" (Some document)).

Definition test_key : string := "test-api-key-12345".
Definition test_wallet : string := "0xd8dA6BF26964aF9D7eEd9e03E53415D37aA96045".
Definition test_solana_wallet : string := "GKvqsuNcnwWqPzzuhLmGi4rzzh55FhJtGizkhHaEJqiV".
Definition test_url : string := "https://eth-mainnet.g.alchemy.com/v2/test-api-key-12345".
Definition test_post : Request :=
  mkRequest "POST" test_url
    (JObj [("jsonrpc", JStr "2.0"); ("method", JStr "test_method");
           ("params", JArr []); ("id", JNum 1)]) [].

(** The first request of [get_nfts_for_owner] for the test wallet. *)
Definition test_get : Request :=
  mkRequest "GET" "https://eth-mainnet.g.alchemy.com/nft/v3/test-api-key-12345/getNFTsForOwner"
    JNull
    [("owner", JStr test_wallet); ("withMetadata", JStr "true"); ("pageSize", JNum 100)].

(** The two pages of the pagination test: only the first has a cursor. *)
Definition page_one : json :=
  JObj [ ("address", JStr test_wallet);
         ("tokenBalances",
          JArr [JObj [("contractAddress", JStr "0xToken1"); ("tokenBalance", JStr "0x100")]]);
         ("pageKey", JStr "next_page_key") ].

Definition page_two : json :=
  JObj [ ("address", JStr test_wallet);
         ("tokenBalances",
          JArr [JObj [("contractAddress", JStr "0xToken2"); ("tokenBalance", JStr "0x200")];
                JObj [("contractAddress", JStr "0xZeroBalance"); ("tokenBalance", JStr "0x0")]]) ].

Definition two_pages : AlchemyClient :=
  mkAlchemyClient test_key DEFAULT_MAX_RETRIES (scripted [rpc_result page_one; rpc_result page_two]).

(** An EVM wallet with no native balance, no tokens, one clean NFT and
    one spam NFT. *)
Definition spam_and_clean : AlchemyClient :=
  mkAlchemyClient test_key DEFAULT_MAX_RETRIES
    (scripted
       [ rpc_result (JStr "0x0");
         rpc_result (JObj [("address", JStr test_wallet); ("tokenBalances", JArr [])]);
         rest_ok
           (JObj [ ("ownedNfts",
                    JArr [ JObj [ ("contract",
                                   JObj [("address", JStr "0xGoodNFT");
                                         ("name", JStr "Good Collection");
                                         ("isSpam", JBool false)]);
                                  ("tokenId", JStr "1"); ("tokenType", JStr "ERC721");
                                  ("name", JStr "Good NFT #1"); ("balance", JStr "1") ];
                           JObj [ ("contract",
                                   JObj [("address", JStr "0xSpamNFT");
                                         ("name", JStr "Spam Collection");
                                         ("isSpam", JBool true)]);
                                  ("tokenId", JStr "999"); ("tokenType", JStr "ERC721");
                                  ("name", JStr "Free Airdrop"); ("balance", JStr "1") ] ]);
                   ("totalCount", JNum 2) ]) ]).

(** A Solana wallet holding 2.5 SOL. *)
Definition native_sol : AlchemyClient :=
  mkAlchemyClient test_key DEFAULT_MAX_RETRIES
    (scripted
       [ rpc_result
           (JObj [ ("total", JNum 1); ("limit", JNum 1000); ("page", JNum 1);
                   ("items",
                    JArr [ JObj [ ("id", JStr WRAPPED_SOL_MINT);
                                  ("interface", JStr "FungibleToken");
                                  ("content",
                                   JObj [("metadata",
                                          JObj [("name", JStr "Wrapped SOL");
                                                ("symbol", JStr "SOL")])]);
                                  ("token_info",
                                   JObj [("balance", JNum 2500000000);
                                         ("decimals", JNum 9)]) ] ]) ]) ]).

(** An EVM wallet holding 100 units of a token whose metadata says
    [decimals = 0]. *)
Definition indivisible_token : AlchemyClient :=
  mkAlchemyClient test_key DEFAULT_MAX_RETRIES
    (scripted
       [ rpc_result (JStr "0x0");
         rpc_result (JObj [ ("address", JStr test_wallet);
                            ("tokenBalances",
                             JArr [JObj [("contractAddress", JStr "0xToken");
                                         ("tokenBalance", JStr "0x64")]]) ]);
         rpc_result (JObj [("name", JStr "Ticket"); ("symbol", JStr "TIX");
                           ("decimals", JNum 0)]);
         rest_ok (JObj [("ownedNfts", JArr []); ("totalCount", JNum 0)]) ]).

(** A Solana wallet holding 7 units of a token whose [decimals] is 0. *)
Definition indivisible_spl : AlchemyClient :=
  mkAlchemyClient test_key DEFAULT_MAX_RETRIES
    (scripted
       [ rpc_result
           (JObj [ ("items",
                    JArr [ JObj [ ("id", JStr "TicketMint");
                                  ("interface", JStr "FungibleToken");
                                  ("content",
                                   JObj [("metadata",
                                          JObj [("name", JStr "Ticket");
                                                ("symbol", JStr "TIX")])]);
                                  ("token_info",
                                   JObj [("balance", JNum 7); ("decimals", JNum 0)]) ] ]) ]) ]).

(** An upstream whose answer to [eth_getBalance] has no [result]. *)
Definition no_result : AlchemyClient :=
  mkAlchemyClient test_key DEFAULT_MAX_RETRIES
    (scripted [Replies (mkReply 200 "OK" (Some (JObj [("jsonrpc", JStr "2.0"); ("id", JNum 1)])))]).

(** An upstream whose answer to [getAssetsByOwner] is not JSON. *)
Definition not_json : AlchemyClient :=
  mkAlchemyClient test_key DEFAULT_MAX_RETRIES (scripted [plain 200 "OK"]).

(** A Solana wallet with one record of a fungible interface and no
    [token_info]. *)
Definition balanceless : AlchemyClient :=
  mkAlchemyClient test_key DEFAULT_MAX_RETRIES
    (scripted
       [ rpc_result
           (JObj [ ("items",
                    JArr [ JObj [ ("id", JStr "MintWithoutBalance");
                                  ("interface", JStr "FungibleAsset");
                                  ("content",
                                   JObj [("metadata",
                                          JObj [("name", JStr "Badge");
                                                ("symbol", JStr "BDG")])]) ] ]) ]) ]).

(** Upstreams that answer with an API error at the first request, at the
    token listing, and at the NFT listing. *)
Definition fails_at_first : AlchemyClient :=
  mkAlchemyClient test_key 0 (scripted [rpc_error (-32600) "Invalid request"]).

Definition fails_at_tokens : AlchemyClient :=
  mkAlchemyClient test_key 0
    (scripted [rpc_result (JStr "0x0"); rpc_error (-32600) "Invalid request"]).

Definition fails_at_nfts : AlchemyClient :=
  mkAlchemyClient test_key 0
    (scripted [ rpc_result (JStr "0x0");
                rpc_result (JObj [("address", JStr test_wallet); ("tokenBalances", JArr [])]);
                plain 401 "Unauthorized" ]).

(** ** Vocabulary of the retry loop *)

(** An answer after which [_execute_with_retry] pauses and goes round
    again when attempts are left: a 429, a status of 500 or more, a
    [RequestException] of the session, or another 4xx status other than
    401, whose [HTTPError] the [except] clause catches. *)
Definition retryable (answer : wire) : bool :=
  match answer with
  | Replies r =>
      let code := reply_status r in
      (code =? 429) || (500 <=? code)
      || ((400 <=? code) && (code <? 500) && negb (code =? 401))
  | Fails e => is_RequestException e
  end.

(** What the attempt that receives [answer] ends with when it does not go
    round again, [reported] being the URL the response reports. *)
Definition settles (self : AlchemyClient) (reported : string) (answer : wire)
  : outcome Response :=
  match answer with
  | Fails e =>
      if is_RequestException e
      then Raise (AlchemyAPIError ("Request failed: " ++ _sanitize_error_message self (exn_str e))
                                  None)
      else Raise e
  | Replies r =>
      let code := reply_status r in
      if code =? 429
      then Raise (AlchemyRateLimitError "Rate limit exceeded and max retries reached" (Some 429))
      else if code =? 401 then Raise (AlchemyAPIError "Invalid API key" (Some 401))
      else if 500 <=? code
      then Raise (AlchemyAPIError ("Server error: " ++ Py.str_of_Z code) (Some code))
      else if (400 <=? code) && (code <? 500)
      then Raise (AlchemyAPIError
                    ("Request failed: "
                     ++ _sanitize_error_message self
                          (Py.str_of_Z code ++ " Client Error: " ++ reply_reason r
                           ++ " for url: " ++ reported)) None)
      else Ret (mkResponse code (reply_reason r) reported (reply_body r))
  end.

(** ** Vocabulary of the typed operations *)

(** The networks the EVM operations serve. *)
Definition EVM_NETWORKS : list string := ["ethereum"; "polygon"; "base"; "bnb"].

(** The request of [get_nfts_for_owner] that continues from [page_key]. *)
Definition nfts_request (base_url wallet : string) (page_key : json) : Request :=
  mkRequest "GET" (base_url ++ "/" ++ "getNFTsForOwner") JNull
    ([("owner", JStr wallet); ("withMetadata", JStr "true"); ("pageSize", JNum 100)]
     ++ if truthy page_key then [("pageKey", page_key)] else [])%list.

(** The NFT records one page of the REST listing contributes. *)
Definition page_nfts (document : json) : outcome (list NFT.t) :=
  obind (dict_get document "ownedNfts" (JArr [])) (fun owned_nfts =>
  obind (iterate owned_nfts) (traverse nft_entry)).

(** The request of [get_solana_assets] for page [page]. *)
Definition solana_request (base_url wallet : string) (page : Z) : Request :=
  rpc_request base_url "getAssetsByOwner"
    (JObj [ ("ownerAddress", JStr wallet); ("page", JNum page); ("limit", JNum 1000);
            ("displayOptions",
             JObj [("showFungible", JBool true); ("showNativeBalance", JBool true)]) ]).

(** The records one page of [getAssetsByOwner] contributes, and the number
    of its items. *)
Definition page_assets (result : json) : outcome (list SolanaAsset.t) :=
  obind (dict_get result "items" (JArr [])) (fun items =>
  obind (iterate items) (traverse solana_entry)).

Definition page_count (result : json) : outcome Z :=
  obind (dict_get result "items" (JArr [])) len.

(** A page of 1000 items and the empty page that follows it. *)
Definition thousand_items : json :=
  JObj [("items",
         JArr (repeat (JObj [("id", JStr "Mint"); ("interface", JStr "V1_NFT")]) 1000))].

Definition full_page_then_empty : AlchemyClient :=
  mkAlchemyClient test_key DEFAULT_MAX_RETRIES
    (scripted [rpc_result thousand_items; rpc_result (JObj [("items", JArr [])])]).

(** Two pages of the NFT listing. *)
Definition nft_page_one : json :=
  JObj [ ("ownedNfts",
          JArr [JObj [("contract", JObj [("address", JStr "0xNFT1"); ("tokenType", JStr "ERC1155")]);
                      ("tokenId", JStr "1"); ("balance", JStr "3")]]);
         ("pageKey", JStr "page2") ].

Definition nft_page_two : json :=
  JObj [ ("ownedNfts",
          JArr [JObj [("contract", JObj [("address", JStr "0xNFT2"); ("isSpam", JBool true)]);
                      ("tokenId", JStr "2"); ("tokenType", JStr "ERC721")]]) ].

Definition two_nft_pages : AlchemyClient :=
  mkAlchemyClient test_key DEFAULT_MAX_RETRIES (scripted [rest_ok nft_page_one; rest_ok nft_page_two]).

(** The upstream's answer is a successful REST reply whose body is
    [document]. *)
Definition serves_document (answer : wire) (document : json) : Prop :=
  exists reason, answer = Replies (mkReply 200 reason (Some document)).

(** ** [models]: the CSV row *)

Definition CSV_COLUMNS : list string :=
  [ "chain"; "asset_name"; "symbol"; "asset_address"; "quantity"; "token_type";
    "token_id"; "collection_name" ].

(** [Asset.to_csv_row()]. *)
Definition to_csv_row (self : Asset.t) : list string :=
  [ Asset.chain self; Asset.asset_name self; Asset.symbol self; Asset.asset_address self;
    Asset.quantity self; Asset.token_type self;
    or_str (Asset.token_id self) ""; or_str (Asset.collection_name self) "" ].

(** ** [formatters] *)

(** [combine_scan_results(results)]. *)
Definition combine_step (acc : list Asset.t * list Asset.t) (result : ScanResult.t)
  : list Asset.t * list Asset.t :=
  match ScanResult.error result with
  | None => ((fst acc ++ ScanResult.assets result)%list,
             (snd acc ++ ScanResult.spam_assets result)%list)
  | Some _ => acc
  end.

Definition combine_scan_results (results : list ScanResult.t)
  : list Asset.t * list Asset.t :=
  fold_left combine_step results ([], []).

(** [csv.writer(stream).writerow(row)] for a row of strings, under the
    default dialect: comma, double quote, [QUOTE_MINIMAL], quotes doubled,
    lines ended by CR LF.  A field is quoted when it holds a comma, a
    quote, a CR or a LF; a row made of one empty field is written as two
    quotes. *)
Module Csv.

Definition cr : ascii := ascii_of_N 13.
Definition lf : ascii := ascii_of_N 10.

Definition special (c : ascii) : bool :=
  Ascii.eqb c "," || Ascii.eqb c dquote || Ascii.eqb c cr || Ascii.eqb c lf.

Fixpoint needs_quotes (field : string) : bool :=
  match field with
  | "" => false
  | String c t => special c || needs_quotes t
  end.

Fixpoint double_quotes (field : string) : string :=
  match field with
  | "" => ""
  | String c t =>
      if Ascii.eqb c dquote then String dquote (String dquote (double_quotes t))
      else String c (double_quotes t)
  end.

Definition write_field (field : string) : string :=
  if needs_quotes field
  then String dquote (double_quotes field ++ String dquote "")
  else field.

Fixpoint join_fields (fields : list string) : string :=
  match fields with
  | [] => ""
  | [f] => write_field f
  | f :: rest => write_field f ++ String "," (join_fields rest)
  end.

Definition lineterminator : string := String cr (String lf "").

Definition writerow (row : list string) : string :=
  match row with
  | [""] => String dquote (String dquote lineterminator)
  | _ => join_fields row ++ lineterminator
  end.

End Csv.

(** [write_csv_to_stream(assets, stream)]: what the stream holds
    afterwards, given what it held before. *)
Definition write_csv_to_stream (assets : list Asset.t) (stream : string) : string :=
  fold_left (fun written asset => written ++ Csv.writerow (to_csv_row asset))
            assets (stream ++ Csv.writerow CSV_COLUMNS).

(** ** [show_current_wallet_assets] *)

Definition SUPPORTED_NETWORKS : list string :=
  ["ethereum"; "polygon"; "base"; "bnb"; "solana"].

(** [s.lower()] for an ASCII string. *)
Definition lower_char (c : ascii) : ascii :=
  let n := N_of_ascii c in
  if ((65 <=? n) && (n <=? 90))%N then ascii_of_N (n + 32) else c.

Fixpoint lower (s : string) : string :=
  match s with
  | "" => ""
  | String c t => String (lower_char c) (lower t)
  end.

(** The loop of [validate_networks], from the list built so far. *)
Fixpoint validate_loop (networks validated : list string) : outcome (list string) :=
  match networks with
  | [] => Ret validated
  | network :: rest =>
      let network_lower := lower network in
      if negb (existsb (String.eqb network_lower) SUPPORTED_NETWORKS)
      then Raise (ValueError ("Unsupported network: " ++ network ++ ". Supported: "
                              ++ String.concat ", " SUPPORTED_NETWORKS))
      else validate_loop rest (validated ++ [network_lower])
  end.

Definition validate_networks (networks : list string) : outcome (list string) :=
  validate_loop networks [].

(** [log(network, message)]. *)
Definition log (network message : string) : M unit :=
  print_stderr ("[" ++ network ++ "] " ++ message).

(** [bool(s)] for an optional string. *)
Definition truthy_str (s : option string) : bool :=
  match s with
  | Some m => negb (String.eqb m "")
  | None => false
  end.

(** [scan_network(client, network, wallet)]. *)
Definition scan_network (client : Client) (network wallet : string) : M ScanResult.t :=
  log network "Starting wallet scan..." ;;
  scanner <- lift (create_scanner client network) ;;
  result <- scan scanner wallet ;;
  if truthy_str (ScanResult.error result) then
    log network ("ERROR: " ++ or_str (ScanResult.error result) "" ++ ". Skipping network.") ;;
    ret result
  else
    (if 0 <? ScanResult.native_count result then
       let native_symbol :=
         if String.eqb network "solana" then "SOL"
         else match lookup network [("ethereum", "ETH"); ("polygon", "MATIC");
                                    ("base", "ETH"); ("bnb", "BNB")] with
              | Some symbol => symbol
              | None => ""
              end in
       log network ("Found " ++ Py.str_of_Z (ScanResult.native_count result)
                    ++ " native token (" ++ native_symbol ++ ")")
     else ret tt) ;;
    (if String.eqb network "solana" then
       log network ("Found " ++ Py.str_of_Z (ScanResult.token_count result) ++ " SPL tokens") ;;
       log network ("Found " ++ Py.str_of_Z (ScanResult.nft_count result) ++ " NFTs") ;;
       log network "Spam detection not available for Solana"
     else
       log network ("Found " ++ Py.str_of_Z (ScanResult.token_count result)
                    ++ " ERC-20 tokens") ;;
       (if (0 <? ScanResult.nft_count result) || (0 <? ScanResult.erc721_count result)
           || (0 <? ScanResult.erc1155_count result)
        then log network ("Found " ++ Py.str_of_Z (ScanResult.nft_count result) ++ " NFTs ("
                          ++ Py.str_of_Z (ScanResult.erc721_count result) ++ " ERC-721, "
                          ++ Py.str_of_Z (ScanResult.erc1155_count result) ++ " ERC-1155)")
        else ret tt) ;;
       (if 0 <? ScanResult.spam_count result
        then log network (Py.str_of_Z (ScanResult.spam_count result)
                          ++ " assets marked as spam")
        else ret tt)) ;;
    ret result.

(** ** Vocabulary of the scanners' totals *)

(** The address under which the Solana scanner lists a record. *)
Definition solana_address (sa : SolanaAsset.t) : string :=
  if native_like sa then "NATIVE" else SolanaAsset.asset_id sa.

(** An Ethereum wallet with 1 ETH, two tokens, the metadata of the second
    of which the upstream refuses, one clean NFT and one spam NFT. *)
Definition mixed_wallet : AlchemyClient :=
  mkAlchemyClient test_key 0
    (scripted
       [ rpc_result (JStr "0xde0b6b3a7640000");
         rpc_result (JObj [ ("address", JStr test_wallet);
                            ("tokenBalances",
                             JArr [JObj [("contractAddress", JStr "0xToken1");
                                         ("tokenBalance", JStr "0x100")];
                                   JObj [("contractAddress", JStr "0xToken2");
                                         ("tokenBalance", JStr "0x200")]]) ]);
         rpc_result (JObj [("name", JStr "Token One"); ("symbol", JStr "ONE");
                           ("decimals", JNum 2)]);
         rpc_error (-32000) "execution reverted";
         rest_ok
           (JObj [ ("ownedNfts",
                    JArr [ JObj [ ("contract",
                                   JObj [("address", JStr "0xGoodNFT");
                                         ("isSpam", JBool false)]);
                                  ("tokenId", JStr "1"); ("tokenType", JStr "ERC1155");
                                  ("balance", JStr "5") ];
                           JObj [ ("contract",
                                   JObj [("address", JStr "0xSpamNFT");
                                         ("isSpam", JBool true)]);
                                  ("tokenId", JStr "999"); ("tokenType", JStr "ERC721") ] ]) ]) ]).

(** A Solana wallet whose listing holds the wrapped-SOL record twice, one
    token and one NFT. *)
Definition sol_record (balance : Z) : json :=
  JObj [ ("id", JStr WRAPPED_SOL_MINT); ("interface", JStr "FungibleToken");
         ("content", JObj [("metadata", JObj [("symbol", JStr "SOL")])]);
         ("token_info", JObj [("balance", JNum balance); ("decimals", JNum 9)]) ].

Definition two_native_records : AlchemyClient :=
  mkAlchemyClient test_key DEFAULT_MAX_RETRIES
    (scripted
       [ rpc_result
           (JObj [ ("items",
                    JArr [ sol_record 1000000000;
                           JObj [ ("id", JStr "TokenMint"); ("interface", JStr "FungibleToken");
                                  ("token_info",
                                   JObj [("balance", JNum 5); ("decimals", JNum 1)]) ];
                           sol_record 2000000000;
                           JObj [ ("id", JStr "NftMint"); ("interface", JStr "V1_NFT") ] ]) ]) ]).

(** ** Vocabulary of the command line *)

(** A result that some scanner returned for some wallet. *)
Definition from_a_scan (r : ScanResult.t) : Prop :=
  exists scanner wallet w w', scan scanner wallet w = (Ret r, w').

Definition succeeded (r : ScanResult.t) : bool :=
  match ScanResult.error r with
  | None => true
  | Some _ => false
  end.

(** [network.lower() in SUPPORTED_NETWORKS]. *)
Definition supported (network : string) : bool :=
  existsb (String.eqb (lower network)) SUPPORTED_NETWORKS.

(** The tag [log] puts in front of a message. *)
Definition log_tag (network : string) : string := "[" ++ network ++ "] ".

(** A computation that returns [a] and does nothing but print lines tagged
    with [network] to [stderr]. *)
Definition logs {A} (network : string) (a : A) (m : M A) : Prop :=
  forall w, exists lines,
    m w = (Ret a, mkWorld (sent w) (slept w) (lines ++ stderr w)%list) /\
    Forall (fun line => prefix (log_tag network) line = true) lines.

(** The world once [scan_network] has announced the scan. *)
Definition announced (network : string) (w : World) : World :=
  mkWorld (sent w) (slept w) ((log_tag network ++ "Starting wallet scan...") :: stderr w).

(** ** Reading back what [csv.writer] wrote

    A reader of the first record of a text written by [Csv.writerow],
    returning the fields and the rest of the text.  It is not part of the
    program: it serves to show that the written text determines the
    rows. *)

Inductive reading : Type := AtField | InPlain | InQuoted | AfterQuote.

Definition end_of_record (fields : list string) (rest : string)
  : option (list string * string) :=
  match rest with
  | String l rest' => if Ascii.eqb l Csv.lf then Some (fields, rest') else None
  | "" => None
  end.

Fixpoint read_record (state : reading) (fields : list string) (current : string)
    (text : string) : option (list string * string) :=
  match text with
  | "" => None
  | String c rest =>
      match state with
      | AtField =>
          if Ascii.eqb c dquote then read_record InQuoted fields "" rest
          else if Ascii.eqb c "," then read_record AtField (fields ++ [""])%list "" rest
          else if Ascii.eqb c Csv.cr
          then end_of_record (match fields with
                              | [] => []
                              | _ => fields ++ [""]
                              end)%list rest
          else read_record InPlain fields (String c "") rest
      | InPlain =>
          if Ascii.eqb c "," then read_record AtField (fields ++ [current])%list "" rest
          else if Ascii.eqb c Csv.cr then end_of_record (fields ++ [current])%list rest
          else read_record InPlain fields (current ++ String c "") rest
      | InQuoted =>
          if Ascii.eqb c dquote then read_record AfterQuote fields current rest
          else read_record InQuoted fields (current ++ String c "") rest
      | AfterQuote =>
          if Ascii.eqb c dquote
          then read_record InQuoted fields (current ++ String dquote "") rest
          else if Ascii.eqb c "," then read_record AtField (fields ++ [current])%list "" rest
          else if Ascii.eqb c Csv.cr then end_of_record (fields ++ [current])%list rest
          else None
      end
  end.

(** The lines [write_csv_to_stream] writes for [rows], one after the other. *)
Definition written_rows (rows : list (list string)) : string :=
  String.concat "" (map Csv.writerow rows).

(** An NFT and a token whose names hold a comma, a quote and a line break,
    and the same two with an empty token id in place of none and the spam
    flag set, which the CSV row does not show. *)
Definition awkward_nft : Asset.t :=
  Asset.mk "ethereum" ("Bored Ape, " ++ String dquote ("Gold" ++ String dquote " edition"))
           "" "0xNFT" "1" "ERC721" (Some "42") (Some "Apes") false.

Definition awkward_assets : list Asset.t :=
  [ awkward_nft;
    Asset.mk "polygon" ("Two" ++ String Csv.lf "Lines") "TWO" "0xToken" "1.5" "ERC20"
             None None false ].

Definition awkward_assets_again : list Asset.t :=
  [ awkward_nft;
    Asset.mk "polygon" ("Two" ++ String Csv.lf "Lines") "TWO" "0xToken" "1.5" "ERC20"
             (Some "") None true ].

(** ** Vocabulary of the effects *)

(** A computation that leaves [stderr] as it is and only adds to the
    requests sent. *)
Definition silent {A} (m : M A) : Prop :=
  forall w,
    stderr (snd (m w)) = stderr w /\
    exists requests, sent (snd (m w)) = (requests ++ sent w)%list.

(** The line [EVMChainScanner.scan] prints when it skipped tokens. *)
Definition skipped_line (chain : string) (skipped_tokens : Z) : string :=
  "[" ++ chain ++ "] Skipped " ++ Py.str_of_Z skipped_tokens
  ++ " token(s) due to metadata fetch failures".

(** ** Vocabulary of the quantities *)

(** The character of a decimal digit, and the digit as a constructor of
    the standard library's decimal numbers. *)
Definition digit_char (k : N) : ascii := ascii_of_N (48 + k).

Definition digit_cons (k : N) : Decimal.uint -> Decimal.uint :=
  match k with
  | 0 => Decimal.D0 | 1 => Decimal.D1 | 2 => Decimal.D2 | 3 => Decimal.D3
  | 4 => Decimal.D4 | 5 => Decimal.D5 | 6 => Decimal.D6 | 7 => Decimal.D7
  | 8 => Decimal.D8 | _ => Decimal.D9
  end%N.

(** The last [t] decimal digits of [x], leading zeros included. *)
Fixpoint last_digits (t : nat) (x : N) : string :=
  match t with
  | O => ""
  | S t' => last_digits t' (x / 10) ++ String (digit_char (x mod 10)) ""
  end.

(** The fixed-point notation of [c / 10^places] for a [c] that does not
    end in zero when [places] is not zero. *)
Definition fixed_point (c : N) (places : nat) : string :=
  match places with
  | O => Py.str_of_N c
  | S _ => Py.str_of_N (c / 10 ^ N.of_nat places) ++ "." ++ last_digits places c
  end.

(** ** Vocabulary of the order of the assets *)

(** [l1] is [l2] with some of its elements left out. *)
Inductive subsequence {A : Type} : list A -> list A -> Prop :=
| subsequence_nil : subsequence [] []
| subsequence_keep (x : A) (l1 l2 : list A) :
    subsequence l1 l2 -> subsequence (x :: l1) (x :: l2)
| subsequence_skip (x : A) (l1 l2 : list A) :
    subsequence l1 l2 -> subsequence l1 (x :: l2).

(** An asset as the token loop of the EVM scanner makes them. *)
Definition erc20_asset (chain : string) (a : Asset.t) : Prop :=
  Asset.chain a = chain /\ Asset.token_type a = "ERC20" /\
  Asset.token_id a = None /\ Asset.collection_name a = None /\ Asset.is_spam a = false.

(** * Properties *)

(** ** Quantity formatting *)

Lemma format_quantity_zero (d : Z) : format_quantity 0 d = Ret "0".
Proof. reflexivity. Qed.

Lemma format_quantity_no_decimals (r : Z) : format_quantity r 0 = Ret (Py.str_of_Z r).
Proof.
  unfold format_quantity.
  destruct (Z.eqb_spec r 0) as [-> | _]; reflexivity.
Qed.

(** C3.  [format_quantity] does not keep full precision for every magnitude:
    the quotient is a [Decimal] of the default context, rounded to 28
    significant digits.  At [10^28 + 1] with 18 decimals the exact value is
    [10000000000.000000000000000001] and the function returns
    ["10000000000"].  The other parts of the claim hold: zero gives ["0"],
    zero decimals give the plain decimal string, and the 19-digit example is
    exact. *)
Theorem format_quantity_rounds_at_28_digits :
  format_quantity (10 ^ 28 + 1) 18 = Ret "10000000000" /\
  exact_quantity (10 ^ 28 + 1) 18 = "10000000000.000000000000000001" /\
  (forall d, format_quantity 0 d = Ret "0") /\
  (forall r, format_quantity r 0 = Ret (Py.str_of_Z r)) /\
  format_quantity 1234567890123456789 18 = Ret "1.234567890123456789".
Proof.
  split; [vm_compute; reflexivity|].
  split; [vm_compute; reflexivity|].
  split; [exact format_quantity_zero|].
  split; [exact format_quantity_no_decimals|].
  vm_compute; reflexivity.
Qed.

(** ** Reasoning about computations *)

Lemma bind_Ret {A B} (m : M A) (f : A -> M B) w a w1 :
  m w = (Ret a, w1) -> bind m f w = f a w1.
Proof. intros H. unfold bind. rewrite H. reflexivity. Qed.

Lemma bind_Raise {A B} (m : M A) (f : A -> M B) w e w1 :
  m w = (Raise e, w1) -> bind m f w = (Raise e, w1).
Proof. intros H. unfold bind. rewrite H. reflexivity. Qed.

Lemma bind_inv_Ret {A B} (m : M A) (f : A -> M B) w b w' :
  bind m f w = (Ret b, w') ->
  exists a w1, m w = (Ret a, w1) /\ f a w1 = (Ret b, w').
Proof.
  unfold bind. destruct (m w) as [[a | e | why] w1]; intros H; try discriminate.
  exists a, w1. split; [reflexivity | exact H].
Qed.

Lemma try_except_inv_Ret {A} (m : M A) catches handler w r w' :
  try_except m catches handler w = (Ret r, w') ->
  m w = (Ret r, w') \/
  exists e w1, m w = (Raise e, w1) /\ catches e = true /\ handler e w1 = (Ret r, w').
Proof.
  unfold try_except. destruct (m w) as [[a | e | why] w1]; intros H.
  - left. exact H.
  - destruct (catches e) eqn:C; [|discriminate].
    right. exists e, w1. repeat split; assumption.
  - discriminate.
Qed.

Lemma lift_eq {A} (o : outcome A) w : lift o w = (o, w).
Proof. reflexivity. Qed.

Lemma bind_lift {A B} (o : outcome A) (f : A -> M B) w :
  bind (lift o) f w
  = match o with
    | Ret a => f a w
    | Raise e => (Raise e, w)
    | Abort why => (Abort why, w)
    end.
Proof. destruct o; reflexivity. Qed.

(** ** The retry loop *)

Section Retry.

Variable self : AlchemyClient.

Lemma backoff_sent w : sent (snd (backoff w)) = sent w.
Proof. reflexivity. Qed.

(** One pass through the loop body calls the request function once. *)
Lemma attempt_once_calls request_func attempt w :
  counts_calls request_func ->
  List.length (sent (snd (attempt_once self request_func attempt w)))
  = S (List.length (sent w)).
Proof.
  intros Hc. specialize (Hc w).
  unfold attempt_once, try_except, bind.
  destruct (request_func w) as [[response | e | why] w1]; simpl in *.
  - destruct (status_code response =? 429).
    { destruct (attempt <? max_retries self); simpl; exact Hc. }
    destruct (status_code response =? 401); [simpl; exact Hc|].
    destruct (500 <=? status_code response).
    { destruct (attempt <? max_retries self); simpl; exact Hc. }
    unfold raise_for_status.
    destruct ((400 <=? status_code response) && (status_code response <? 500)).
    { simpl. destruct (attempt <? max_retries self); simpl; exact Hc. }
    destruct ((500 <=? status_code response) && (status_code response <? 600)).
    { simpl. destruct (attempt <? max_retries self); simpl; exact Hc. }
    simpl. exact Hc.
  - destruct (is_RequestException e); simpl; [|exact Hc].
    destruct (attempt <? max_retries self); simpl; exact Hc.
  - exact Hc.
Qed.

Lemma retry_loop_calls request_func attempts w :
  counts_calls request_func ->
  (List.length (sent (snd (retry_loop self request_func attempts w)))
   <= List.length (sent w) + List.length attempts)%nat.
Proof.
  intros Hc. revert w. induction attempts as [| attempt rest IH]; intros w.
  - simpl. lia.
  - pose proof (attempt_once_calls request_func attempt w Hc) as H1.
    simpl. unfold bind.
    destruct (attempt_once self request_func attempt w) as [[[response |] | e | why] w1];
      simpl in *; try lia.
    specialize (IH w1). lia.
Qed.

Lemma range_length n : List.length (range n) = Z.to_nat n.
Proof. unfold range. rewrite length_map, length_seq. reflexivity. Qed.

Lemma session_send_counts rq : counts_calls (session_send self rq).
Proof.
  intros w. unfold session_send.
  destruct (session self (List.length (sent w)) rq); reflexivity.
Qed.

End Retry.

Section RetryOverSession.

Variable self : AlchemyClient.
Variable rq : Request.

Lemma status_at_Some n code :
  status_at (session self) rq n = Some code ->
  exists r, session self n rq = Replies r /\ reply_status r = code.
Proof.
  unfold status_at. destruct (session self n rq) as [r | e]; [|discriminate].
  intros [= <-]. exists r. split; reflexivity.
Qed.

(** A 429 with attempts left: pause and go round again. *)
Lemma attempt_429_retry attempt w :
  status_at (session self) rq (List.length (sent w)) = Some 429 ->
  attempt < max_retries self ->
  attempt_once self (session_send self rq) attempt w = (Ret None, after 1 1 rq w).
Proof.
  intros Hs Ha. apply status_at_Some in Hs. destruct Hs as (r & Hr & Hc).
  apply Z.ltb_lt in Ha.
  unfold attempt_once, try_except, bind, session_send. rewrite Hr. simpl.
  rewrite Hc. simpl. rewrite Ha. reflexivity.
Qed.

(** A 429 on the last attempt: the rate-limit error. *)
Lemma attempt_429_exhausted attempt w :
  status_at (session self) rq (List.length (sent w)) = Some 429 ->
  max_retries self <= attempt ->
  attempt_once self (session_send self rq) attempt w
  = (Raise (AlchemyRateLimitError "Rate limit exceeded and max retries reached" (Some 429)),
     after 1 0 rq w).
Proof.
  intros Hs Ha. apply status_at_Some in Hs. destruct Hs as (r & Hr & Hc).
  apply Z.ltb_ge in Ha.
  unfold attempt_once, try_except, bind, session_send. rewrite Hr. simpl.
  rewrite Hc. simpl. rewrite Ha. reflexivity.
Qed.

(** A 200: the response is returned. *)
Lemma attempt_200 attempt w r :
  session self (List.length (sent w)) rq = Replies r ->
  reply_status r = 200 ->
  attempt_once self (session_send self rq) attempt w
  = (Ret (Some (mkResponse 200 (reply_reason r)
                           (reported_url (session self) (List.length (sent w)) rq)
                           (reply_body r))), after 1 0 rq w).
Proof.
  intros Hr Hc.
  unfold attempt_once, try_except, bind, session_send. rewrite Hr. simpl.
  rewrite Hc. reflexivity.
Qed.

Lemma range_first n : 1 <= n -> exists rest, range n = 0 :: rest.
Proof.
  intros H. unfold range.
  destruct (Z.to_nat n) as [| k] eqn:E; try lia.
  exists (map Z.of_nat (seq 1 k)). reflexivity.
Qed.

Lemma range_first_three n :
  3 <= n -> exists rest, range n = 0 :: 1 :: 2 :: rest.
Proof.
  intros H. unfold range.
  destruct (Z.to_nat n) as [| [| [| k]]] eqn:E; try lia.
  exists (map Z.of_nat (seq 3 k)). reflexivity.
Qed.

Lemma after_after k p k' p' w :
  after k p rq (after k' p' rq w) = after (k + k') (p + p') rq w.
Proof.
  unfold after. simpl. f_equal.
  - rewrite repeat_app, <- app_assoc. reflexivity.
  - lia.
Qed.

Lemma after_sent_length k p w :
  List.length (sent (after k p rq w)) = (k + List.length (sent w))%nat.
Proof. unfold after. simpl. rewrite length_app, repeat_length. reflexivity. Qed.

(** An answer that ends in the [except] clause: a pause and another round
    while attempts are left, the ["Request failed"] error on the last. *)
Lemma attempt_handled attempt w m :
  handled_message (reported_url (session self) (List.length (sent w)) rq)
                  (session self (List.length (sent w)) rq) = Some m ->
  attempt_once self (session_send self rq) attempt w
  = if attempt <? max_retries self
    then (Ret None, after 1 1 rq w)
    else (Raise (AlchemyAPIError ("Request failed: " ++ _sanitize_error_message self m) None),
          after 1 0 rq w).
Proof.
  unfold handled_message. intros H.
  unfold attempt_once, try_except, bind, session_send.
  destruct (session self (List.length (sent w)) rq) as [r | e].
  - destruct ((400 <=? reply_status r) && (reply_status r <? 500)
              && negb (reply_status r =? 401) && negb (reply_status r =? 429)) eqn:E;
      [|discriminate].
    injection H as <-.
    apply andb_prop in E. destruct E as [E E429].
    apply andb_prop in E. destruct E as [E E401].
    pose proof E as E4xx.
    apply andb_prop in E. destruct E as [Elo Ehi].
    apply negb_true_iff in E401, E429.
    simpl. rewrite E429, E401.
    assert (E500 : (500 <=? reply_status r) = false) by lia.
    rewrite E500. unfold raise_for_status. simpl. rewrite E4xx. simpl.
    destruct (attempt <? max_retries self); reflexivity.
  - destruct e as [| | m' | |]; try discriminate. injection H as <-. simpl.
    destruct (attempt <? max_retries self); reflexivity.
Qed.

(** When every answer ends in the [except] clause, every attempt is made
    and the error raised is built from the last answer. *)
Lemma retry_loop_all_handled k :
  forall a w,
    Z.of_nat (a + k) = max_retries self ->
    (forall n, (n <= k)%nat ->
               handled_message (reported_url (session self) (List.length (sent w) + n)%nat rq)
                               (session self (List.length (sent w) + n)%nat rq) <> None) ->
    exists m,
      handled_message (reported_url (session self) (List.length (sent w) + k)%nat rq)
                      (session self (List.length (sent w) + k)%nat rq) = Some m /\
      retry_loop self (session_send self rq) (map Z.of_nat (seq a (S k))) w
      = (Raise (AlchemyAPIError ("Request failed: " ++ _sanitize_error_message self m) None),
         after (S k) k rq w).
Proof.
  induction k as [| k IH]; intros a w Ha Hall.
  - destruct (handled_message (reported_url (session self) (List.length (sent w) + 0)%nat rq)
                (session self (List.length (sent w) + 0)%nat rq))
      as [m |] eqn:Hm; [|exact (False_ind _ (Hall 0%nat (le_n 0) Hm))].
    exists m. split; [reflexivity|].
    rewrite Nat.add_0_r in Hm. simpl retry_loop.
    pose proof (attempt_handled (Z.of_nat a) w m Hm) as Hat.
    assert (E : (Z.of_nat a <? max_retries self) = false) by lia.
    rewrite E in Hat. rewrite (bind_Raise _ _ _ _ _ Hat). reflexivity.
  - destruct (handled_message (reported_url (session self) (List.length (sent w)) rq)
                (session self (List.length (sent w)) rq))
      as [m0 |] eqn:Hm0.
    2: { exfalso. apply (Hall 0%nat); [lia|]. rewrite Nat.add_0_r. exact Hm0. }
    destruct (IH (S a) (after 1 1 rq w)) as (m & Hm & Hloop).
    + lia.
    + intros n Hn. rewrite after_sent_length.
      replace (1 + List.length (sent w) + n)%nat with (List.length (sent w) + S n)%nat by lia.
      apply Hall. lia.
    + exists m. split.
      * rewrite after_sent_length in Hm.
        replace (List.length (sent w) + S k)%nat with (1 + List.length (sent w) + k)%nat by lia.
        exact Hm.
      * change (seq a (S (S k))) with (a :: seq (S a) (S k)).
        pose proof (attempt_handled (Z.of_nat a) w m0 Hm0) as Hat.
        assert (E : (Z.of_nat a <? max_retries self) = true) by lia.
        rewrite E in Hat.
        change (map Z.of_nat (a :: seq (S a) (S k)))
          with (Z.of_nat a :: map Z.of_nat (seq (S a) (S k))).
        change (retry_loop self (session_send self rq)
                  (Z.of_nat a :: map Z.of_nat (seq (S a) (S k))) w)
          with (bind (attempt_once self (session_send self rq) (Z.of_nat a))
                  (fun r => match r with
                            | Some response => ret response
                            | None => retry_loop self (session_send self rq)
                                        (map Z.of_nat (seq (S a) (S k)))
                            end) w).
        rewrite (bind_Ret _ _ _ _ _ Hat). rewrite Hloop. rewrite after_after.
        replace (S k + 1)%nat with (S (S k)) by lia.
        replace (k + 1)%nat with (S k) by lia. reflexivity.
Qed.

Lemma execute_all_handled w :
  0 <= max_retries self ->
  (forall n, (n <= Z.to_nat (max_retries self))%nat ->
             handled_message (reported_url (session self) (List.length (sent w) + n)%nat rq)
                             (session self (List.length (sent w) + n)%nat rq) <> None) ->
  exists m,
    handled_message
      (reported_url (session self) (List.length (sent w) + Z.to_nat (max_retries self))%nat rq)
      (session self (List.length (sent w) + Z.to_nat (max_retries self))%nat rq) = Some m /\
    _execute_with_retry self (session_send self rq) w
    = (Raise (AlchemyAPIError ("Request failed: " ++ _sanitize_error_message self m) None),
       after (S (Z.to_nat (max_retries self))) (Z.to_nat (max_retries self)) rq w).
Proof.
  intros Hm Hall. unfold _execute_with_retry, range.
  replace (Z.to_nat (max_retries self + 1)) with (S (Z.to_nat (max_retries self))) by lia.
  apply (retry_loop_all_handled (Z.to_nat (max_retries self)) 0%nat w); [lia | exact Hall].
Qed.

(** A request answered at once with status 200. *)
Lemma execute_answered w r :
  0 <= max_retries self ->
  session self (List.length (sent w)) rq = Replies r ->
  reply_status r = 200 ->
  _execute_with_retry self (session_send self rq) w
  = (Ret (mkResponse 200 (reply_reason r)
                     (reported_url (session self) (List.length (sent w)) rq)
                     (reply_body r)), after 1 0 rq w).
Proof.
  intros Hm Hr Hc.
  destruct (range_first (max_retries self + 1)) as [rest Hrange]; [lia|].
  unfold _execute_with_retry. rewrite Hrange. simpl retry_loop.
  rewrite (bind_Ret _ _ _ _ _ (attempt_200 0 w r Hr Hc)). reflexivity.
Qed.

End RetryOverSession.

(** C1.  The retry loop calls the request function at most
    [max_retries + 1] times; on the statuses 429, 429, 200 it makes exactly
    three attempts (with two pauses) and returns the third response; on four
    429s with [max_retries = 2] it makes exactly three attempts and raises
    the rate-limit error with status 429. *)
Theorem execute_with_retry_attempts (self : AlchemyClient) (w : World) :
  (forall request_func,
      counts_calls request_func ->
      -1 <= max_retries self ->
      Z.of_nat (List.length (sent (snd (_execute_with_retry self request_func w))))
      <= Z.of_nat (List.length (sent w)) + (max_retries self + 1)) /\
  (forall rq,
      2 <= max_retries self ->
      next_statuses self rq w 3 = [Some 429; Some 429; Some 200] ->
      exists response,
        _execute_with_retry self (session_send self rq) w
        = (Ret response, after 3 2 rq w) /\
        status_code response = 200 /\
        session self (2 + List.length (sent w))%nat rq
        = Replies (mkReply 200 (reason response) (body response))) /\
  (forall rq,
      max_retries self = 2 ->
      next_statuses self rq w 4 = [Some 429; Some 429; Some 429; Some 429] ->
      _execute_with_retry self (session_send self rq) w
      = (Raise (AlchemyRateLimitError "Rate limit exceeded and max retries reached" (Some 429)),
         after 3 2 rq w)).
Proof.
  split; [|split].
  - intros request_func Hc Hm.
    pose proof (retry_loop_calls self request_func (range (max_retries self + 1)) w Hc) as H.
    rewrite range_length in H. unfold _execute_with_retry. lia.
  - intros rq Hm Hs. unfold next_statuses in Hs. simpl in Hs.
    injection Hs as H0 H1 H2.
    destruct (range_first_three (max_retries self + 1)) as [rest Hr]; [lia|].
    apply status_at_Some in H2. destruct H2 as (r & Hr2 & Hc2).
    exists (mkResponse 200 (reply_reason r)
                       (reported_url (session self) (2 + List.length (sent w))%nat rq)
                       (reply_body r)).
    split; [|split].
    + unfold _execute_with_retry. rewrite Hr. simpl retry_loop.
      rewrite (bind_Ret _ _ _ _ _ (attempt_429_retry self rq 0 w H0 ltac:(lia))).
      rewrite (bind_Ret _ _ _ _ _
                 (attempt_429_retry self rq 1 (after 1 1 rq w)
                    ltac:(rewrite after_sent_length; exact H1) ltac:(lia))).
      rewrite after_after.
      rewrite (bind_Ret _ _ _ _ _
                 (attempt_200 self rq 2 (after 2 2 rq w) r
                    ltac:(rewrite after_sent_length; exact Hr2) Hc2)).
      rewrite after_after. reflexivity.
    + reflexivity.
    + simpl. rewrite Hr2. destruct r as [st rs bd]. simpl in *. subst st. reflexivity.
  - intros rq Hm Hs. unfold next_statuses in Hs. simpl in Hs.
    injection Hs as H0 H1 H2 _.
    unfold _execute_with_retry. rewrite Hm. simpl retry_loop.
    rewrite (bind_Ret _ _ _ _ _ (attempt_429_retry self rq 0 w H0 ltac:(lia))).
    rewrite (bind_Ret _ _ _ _ _
               (attempt_429_retry self rq 1 (after 1 1 rq w)
                  ltac:(rewrite after_sent_length; exact H1) ltac:(lia))).
    rewrite after_after.
    rewrite (bind_Raise _ _ _ _ _
               (attempt_429_exhausted self rq 2 (after 2 2 rq w)
                  ltac:(rewrite after_sent_length; exact H2) ltac:(lia))).
    rewrite after_after. reflexivity.
Qed.

Lemma execute_with_retry_attempts_witness :
  let ok := mkAlchemyClient test_key 3
              (scripted [plain 429 "Too Many Requests"; plain 429 "Too Many Requests";
                         rpc_result (JStr "0x123")]) in
  let limited := mkAlchemyClient test_key 2
                   (scripted [plain 429 "Too Many Requests"; plain 429 "Too Many Requests";
                              plain 429 "Too Many Requests"; plain 429 "Too Many Requests"]) in
  Z.of_nat (List.length (sent (snd (_execute_with_retry ok (session_send ok test_post) world0))))
  <= 0 + (3 + 1) /\
  (exists response,
      _execute_with_retry ok (session_send ok test_post) world0
      = (Ret response, after 3 2 test_post world0) /\
      status_code response = 200 /\
      session ok 2%nat test_post = Replies (mkReply 200 (reason response) (body response))) /\
  _execute_with_retry limited (session_send limited test_post) world0
  = (Raise (AlchemyRateLimitError "Rate limit exceeded and max retries reached" (Some 429)),
     after 3 2 test_post world0).
Proof.
  intros ok limited.
  split; [|split].
  - apply (proj1 (execute_with_retry_attempts ok world0) (session_send ok test_post)).
    + apply session_send_counts.
    + simpl. lia.
  - apply (proj1 (proj2 (execute_with_retry_attempts ok world0)) test_post).
    + simpl. lia.
    + reflexivity.
  - apply (proj2 (proj2 (execute_with_retry_attempts limited world0)) test_post).
    + reflexivity.
    + reflexivity.
Defined.

(** ** Other client errors *)

(** C5.  A status from 400 to 499 other than 401 and 429 (404, say) does
    not fail with an error that carries the status.  The [HTTPError] of
    [raise_for_status] is raised inside the [try] whose handler catches
    [RequestException], so the answer is treated as a transport failure:
    while the upstream keeps answering so, every one of the
    [max_retries + 1] attempts is made, with a pause before each retry, and
    the error raised at the end is ["Request failed: ..."] with no status
    code.  Its text is the sanitized message of the last [HTTPError], which
    quotes the URL that the last response reports. *)
Theorem client_error_is_retried_and_loses_its_status
    (self : AlchemyClient) (rq : Request) (w : World) (code : Z) (reason : string) :
  0 <= max_retries self ->
  400 <= code < 500 -> code <> 401 -> code <> 429 ->
  (forall n, (n <= Z.to_nat (max_retries self))%nat ->
             exists b,
               session self (List.length (sent w) + n)%nat rq = Replies (mkReply code reason b)) ->
  let last := (List.length (sent w) + Z.to_nat (max_retries self))%nat in
  let e := AlchemyAPIError
             ("Request failed: "
              ++ _sanitize_error_message self
                   (Py.str_of_Z code ++ " Client Error: " ++ reason ++ " for url: "
                    ++ reported_url (session self) last rq))
             None in
  _execute_with_retry self (session_send self rq) w
  = (Raise e, after (S (Z.to_nat (max_retries self))) (Z.to_nat (max_retries self)) rq w) /\
  exn_status_code e = None.
Proof.
  intros Hm Hc H401 H429 Hall last e. split; [|reflexivity].
  assert (Hmsg : forall n, (n <= Z.to_nat (max_retries self))%nat ->
            handled_message (reported_url (session self) (List.length (sent w) + n)%nat rq)
                            (session self (List.length (sent w) + n)%nat rq)
            = Some (Py.str_of_Z code ++ " Client Error: " ++ reason ++ " for url: "
                    ++ reported_url (session self) (List.length (sent w) + n)%nat rq)).
  { intros n Hn. destruct (Hall n Hn) as [b ->]. unfold handled_message. simpl.
    replace ((400 <=? code) && (code <? 500) && negb (code =? 401) && negb (code =? 429))
      with true; [reflexivity|].
    symmetry. repeat (apply andb_true_intro; split); lia. }
  destruct (execute_all_handled self rq w Hm) as (m & Hlast & Hrun).
  - intros n Hn. rewrite (Hmsg n Hn). discriminate.
  - rewrite (Hmsg _ (le_n _)) in Hlast. injection Hlast as <-. exact Hrun.
Qed.

Lemma client_error_is_retried_and_loses_its_status_witness :
  let self := mkAlchemyClient test_key 2 not_found_with_query in
  _execute_with_retry self (session_send self test_get) world0
  = (Raise (AlchemyAPIError
              "Request failed: 404 Client Error: Not Found for url: https://eth-mainnet.g.alchemy.com/nft/v3/[REDACTED]/getNFTsForOwner?owner=0xd8dA6BF26964aF9D7eEd9e03E53415D37aA96045&withMetadata=true&pageSize=100"
              None),
     after 3 2 test_get world0) /\
  exn_status_code
    (AlchemyAPIError
       "Request failed: 404 Client Error: Not Found for url: https://eth-mainnet.g.alchemy.com/nft/v3/[REDACTED]/getNFTsForOwner?owner=0xd8dA6BF26964aF9D7eEd9e03E53415D37aA96045&withMetadata=true&pageSize=100"
       None) = None.
Proof.
  intros self.
  apply (client_error_is_retried_and_loses_its_status self test_get world0 404 "Not Found").
  - simpl. lia.
  - lia.
  - lia.
  - lia.
  - intros n _. exists None. reflexivity.
Defined.

(** ** Credential redaction *)

Lemma contains_app_r key prefix message :
  Py.contains key message = true -> Py.contains key (prefix ++ message) = true.
Proof.
  intros H. induction prefix as [| c rest IH]; [exact H|].
  simpl. rewrite IH. apply orb_true_r.
Qed.

(** C4.  The message of a JSON-RPC error is not sanitized: [_request]
    raises ["API error: "] followed by the upstream's message as it came,
    so a credential held by that message is in the error verbatim.  The
    transport-failure path of [_execute_with_retry] does pass the message
    through [_sanitize_error_message]. *)
Theorem upstream_error_message_is_not_sanitized
    (self : AlchemyClient) (network method base : string) (params : json) (w : World) :
  _get_base_url self network = Ret base ->
  0 <= max_retries self ->
  (forall reason o err message code,
      (forall rq, session self (List.length (sent w)) rq
                  = Replies (mkReply 200 reason (Some (JObj o)))) ->
      assoc_get "error" o = Some (JObj err) ->
      assoc_get "message" err = Some (JStr message) ->
      assoc_get "code" err = Some (JNum code) ->
      Py.contains (api_key self) message = true ->
      _request self network method params w
      = (Raise (AlchemyAPIError ("API error: " ++ message) (Some code)),
         mkWorld (rpc_request base method params :: sent w) (slept w) (stderr w)) /\
      Py.contains (api_key self) ("API error: " ++ message) = true) /\
  (forall message,
      (forall n rq, (n <= Z.to_nat (max_retries self))%nat ->
                    session self (List.length (sent w) + n)%nat rq
                    = Fails (RequestException message)) ->
      exists w',
        _request self network method params w
        = (Raise (AlchemyAPIError
                    ("Request failed: " ++ Py.replace (api_key self) "[REDACTED]" message)
                    None), w')).
Proof.
  intros Hb Hm. split.
  - intros reason o err message code Hans He Hmsg Hcode Hkey. split.
    + unfold _request. rewrite Hb. rewrite bind_lift.
      unfold session_post. fold (rpc_request base method params).
      rewrite (bind_Ret _ _ _ _ _
                 (execute_answered self (rpc_request base method params) w _ Hm
                    (Hans _) eq_refl)).
      unfold response_json. simpl body.
      rewrite (bind_Ret (ret (JObj o)) _ _ (JObj o) _ eq_refl).
      rewrite He. rewrite bind_lift. simpl dict_get. rewrite Hmsg. cbv iota beta.
      rewrite bind_lift. rewrite Hcode. cbv iota beta.
      rewrite bind_lift. reflexivity.
    + apply contains_app_r. exact Hkey.
  - intros message Hall.
    destruct (execute_all_handled self (rpc_request base method params) w Hm)
      as (m & Hlast & Hrun).
    + intros n Hn. rewrite (Hall n _ Hn). discriminate.
    + rewrite (Hall _ _ (le_n _)) in Hlast. injection Hlast as <-.
      eexists. unfold _request. rewrite Hb. rewrite bind_lift.
      unfold session_post. fold (rpc_request base method params).
      rewrite (bind_Raise _ _ _ _ _ Hrun). reflexivity.
Qed.

Lemma upstream_error_message_is_not_sanitized_witness :
  let leaking := mkAlchemyClient test_key DEFAULT_MAX_RETRIES
                   (scripted [rpc_error (-32000) "Invalid key test-api-key-12345"]) in
  let refused := mkAlchemyClient test_key 0
                   (always (Fails (RequestException
                      "Connection refused: https://eth-mainnet.g.alchemy.com/v2/test-api-key-12345"))) in
  (_request leaking "ethereum" "test_method" (JArr []) world0
   = (Raise (AlchemyAPIError "API error: Invalid key test-api-key-12345" (Some (-32000))),
      mkWorld [test_post] 0 []) /\
   Py.contains test_key "API error: Invalid key test-api-key-12345" = true) /\
  (exists w',
      _request refused "ethereum" "test_method" (JArr []) world0
      = (Raise (AlchemyAPIError
                  "Request failed: Connection refused: https://eth-mainnet.g.alchemy.com/v2/[REDACTED]"
                  None), w')).
Proof.
  intros leaking refused. split.
  - apply (proj1 (upstream_error_message_is_not_sanitized
                    leaking "ethereum" "test_method" test_url (JArr []) world0
                    eq_refl ltac:(vm_compute; discriminate))
             "OK"
             [("jsonrpc", JStr "2.0"); ("id", JNum 1);
              ("error", JObj [("code", JNum (-32000));
                              ("message", JStr "Invalid key test-api-key-12345")])]
             [("code", JNum (-32000)); ("message", JStr "Invalid key test-api-key-12345")]).
    + intros rq. reflexivity.
    + reflexivity.
    + reflexivity.
    + reflexivity.
    + vm_compute. reflexivity.
  - apply (proj2 (upstream_error_message_is_not_sanitized
                    refused "ethereum" "test_method" test_url (JArr []) world0
                    eq_refl ltac:(vm_compute; discriminate))
             "Connection refused: https://eth-mainnet.g.alchemy.com/v2/test-api-key-12345").
    intros n rq _. reflexivity.
Defined.

(** ** Token-balance pagination *)

Section Pagination.

Variable self : AlchemyClient.

(** A request answered at once by a successful JSON-RPC reply. *)
Lemma _request_answered network method params w base result :
  _get_base_url self network = Ret base ->
  0 <= max_retries self ->
  (forall rq, answers_with (session self (List.length (sent w)) rq) result) ->
  _request self network method params w
  = (Ret result,
     mkWorld (rpc_request base method params :: sent w) (slept w) (stderr w)).
Proof.
  intros Hb Hm Ha.
  destruct (Ha (rpc_request base method params)) as (rs & o & Hr & He & Hres).
  destruct (range_first (max_retries self + 1)) as [rest Hrange]; [lia|].
  unfold _request. rewrite Hb.
  rewrite (bind_Ret _ _ _ _ _ (lift_eq _ _)).
  unfold _execute_with_retry. rewrite Hrange. simpl retry_loop.
  unfold session_post. fold (rpc_request base method params).
  rewrite (bind_Ret _ _ _ _ _
             (bind_Ret _ _ _ _ _
                (attempt_200 self (rpc_request base method params) 0 w _ Hr eq_refl))).
  unfold ret at 1. unfold response_json. simpl body.
  rewrite (bind_Ret (ret (JObj o)) _ _ (JObj o) _ eq_refl).
  rewrite He, Hres. reflexivity.
Qed.

Variables (network wallet base : string).
Hypothesis base_url : _get_base_url self network = Ret base.
Hypothesis retries : 0 <= max_retries self.

(** One turn of the loop on an answered page. *)
Lemma token_balances_loop_step n page_key acc w page es :
  (forall rq, answers_with (session self (List.length (sent w)) rq) page) ->
  page_entries page = Ret es ->
  token_balances_loop self (S n) network wallet page_key acc w
  = let w1 := mkWorld (token_balances_request base wallet page_key :: sent w)
                      (slept w) (stderr w) in
    if has_cursor page
    then token_balances_loop self n network wallet (page_cursor page) (acc ++ es) w1
    else (Ret (acc ++ es)%list, w1).
Proof.
  intros Ha He. cbv zeta.
  unfold has_cursor, page_cursor.
  unfold page_entries in He.
  destruct page as [| | | | |o]; try discriminate He.
  simpl dict_get in *. simpl obind in He.
  destruct (iterate _) as [tbs | |] eqn:Hit; try discriminate He. simpl in He.
  simpl token_balances_loop.
  rewrite (bind_Ret _ _ _ _ _ (_request_answered _ _ _ _ _ _ base_url retries Ha)).
  fold (token_balances_request base wallet page_key).
  rewrite bind_lift. simpl dict_get. cbv iota beta.
  rewrite bind_lift, Hit, bind_lift, He, bind_lift. simpl dict_get. cbv iota beta.
  destruct (truthy _); reflexivity.
Qed.

Lemma token_balances_loop_pages first_pages :
  forall n page_key acc w last_page entries,
    (forall i page rq,
        nth_error (first_pages ++ [last_page]) i = Some page ->
        answers_with (session self (List.length (sent w) + i)%nat rq) page) ->
    Forall (fun p => has_cursor p = true) first_pages ->
    has_cursor last_page = false ->
    Forall2 (fun p es => page_entries p = Ret es) (first_pages ++ [last_page]) entries ->
    (List.length first_pages < n)%nat ->
    token_balances_loop self n network wallet page_key acc w
    = (Ret (acc ++ List.concat entries)%list,
       mkWorld (rev (map (token_balances_request base wallet)
                         (page_key :: map page_cursor first_pages)) ++ sent w)
               (slept w) (stderr w)).
Proof.
  induction first_pages as [| page pages IH];
    intros n page_key acc w last_page entries Hans Hcur Hlast Hent Hn.
  - simpl in *. inversion Hent as [| p es ps ess Hes Hrest]; subst.
    inversion Hrest; subst.
    destruct n as [| n]; [lia|].
    rewrite (token_balances_loop_step n page_key acc w last_page es).
    + cbv zeta. rewrite Hlast. simpl. rewrite app_nil_r. reflexivity.
    + intros rq. specialize (Hans 0%nat last_page rq eq_refl).
      rewrite Nat.add_0_r in Hans. exact Hans.
    + exact Hes.
  - simpl in Hent. inversion Hent as [| p es ps ess Hes Hrest]; subst.
    inversion Hcur as [| p' ps' Hc Hcs]; subst.
    destruct n as [| n]; [simpl in Hn; lia|].
    rewrite (token_balances_loop_step n page_key acc w page es).
    + cbv zeta. rewrite Hc.
      rewrite (IH n (page_cursor page) (acc ++ es)%list _ last_page ess).
      * simpl. f_equal.
        -- rewrite <- app_assoc. reflexivity.
        -- f_equal. rewrite <- !app_assoc. reflexivity.
      * intros i pg rq Hi. simpl sent. simpl List.length.
        specialize (Hans (S i) pg rq Hi).
        replace (S (List.length (sent w)) + i)%nat with (List.length (sent w) + S i)%nat by lia.
        exact Hans.
      * exact Hcs.
      * exact Hlast.
      * exact Hrest.
      * simpl in Hn. lia.
    + intros rq. specialize (Hans 0%nat page rq eq_refl).
      rewrite Nat.add_0_r in Hans. exact Hans.
    + exact Hes.
Qed.

End Pagination.

(** ** Only non-zero balances are returned *)

Lemma token_balance_entry_positive tb b :
  token_balance_entry tb = Ret (Some b) -> positive_balance b.
Proof.
  unfold token_balance_entry.
  destruct (dict_get tb "tokenBalance" (JStr "0x0")) as [balance | |]; simpl; try discriminate.
  destruct (truthy balance && negb (is_str "0x0" balance)); [|discriminate].
  destruct balance as [| | | s | |]; simpl; try discriminate.
  destruct (Hex.int16 s) as [n |] eqn:Hn; simpl; [|discriminate].
  destruct (0 <? n) eqn:Hpos; [|discriminate].
  destruct (dict_get tb "contractAddress" (JStr "")) as [a | |]; simpl; try discriminate.
  destruct (as_str "contract_address" a) as [ca | |]; simpl; try discriminate.
  intros [= <-]. exists n. simpl. split; [exact Hn | apply Z.ltb_lt; exact Hpos].
Qed.

Lemma token_balance_entries_positive tbs :
  forall es, token_balance_entries tbs = Ret es -> Forall positive_balance es.
Proof.
  induction tbs as [| tb rest IH]; intros es; simpl.
  - intros [= <-]. constructor.
  - destruct (token_balance_entry tb) as [e | |] eqn:He; simpl; try discriminate.
    destruct (token_balance_entries rest) as [es' | |]; simpl; try discriminate.
    intros [= <-]. specialize (IH es' eq_refl).
    destruct e as [b |]; [|exact IH].
    constructor; [exact (token_balance_entry_positive tb b He) | exact IH].
Qed.

Lemma lift_inv_Ret {A} (o : outcome A) w a w' :
  lift o w = (Ret a, w') -> o = Ret a /\ w' = w.
Proof. unfold lift. intros [= -> ->]. split; reflexivity. Qed.

Lemma token_balances_loop_positive self n :
  forall network wallet page_key acc w l w',
    Forall positive_balance acc ->
    token_balances_loop self n network wallet page_key acc w = (Ret l, w') ->
    Forall positive_balance l.
Proof.
  induction n as [| n IH]; intros network wallet page_key acc w l w' Hacc H.
  - discriminate H.
  - simpl in H.
    apply bind_inv_Ret in H. destruct H as (result & w1 & _ & H).
    apply bind_inv_Ret in H. destruct H as (token_balances & w2 & _ & H).
    apply bind_inv_Ret in H. destruct H as (tbs & w3 & _ & H).
    apply bind_inv_Ret in H. destruct H as (found & w4 & Hfound & H).
    apply bind_inv_Ret in H. destruct H as (page_key' & w5 & _ & H).
    apply lift_inv_Ret in Hfound. destruct Hfound as [Hfound _].
    apply token_balance_entries_positive in Hfound.
    assert (Hall : Forall positive_balance (acc ++ found)%list)
      by (apply Forall_app; split; assumption).
    destruct (negb (truthy page_key')).
    + injection H as <- _. exact Hall.
    + exact (IH _ _ _ _ _ _ _ Hall H).
Qed.

(** C6.  [get_token_balances] asks for the next page as long as the page
    just received has a non-empty [pageKey], sending that key along, and
    returns the entries of the pages in page order: for [k] pages with a
    cursor followed by one without, exactly [k + 1] requests go out.  Every
    balance returned is present and non-zero, and an entry whose balance is
    absent, null or zero contributes nothing. *)
Theorem get_token_balances_paginates_and_filters
    (self : AlchemyClient) (fuel : nat) (network wallet : string) (w : World) :
  (forall base first_pages last_page entries,
      String.eqb network "solana" = false ->
      _get_base_url self network = Ret base ->
      0 <= max_retries self ->
      (forall i page rq,
          nth_error (first_pages ++ [last_page]) i = Some page ->
          answers_with (session self (List.length (sent w) + i)%nat rq) page) ->
      Forall (fun p => has_cursor p = true) first_pages ->
      has_cursor last_page = false ->
      Forall2 (fun p es => page_entries p = Ret es) (first_pages ++ [last_page]) entries ->
      (List.length first_pages < fuel)%nat ->
      get_token_balances self fuel network wallet w
      = (Ret (List.concat entries),
         mkWorld (rev (map (token_balances_request base wallet)
                           (JNull :: map page_cursor first_pages)) ++ sent w)
                 (slept w) (stderr w))) /\
  (forall l w',
      get_token_balances self fuel network wallet w = (Ret l, w') ->
      Forall positive_balance l) /\
  (forall o,
      assoc_get "tokenBalance" o = None \/
      assoc_get "tokenBalance" o = Some JNull \/
      (exists s, assoc_get "tokenBalance" o = Some (JStr s) /\ Hex.int16 s = Some 0) ->
      token_balance_entry (JObj o) = Ret None).
Proof.
  split; [|split].
  - intros base first_pages last_page entries Hsol Hbase Hm Hans Hcur Hlast Hent Hfuel.
    unfold get_token_balances. rewrite Hsol.
    exact (token_balances_loop_pages self network wallet base Hbase Hm first_pages
             fuel JNull [] w last_page entries Hans Hcur Hlast Hent Hfuel).
  - intros l w'. unfold get_token_balances.
    destruct (String.eqb network "solana"); [discriminate|].
    apply token_balances_loop_positive. constructor.
  - intros o [H | [H | (s & H & Hz)]]; unfold token_balance_entry; simpl; rewrite H; simpl.
    + reflexivity.
    + reflexivity.
    + destruct (negb (s =? "")%string && negb (s =? "0x0")%string); [|reflexivity].
      simpl. rewrite Hz. reflexivity.
Qed.

Lemma get_token_balances_paginates_and_filters_witness :
  get_token_balances two_pages 5 "ethereum" test_wallet world0
  = (Ret [TokenBalance.mk "0xToken1" "0x100"; TokenBalance.mk "0xToken2" "0x200"],
     mkWorld [token_balances_request test_url test_wallet (JStr "next_page_key");
              token_balances_request test_url test_wallet JNull] 0 []) /\
  Forall positive_balance
    [TokenBalance.mk "0xToken1" "0x100"; TokenBalance.mk "0xToken2" "0x200"] /\
  token_balance_entry
    (JObj [("contractAddress", JStr "0xZeroBalance"); ("tokenBalance", JStr "0x0")])
  = Ret None.
Proof.
  pose proof (get_token_balances_paginates_and_filters
                two_pages 5 "ethereum" test_wallet world0) as (Hpages & Hpos & Hzero).
  assert (Hrun :
    get_token_balances two_pages 5 "ethereum" test_wallet world0
    = (Ret [TokenBalance.mk "0xToken1" "0x100"; TokenBalance.mk "0xToken2" "0x200"],
       mkWorld [token_balances_request test_url test_wallet (JStr "next_page_key");
                token_balances_request test_url test_wallet JNull] 0 [])).
  { apply (Hpages test_url [page_one] page_two
             [[TokenBalance.mk "0xToken1" "0x100"]; [TokenBalance.mk "0xToken2" "0x200"]]).
    - reflexivity.
    - reflexivity.
    - vm_compute. discriminate.
    - intros i page rq Hi.
      destruct i as [| [| i]]; simpl in Hi.
      + injection Hi as <-. eexists. eexists. repeat split; reflexivity.
      + injection Hi as <-. eexists. eexists. repeat split; reflexivity.
      + destruct i; discriminate Hi.
    - repeat constructor.
    - reflexivity.
    - repeat constructor.
    - simpl. lia. }
  split; [exact Hrun|]. split.
  - exact (Hpos _ _ Hrun).
  - apply Hzero. right. right. exists "0x0". split; reflexivity.
Defined.

(** ** The EVM scanner: spam separation *)

Lemma for_each_invariant {A S} (P : S -> Prop) (step : S -> A -> M S) xs :
  (forall s x w s' w', P s -> step s x w = (Ret s', w') -> P s') ->
  forall acc w acc' w',
    P acc -> for_each step xs acc w = (Ret acc', w') -> P acc'.
Proof.
  intros Hstep. induction xs as [| x rest IH]; intros acc w acc' w' Hacc H.
  - injection H as <- _. exact Hacc.
  - simpl in H. apply bind_inv_Ret in H. destruct H as (s1 & w1 & H1 & H).
    exact (IH _ _ _ _ (Hstep _ _ _ _ _ Hacc H1) H).
Qed.

Section EVMScan.

Variable client : Client.
Variable chain : string.

Ltac pair_eq :=
  repeat match goal with
         | |- (_, _) = (_, _) => apply f_equal2
         end;
  try reflexivity; try lia.

Lemma evm_nft_fold nfts :
  forall assets spam n e7 e11,
    fold_left (evm_nft_step chain) nfts (assets, spam, n, e7, e11)
    = ((assets ++ map (evm_nft_asset chain) (filter clean nfts))%list,
       (spam ++ map (evm_nft_asset chain) (filter NFT.is_spam nfts))%list,
       n + zlen (filter clean nfts),
       e7 + zlen (filter clean_erc721 nfts),
       e11 + zlen (filter clean_erc1155 nfts)).
Proof.
  unfold zlen, clean_erc721, clean_erc1155, clean.
  induction nfts as [| nft rest IH]; intros assets spam n e7 e11.
  - simpl. rewrite !app_nil_r, !Z.add_0_r. reflexivity.
  - simpl fold_left. simpl filter.
    destruct (NFT.is_spam nft) eqn:Hs; simpl negb; simpl andb; cbv iota.
    + rewrite IH. simpl map. rewrite <- !app_assoc. reflexivity.
    + destruct (String.eqb_spec (NFT.token_type nft) "ERC721") as [E | E].
      * rewrite E. simpl String.eqb. cbv iota.
        rewrite IH. simpl map. simpl List.length. rewrite <- !app_assoc. simpl app.
        pair_eq.
      * destruct (String.eqb (NFT.token_type nft) "ERC1155").
        -- rewrite IH. simpl map. simpl List.length. rewrite <- !app_assoc. simpl app.
           pair_eq.
        -- rewrite IH. simpl map. simpl List.length. rewrite <- !app_assoc. simpl app.
           pair_eq.
Qed.

Lemma evm_token_step_not_spam acc tb w acc' w' :
  Forall not_spam (fst (fst acc)) ->
  evm_token_step client chain acc tb w = (Ret acc', w') ->
  Forall not_spam (fst (fst acc')).
Proof.
  destruct acc as [[assets tc] sk]. simpl. intros Ha H.
  unfold evm_token_step in H.
  apply try_except_inv_Ret in H. destruct H as [H | (e & w1 & _ & _ & H)].
  - apply bind_inv_Ret in H. destruct H as (metadata & w1 & _ & H).
    apply bind_inv_Ret in H. destruct H as (balance_int & w2 & _ & H).
    apply bind_inv_Ret in H. destruct H as (quantity & w3 & _ & H).
    injection H as <- _. simpl.
    apply Forall_app. split; [exact Ha|]. repeat constructor.
  - injection H as <- _. exact Ha.
Qed.

End EVMScan.

Section EVMScanResult.

Variable client : Client.
Variable chain : string.

Lemma evm_native_step_not_spam nb w assets nc w' :
  evm_native_step chain nb w = (Ret (assets, nc), w') -> Forall not_spam assets.
Proof.
  unfold evm_native_step. destruct (0 <? nb).
  - destruct (lookup chain NATIVE_TOKENS) as [info |]; [|discriminate].
    intros H. apply bind_inv_Ret in H. destruct H as (a & w1 & Ha & H).
    injection H as <- _ _. apply lift_inv_Ret in Ha. destruct Ha as [Ha _].
    unfold _create_native_asset in Ha.
    destruct (format_quantity _ _); try discriminate. injection Ha as <-.
    repeat constructor.
  - intros [= <- _ _]. constructor.
Qed.

(** What a scan that went through returns, in terms of what the client
    returned on the way. *)
Lemma evm_scan_try_inv wallet w r w' :
  evm_scan_try client chain wallet w = (Ret r, w') ->
  exists native_balance w1 assets0 native_count w2 token_balances w3
         assets1 token_count skipped_tokens w4 w5 nfts,
    client_get_native_balance client chain wallet w = (Ret native_balance, w1) /\
    evm_native_step chain native_balance w1 = (Ret (assets0, native_count), w2) /\
    client_get_token_balances client chain wallet w2 = (Ret token_balances, w3) /\
    for_each (evm_token_step client chain) token_balances (assets0, 0, 0) w3
    = (Ret (assets1, token_count, skipped_tokens), w4) /\
    evm_report_skipped chain skipped_tokens w4 = (Ret tt, w5) /\
    client_get_nfts_for_owner client chain wallet w5 = (Ret nfts, w') /\
    r = ScanResult.mk chain
          (assets1 ++ map (evm_nft_asset chain) (filter clean nfts))
          (map (evm_nft_asset chain) (filter NFT.is_spam nfts))
          native_count token_count
          (zlen (filter clean nfts)) (zlen (filter clean_erc721 nfts))
          (zlen (filter clean_erc1155 nfts))
          (zlen (map (evm_nft_asset chain) (filter NFT.is_spam nfts)))
          skipped_tokens None.
Proof.
  intros H. unfold evm_scan_try in H.
  apply bind_inv_Ret in H. destruct H as (nb & w1 & H1 & H).
  apply bind_inv_Ret in H. destruct H as ([assets0 nc] & w2 & H2 & H).
  apply bind_inv_Ret in H. destruct H as (tbs & w3 & H3 & H).
  apply bind_inv_Ret in H. destruct H as ([[assets1 tc] sk] & w4 & H4 & H).
  apply bind_inv_Ret in H. destruct H as ([] & w5 & H5 & H).
  apply bind_inv_Ret in H. destruct H as (nfts & w6 & H6 & H).
  rewrite evm_nft_fold in H. injection H as <- <-.
  exists nb, w1, assets0, nc, w2, tbs, w3, assets1, tc, sk, w4, w5, nfts.
  repeat split; try assumption.
Qed.

End EVMScanResult.

(** C7.  A scan that goes through partitions the NFT records it fetched by
    their spam flag: the spam list is the spam-flagged records, in order,
    and nothing else; the main list ends with the clean records, in order,
    after the native and ERC-20 assets; [nft_count] counts the clean
    records and [erc721_count] and [erc1155_count] those of them with the
    matching type tag; [spam_count] is the length of the spam list; no asset
    of the main list is flagged as spam and every asset of the spam list
    is. *)
Theorem evm_scan_separates_spam (client : Client) (chain wallet : string)
    (w w' : World) (r : ScanResult.t) :
  evm_scan client chain wallet w = (Ret r, w') ->
  ScanResult.error r = None ->
  exists nfts w1 earlier,
    client_get_nfts_for_owner client chain wallet w1 = (Ret nfts, w') /\
    ScanResult.spam_assets r = map (evm_nft_asset chain) (filter NFT.is_spam nfts) /\
    ScanResult.assets r = (earlier ++ map (evm_nft_asset chain) (filter clean nfts))%list /\
    ScanResult.nft_count r = zlen (filter clean nfts) /\
    ScanResult.erc721_count r = zlen (filter clean_erc721 nfts) /\
    ScanResult.erc1155_count r = zlen (filter clean_erc1155 nfts) /\
    ScanResult.spam_count r = zlen (ScanResult.spam_assets r) /\
    Forall not_spam (ScanResult.assets r) /\
    Forall (fun a => Asset.is_spam a = true) (ScanResult.spam_assets r).
Proof.
  intros H Herr. unfold evm_scan in H.
  apply try_except_inv_Ret in H. destruct H as [H | (e & w1 & _ & _ & H)].
  2: { injection H as <- _. discriminate Herr. }
  apply evm_scan_try_inv in H.
  destruct H as (nb & w1 & assets0 & nc & w2 & tbs & w3 & assets1 & tc & sk & w4 & w5 & nfts
                 & H1 & H2 & H3 & H4 & H5 & H6 & ->).
  exists nfts, w5, assets1. simpl.
  repeat split; try assumption; try reflexivity.
  - apply Forall_app. split.
    + apply evm_native_step_not_spam in H2.
      exact (for_each_invariant (fun s => Forall not_spam (fst (fst s)))
               (evm_token_step client chain) tbs
               (fun s x w s' w' => evm_token_step_not_spam client chain s x w s' w')
               (assets0, 0, 0) w3 (assets1, tc, sk) w4 H2 H4).
    + apply Forall_map. apply Forall_forall. intros nft Hin.
      apply filter_In in Hin. destruct Hin as [_ Hc].
      unfold not_spam, clean in *. simpl. destruct (NFT.is_spam nft); [discriminate|reflexivity].
  - apply Forall_map. apply Forall_forall. intros nft Hin.
    apply filter_In in Hin. destruct Hin as [_ Hc]. exact Hc.
Qed.

Lemma evm_scan_separates_spam_witness :
  exists r w',
    evm_scan (alchemy spam_and_clean 5) "ethereum" test_wallet world0 = (Ret r, w') /\
    ScanResult.nft_count r = 1 /\ ScanResult.spam_count r = 1 /\
    List.length (ScanResult.assets r) = 1%nat /\
    exists nfts w1 earlier,
      client_get_nfts_for_owner (alchemy spam_and_clean 5) "ethereum" test_wallet w1
      = (Ret nfts, w') /\
      ScanResult.spam_assets r = map (evm_nft_asset "ethereum") (filter NFT.is_spam nfts) /\
      ScanResult.assets r
      = (earlier ++ map (evm_nft_asset "ethereum") (filter clean nfts))%list /\
      ScanResult.nft_count r = zlen (filter clean nfts) /\
      ScanResult.erc721_count r = zlen (filter clean_erc721 nfts) /\
      ScanResult.erc1155_count r = zlen (filter clean_erc1155 nfts) /\
      ScanResult.spam_count r = zlen (ScanResult.spam_assets r) /\
      Forall not_spam (ScanResult.assets r) /\
      Forall (fun a => Asset.is_spam a = true) (ScanResult.spam_assets r).
Proof.
  pose proof (evm_scan_separates_spam (alchemy spam_and_clean 5) "ethereum" test_wallet world0)
    as T.
  destruct (evm_scan (alchemy spam_and_clean 5) "ethereum" test_wallet world0)
    as [[r | e | why] w'] eqn:run; vm_compute in run; try discriminate run.
  injection run as <- <-.
  eexists. eexists. split; [reflexivity|].
  split; [reflexivity|]. split; [reflexivity|]. split; [reflexivity|].
  apply T; reflexivity.
Defined.

(** ** The Solana scanner *)

Section SolanaScan.

Variable client : Client.
Variable chain : string.

Local Abbreviation loop := (for_each (fun acc sa => lift (solana_step chain acc sa))).

(** The native branch of the loop body. *)
Lemma solana_step_native sa b q assets nc tc nftc :
  fungible_interface sa = true ->
  SolanaAsset.balance sa = Some b ->
  is_wrapped_sol sa = true ->
  format_quantity b (or_int (SolanaAsset.decimals sa) 9) = Ret q ->
  solana_step chain (assets, nc, tc, nftc) sa
  = Ret ((assets ++ [solana_native_asset chain sa q])%list, 1, tc, nftc).
Proof.
  intros Hf Hb Hw Hq. unfold solana_step.
  unfold fungible_interface in Hf. rewrite Hf, Hb. simpl. rewrite Hq. simpl.
  unfold is_wrapped_sol in Hw. rewrite Hw. reflexivity.
Qed.

(** The branch taken by a record of a fungible interface with no balance. *)
Lemma solana_step_balanceless sa assets nc tc nftc :
  fungible_interface sa = true ->
  SolanaAsset.balance sa = None ->
  solana_step chain (assets, nc, tc, nftc) sa
  = Ret ((assets ++ [solana_balanceless_asset chain sa])%list, nc, tc, nftc + 1).
Proof.
  intros Hf Hb. unfold solana_step.
  pose proof Hf as Hf'. unfold fungible_interface in Hf'. rewrite Hf', Hb.
  unfold solana_balanceless_asset. repeat f_equal.
  unfold fungible_interface in Hf.
  apply orb_true_iff in Hf. destruct Hf as [Hf | Hf];
    apply String.eqb_eq in Hf; rewrite Hf; reflexivity.
Qed.

(** Every turn appends one asset, and sets or keeps the counters. *)
Lemma solana_step_shape acc sa acc' :
  solana_step chain acc sa = Ret acc' ->
  exists a,
    fst (fst (fst acc')) = (fst (fst (fst acc)) ++ [a])%list /\
    snd (fst (fst acc')) = (if native_like sa then 1 else snd (fst (fst acc))) /\
    snd (fst acc') = snd (fst acc) + (if token_like sa then 1 else 0) /\
    snd acc' = snd acc + (if nft_like sa then 1 else 0).
Proof.
  destruct acc as [[[assets nc] tc] nftc]. unfold solana_step.
  unfold native_like, token_like, nft_like, has_balance, fungible_interface, is_wrapped_sol.
  destruct (String.eqb (SolanaAsset.interface sa) "FungibleToken"
            || String.eqb (SolanaAsset.interface sa) "FungibleAsset"); simpl.
  - destruct (SolanaAsset.balance sa) as [b |]; simpl.
    + destruct (format_quantity b _) as [q | |]; simpl; try discriminate.
      destruct (match SolanaAsset.symbol sa with Some s => String.eqb s "SOL" | None => false end
                && String.eqb (SolanaAsset.asset_id sa) WRAPPED_SOL_MINT);
        intros [= <-]; eexists; simpl; repeat split; lia.
    + intros [= <-]. eexists. simpl. repeat split; lia.
  - intros [= <-]. eexists. simpl. repeat split; lia.
Qed.

Lemma solana_loop_world sas :
  forall acc w acc' w', loop sas acc w = (Ret acc', w') -> w' = w.
Proof.
  induction sas as [| sa rest IH]; intros acc w acc' w' H.
  - injection H as _ <-. reflexivity.
  - simpl in H. apply bind_inv_Ret in H. destruct H as (acc1 & w1 & H1 & H).
    apply lift_inv_Ret in H1. destruct H1 as [_ ->]. exact (IH _ _ _ _ H).
Qed.

(** The counters after the loop. *)
Lemma solana_loop_counts sas :
  forall acc w acc' w',
    loop sas acc w = (Ret acc', w') ->
    snd (fst (fst acc')) = (if existsb native_like sas then 1 else snd (fst (fst acc))) /\
    snd (fst acc') = snd (fst acc) + zlen (filter token_like sas) /\
    snd acc' = snd acc + zlen (filter nft_like sas).
Proof.
  unfold zlen.
  induction sas as [| sa rest IH]; intros acc w acc' w' H.
  - injection H as <- _. simpl. repeat split; lia.
  - simpl in H. apply bind_inv_Ret in H. destruct H as (acc1 & w1 & H1 & H).
    apply lift_inv_Ret in H1. destruct H1 as [H1 _].
    apply solana_step_shape in H1. destruct H1 as (a & _ & Hn & Ht & Hf).
    apply IH in H. destruct H as (Hn' & Ht' & Hf').
    simpl existsb. simpl filter.
    destruct (native_like sa), (token_like sa), (nft_like sa); simpl;
      rewrite ?Hn', ?Ht', ?Hf', ?Hn, ?Ht, ?Hf;
      destruct (existsb native_like rest); simpl List.length; repeat split; lia.
Qed.

(** What was appended stays. *)
Lemma solana_loop_grows sas :
  forall acc w acc' w' a,
    loop sas acc w = (Ret acc', w') ->
    In a (fst (fst (fst acc))) -> In a (fst (fst (fst acc'))).
Proof.
  induction sas as [| sa rest IH]; intros acc w acc' w' a H Ha.
  - injection H as <- _. exact Ha.
  - simpl in H. apply bind_inv_Ret in H. destruct H as (acc1 & w1 & H1 & H).
    apply lift_inv_Ret in H1. destruct H1 as [H1 _].
    apply solana_step_shape in H1. destruct H1 as (b & Hb & _).
    apply (IH _ _ _ _ a H). rewrite Hb. apply in_or_app. left. exact Ha.
Qed.

(** A record of the list went through the loop body, and what the body
    appended for it is in the final list. *)
Lemma solana_loop_member sas :
  forall acc w acc' w' sa,
    loop sas acc w = (Ret acc', w') ->
    In sa sas ->
    exists acc0 acc1,
      solana_step chain acc0 sa = Ret acc1 /\
      (forall a, In a (fst (fst (fst acc1))) -> In a (fst (fst (fst acc')))).
Proof.
  induction sas as [| x rest IH]; intros acc w acc' w' sa H Hin; [destruct Hin|].
  simpl in H. apply bind_inv_Ret in H. destruct H as (acc1 & w1 & H1 & H).
  apply lift_inv_Ret in H1. destruct H1 as [H1 _].
  destruct Hin as [-> | Hin].
  - exists acc, acc1. split; [exact H1|].
    intros a Ha. exact (solana_loop_grows rest acc1 w1 acc' w' a H Ha).
  - exact (IH _ _ _ _ _ H Hin).
Qed.

Lemma solana_scan_try_inv wallet w r w' :
  solana_scan_try client chain wallet w = (Ret r, w') ->
  exists sas assets native_count token_count nft_count,
    client_get_solana_assets client wallet w = (Ret sas, w') /\
    loop sas ([], 0, 0, 0) w' = (Ret (assets, native_count, token_count, nft_count), w') /\
    r = ScanResult.mk chain assets [] native_count token_count nft_count 0 0 0 0 None.
Proof.
  intros H. unfold solana_scan_try in H.
  apply bind_inv_Ret in H. destruct H as (sas & w1 & H1 & H).
  apply bind_inv_Ret in H. destruct H as ([[[assets nc] tc] nftc] & w2 & H2 & H).
  injection H as <- <-.
  pose proof (solana_loop_world sas _ _ _ _ H2) as ->.
  exists sas, assets, nc, tc, nftc. repeat split; assumption.
Qed.

Lemma solana_scan_inv wallet w r w' :
  solana_scan client chain wallet w = (Ret r, w') ->
  solana_scan_try client chain wallet w = (Ret r, w') \/
  exists e, r = ScanResult.failed chain (exn_str e).
Proof.
  intros H. unfold solana_scan in H.
  apply try_except_inv_Ret in H. destruct H as [H | (e & w1 & _ & _ & H)].
  - left. exact H.
  - right. exists e. injection H as <- _. reflexivity.
Qed.

End SolanaScan.

(** C8.  Whatever the Solana scan returns, its spam list is empty and its
    native count is at most one.  When the scan goes through, every fetched
    record of a fungible interface with a balance, symbol [SOL] and the
    wrapped-SOL address as its id is in the asset list as a [NATIVE] asset
    with address ["NATIVE"], and the native count is one.  For the record
    with interface [FungibleToken], balance 2500000000 and 9 decimals the
    quantity is ["2.5"]. *)
Theorem solana_scan_native_sol (client : Client) (chain wallet : string) (w : World) :
  (forall r w',
      solana_scan client chain wallet w = (Ret r, w') ->
      ScanResult.spam_assets r = [] /\
      ScanResult.native_count r <= 1 /\
      (ScanResult.error r = None ->
       exists sas,
         client_get_solana_assets client wallet w = (Ret sas, w') /\
         forall sa b,
           In sa sas ->
           fungible_interface sa = true ->
           SolanaAsset.balance sa = Some b ->
           is_wrapped_sol sa = true ->
           exists q,
             format_quantity b (or_int (SolanaAsset.decimals sa) 9) = Ret q /\
             In (solana_native_asset chain sa q) (ScanResult.assets r) /\
             Asset.token_type (solana_native_asset chain sa q) = "NATIVE" /\
             Asset.asset_address (solana_native_asset chain sa q) = "NATIVE" /\
             ScanResult.native_count r = 1)) /\
  (forall name w1,
      client_get_solana_assets client wallet w
      = (Ret [SolanaAsset.mk WRAPPED_SOL_MINT "FungibleToken" name (Some "SOL")
                             (Some 2500000000) (Some 9)], w1) ->
      solana_scan client chain wallet w
      = (Ret (ScanResult.mk chain
                [Asset.mk chain (or_str name "Solana") "SOL" "NATIVE" "2.5" "NATIVE"
                          None None false]
                [] 1 0 0 0 0 0 0 None), w1)).
Proof.
  split.
  - intros r w' H. apply solana_scan_inv in H. destruct H as [H | (e & ->)].
    2: { simpl. split; [reflexivity|]. split; [lia|]. discriminate. }
    apply solana_scan_try_inv in H.
    destruct H as (sas & assets & nc & tc & nftc & Hsas & Hloop & ->). simpl.
    pose proof (solana_loop_counts chain sas _ _ _ _ Hloop) as (Hn & _ & _). simpl in Hn.
    split; [reflexivity|]. split; [destruct (existsb native_like sas); lia|].
    intros _. exists sas. split; [exact Hsas|].
    intros sa b Hin Hf Hb Hw.
    destruct (solana_loop_member chain sas _ _ _ _ sa Hloop Hin)
      as ([[[assets0 nc0] tc0] nftc0] & acc1 & Hstep & Hmem).
    destruct (format_quantity b (or_int (SolanaAsset.decimals sa) 9)) as [q | e | why] eqn:Hq.
    + exists q. split; [reflexivity|].
      rewrite (solana_step_native chain sa b q _ _ _ _ Hf Hb Hw Hq) in Hstep.
      injection Hstep as <-.
      split; [|split; [reflexivity|split; [reflexivity|]]].
      * apply Hmem. simpl. apply in_or_app. right. left. reflexivity.
      * rewrite Hn.
        assert (Hex : existsb native_like sas = true).
        { apply existsb_exists. exists sa. split; [exact Hin|].
          unfold native_like, has_balance. rewrite Hf, Hb, Hw. reflexivity. }
        rewrite Hex. reflexivity.
    + exfalso. unfold solana_step in Hstep. unfold fungible_interface in Hf.
      rewrite Hf, Hb in Hstep. simpl in Hstep. rewrite Hq in Hstep. discriminate Hstep.
    + exfalso. unfold solana_step in Hstep. unfold fungible_interface in Hf.
      rewrite Hf, Hb in Hstep. simpl in Hstep. rewrite Hq in Hstep. discriminate Hstep.
  - intros name w1 H. unfold solana_scan, try_except, solana_scan_try.
    rewrite (bind_Ret _ _ _ _ _ H). reflexivity.
Qed.

Lemma solana_scan_native_sol_witness :
  let client := alchemy native_sol 5 in
  let sa := SolanaAsset.mk WRAPPED_SOL_MINT "FungibleToken" (Some "Wrapped SOL") (Some "SOL")
                           (Some 2500000000) (Some 9) in
  let r := ScanResult.mk "solana"
             [Asset.mk "solana" "Wrapped SOL" "SOL" "NATIVE" "2.5" "NATIVE" None None false]
             [] 1 0 0 0 0 0 0 None in
  exists w',
    solana_scan client "solana" test_solana_wallet world0 = (Ret r, w') /\
    ScanResult.spam_assets r = [] /\
    ScanResult.native_count r <= 1 /\
    exists q,
      format_quantity 2500000000 (or_int (SolanaAsset.decimals sa) 9) = Ret q /\
      In (solana_native_asset "solana" sa q) (ScanResult.assets r) /\
      Asset.token_type (solana_native_asset "solana" sa q) = "NATIVE" /\
      Asset.asset_address (solana_native_asset "solana" sa q) = "NATIVE" /\
      ScanResult.native_count r = 1.
Proof.
  intros client sa r.
  destruct (solana_scan_native_sol client "solana" test_solana_wallet world0) as [T1 T2].
  destruct (client_get_solana_assets client test_solana_wallet world0)
    as [[sas | e | why] w1] eqn:Hc; vm_compute in Hc; try discriminate Hc.
  injection Hc as <- <-.
  pose proof (T2 (Some "Wrapped SOL") _ eq_refl) as Hrun.
  destruct (T1 _ _ Hrun) as (Hspam & Hle & Hnative).
  destruct (Hnative eq_refl) as (sas & Hsas & Hall).
  injection Hsas as <-.
  eexists. split; [exact Hrun|]. split; [exact Hspam|]. split; [exact Hle|].
  apply (Hall sa 2500000000).
  - left. reflexivity.
  - reflexivity.
  - reflexivity.
  - reflexivity.
Defined.

(** C10.  A record of a fungible interface whose balance is null takes
    the NFT branch of the loop body: the asset appended has token type
    ["SPL"], quantity ["1"] and the asset id as its token id, and it is
    [nft_count] that goes up by one, [token_count] and [native_count] being
    left as they are.  In a scan that goes through, such an asset is in the
    list for every such record fetched, [nft_count] counts the records
    without a fungible interface or without a balance, and [token_count]
    the other records that are not native SOL. *)
Theorem solana_fungible_without_balance_is_counted_as_nft
    (client : Client) (chain : string) :
  (forall sa assets native_count token_count nft_count,
      fungible_interface sa = true ->
      SolanaAsset.balance sa = None ->
      solana_step chain (assets, native_count, token_count, nft_count) sa
      = Ret ((assets ++ [solana_balanceless_asset chain sa])%list,
             native_count, token_count, nft_count + 1) /\
      Asset.token_type (solana_balanceless_asset chain sa) = "SPL" /\
      Asset.quantity (solana_balanceless_asset chain sa) = "1" /\
      Asset.token_id (solana_balanceless_asset chain sa) = Some (SolanaAsset.asset_id sa)) /\
  (forall wallet w r w',
      solana_scan client chain wallet w = (Ret r, w') ->
      ScanResult.error r = None ->
      exists sas,
        client_get_solana_assets client wallet w = (Ret sas, w') /\
        (forall sa,
            In sa sas ->
            fungible_interface sa = true ->
            SolanaAsset.balance sa = None ->
            In (solana_balanceless_asset chain sa) (ScanResult.assets r)) /\
        ScanResult.nft_count r = zlen (filter nft_like sas) /\
        ScanResult.token_count r = zlen (filter token_like sas)).
Proof.
  split.
  - intros sa assets nc tc nftc Hf Hb.
    split; [exact (solana_step_balanceless chain sa assets nc tc nftc Hf Hb)|].
    repeat split.
  - intros wallet w r w' H Herr.
    apply solana_scan_inv in H. destruct H as [H | (e & ->)]; [|discriminate Herr].
    apply solana_scan_try_inv in H.
    destruct H as (sas & assets & nc & tc & nftc & Hsas & Hloop & ->). simpl.
    pose proof (solana_loop_counts chain sas _ _ _ _ Hloop) as (_ & Ht & Hf). simpl in Ht, Hf.
    exists sas. split; [exact Hsas|]. split; [|split; lia].
    intros sa Hin Hfi Hb.
    destruct (solana_loop_member chain sas _ _ _ _ sa Hloop Hin)
      as ([[[assets0 nc0] tc0] nftc0] & acc1 & Hstep & Hmem).
    rewrite (solana_step_balanceless chain sa _ _ _ _ Hfi Hb) in Hstep.
    injection Hstep as <-. apply Hmem. simpl. apply in_or_app. right. left. reflexivity.
Qed.

Lemma solana_fungible_without_balance_is_counted_as_nft_witness :
  let client := alchemy balanceless 5 in
  let sa := SolanaAsset.mk "MintWithoutBalance" "FungibleAsset" (Some "Badge") (Some "BDG")
                           None None in
  let asset := Asset.mk "solana" "Badge" "BDG" "MintWithoutBalance" "1" "SPL"
                        (Some "MintWithoutBalance") None false in
  solana_step "solana" ([], 0, 0, 0) sa = Ret ([asset], 0, 0, 1) /\
  exists r w',
    solana_scan client "solana" test_solana_wallet world0 = (Ret r, w') /\
    In asset (ScanResult.assets r) /\
    ScanResult.nft_count r = 1 /\
    ScanResult.token_count r = 0.
Proof.
  intros client sa asset.
  destruct (solana_fungible_without_balance_is_counted_as_nft client "solana") as [T1 T2].
  split.
  - apply (T1 sa [] 0 0 0); reflexivity.
  - specialize (T2 test_solana_wallet world0).
    destruct (solana_scan client "solana" test_solana_wallet world0)
      as [[r | e | why] w'] eqn:run; vm_compute in run; try discriminate run.
    injection run as <- <-.
    destruct (T2 _ _ eq_refl eq_refl) as (sas & Hsas & Hin & Hn & Ht).
    vm_compute in Hsas. injection Hsas as <-.
    eexists. eexists. split; [reflexivity|]. split; [|split].
    + apply (Hin sa); [left; reflexivity | reflexivity | reflexivity].
    + exact Hn.
    + exact Ht.
Defined.

(** ** Decimals *)

(** C9.  An explicit [decimals] of zero is not used: [metadata.decimals or
    18] and [sa.decimals or 9] replace every false value, zero included, by
    the default.  The ERC-20 loop body formats the balance of a token whose
    metadata says [decimals = 0] with 18 places, and the Solana loop body
    formats a fungible asset whose [decimals] is 0 with 9 places.  So 100
    units of such an ERC-20 token are reported as ["0.0000000000000001"],
    where zero places give ["100"]. *)
Theorem zero_decimals_fall_back_to_the_default (client : Client) (chain : string) :
  (forall tb metadata n q assets token_count skipped_tokens w w1,
      client_get_token_metadata client chain (TokenBalance.contract_address tb) w
      = (Ret metadata, w1) ->
      TokenMetadata.decimals metadata = Some 0 ->
      Hex.int16 (TokenBalance.balance tb) = Some n ->
      format_quantity n 18 = Ret q ->
      evm_token_step client chain (assets, token_count, skipped_tokens) tb w
      = (Ret ((assets ++ [Asset.mk chain (or_str (TokenMetadata.name metadata) "")
                                   (or_str (TokenMetadata.symbol metadata) "")
                                   (TokenBalance.contract_address tb) q "ERC20"
                                   None None false])%list,
              token_count + 1, skipped_tokens), w1)) /\
  (forall sa b q assets native_count token_count nft_count,
      fungible_interface sa = true ->
      SolanaAsset.balance sa = Some b ->
      SolanaAsset.decimals sa = Some 0 ->
      is_wrapped_sol sa = false ->
      format_quantity b 9 = Ret q ->
      solana_step chain (assets, native_count, token_count, nft_count) sa
      = Ret ((assets ++ [Asset.mk chain (or_str (SolanaAsset.name sa) "")
                                  (or_str (SolanaAsset.symbol sa) "")
                                  (SolanaAsset.asset_id sa) q "SPL" None None false])%list,
             native_count, token_count + 1, nft_count)) /\
  format_quantity 100 18 = Ret "0.0000000000000001" /\
  format_quantity 100 0 = Ret "100".
Proof.
  split; [|split; [|split; vm_compute; reflexivity]].
  - intros tb metadata n q assets tc sk w w1 Hmd Hd Hn Hq.
    unfold evm_token_step, try_except.
    rewrite (bind_Ret _ _ _ _ _ Hmd).
    rewrite bind_lift. unfold int_base16. rewrite Hn.
    rewrite Hd. simpl or_int. rewrite bind_lift, Hq. reflexivity.
  - intros sa b q assets nc tc nftc Hf Hb Hd Hw Hq.
    unfold solana_step.
    pose proof Hf as Hf'. unfold fungible_interface in Hf'. rewrite Hf', Hb, Hd.
    simpl or_int. rewrite Hq. simpl obind.
    unfold is_wrapped_sol in Hw. rewrite Hw.
    repeat f_equal.
    apply orb_true_iff in Hf'. destruct Hf' as [E | E];
      apply String.eqb_eq in E; rewrite E; reflexivity.
Qed.

Lemma zero_decimals_fall_back_to_the_default_witness :
  fst (evm_scan (alchemy indivisible_token 5) "ethereum" test_wallet world0)
  = Ret (ScanResult.mk "ethereum"
           [Asset.mk "ethereum" "Ticket" "TIX" "0xToken" "0.0000000000000001" "ERC20"
                     None None false]
           [] 0 1 0 0 0 0 0 None) /\
  (exists w w1,
      evm_token_step (alchemy indivisible_token 5) "ethereum" ([], 0, 0)
        (TokenBalance.mk "0xToken" "0x64") w
      = (Ret ([Asset.mk "ethereum" "Ticket" "TIX" "0xToken" "0.0000000000000001" "ERC20"
                        None None false], 1, 0), w1)) /\
  solana_step "solana" ([], 0, 0, 0)
    (SolanaAsset.mk "TicketMint" "FungibleToken" (Some "Ticket") (Some "TIX") (Some 7) (Some 0))
  = Ret ([Asset.mk "solana" "Ticket" "TIX" "TicketMint" "0.000000007" "SPL" None None false],
         0, 1, 0).
Proof.
  split; [vm_compute; reflexivity|]. split.
  - exists (mkWorld [test_post; test_post] 0 []). eexists.
    apply (proj1 (zero_decimals_fall_back_to_the_default
                    (alchemy indivisible_token 5) "ethereum")
             (TokenBalance.mk "0xToken" "0x64")
             (TokenMetadata.mk (Some "Ticket") (Some "TIX") (Some 0) None) 100
             "0.0000000000000001" [] 0 0).
    + vm_compute. reflexivity.
    + reflexivity.
    + vm_compute. reflexivity.
    + vm_compute. reflexivity.
  - apply (proj1 (proj2 (zero_decimals_fall_back_to_the_default
                           (alchemy indivisible_spl 5) "solana"))
             (SolanaAsset.mk "TicketMint" "FungibleToken" (Some "Ticket") (Some "TIX")
                             (Some 7) (Some 0)) 7 "0.000000007" [] 0 0 0).
    + reflexivity.
    + reflexivity.
    + reflexivity.
    + reflexivity.
    + vm_compute. reflexivity.
Defined.

(** ** Failures during a scan *)

(** C2, as stated, fails: only [AlchemyAPIError] is caught.  When the
    answer to [eth_getBalance] has no [result], [int({}, 16)] raises a
    [TypeError] in [get_native_balance], and when the answer to
    [getAssetsByOwner] is not JSON, [response.json()] raises; in both cases
    the exception leaves [scan] and no [ScanResult] is returned. *)
Lemma scan_lets_other_failures_through :
  (fst (get_native_balance no_result "ethereum" test_wallet world0)
   = Raise (Builtin "TypeError") /\
   fst (scan (EVMChainScanner (alchemy no_result 5) "ethereum") test_wallet world0)
   = Raise (Builtin "TypeError") /\
   ~ exists r w',
       scan (EVMChainScanner (alchemy no_result 5) "ethereum") test_wallet world0
       = (Ret r, w') /\ is_error_result r) /\
  (fst (get_solana_assets not_json 5 test_solana_wallet world0)
   = Raise (RequestException "Expecting value: line 1 column 1 (char 0)") /\
   fst (scan (SolanaChainScanner (alchemy not_json 5) "solana") test_solana_wallet world0)
   = Raise (RequestException "Expecting value: line 1 column 1 (char 0)") /\
   ~ exists r w',
       scan (SolanaChainScanner (alchemy not_json 5) "solana") test_solana_wallet world0
       = (Ret r, w') /\ is_error_result r).
Proof.
  split; (split; [vm_compute; reflexivity|]); (split; [vm_compute; reflexivity|]).
  - intros (r & w' & H & _).
    apply (f_equal fst) in H. vm_compute in H. discriminate H.
  - intros (r & w' & H & _).
    apply (f_equal fst) in H. vm_compute in H. discriminate H.
Qed.

Lemma failed_is_error_result chain message :
  is_error_result (ScanResult.failed chain message).
Proof. unfold is_error_result. simpl. repeat split. discriminate. Qed.

Section Containment.

Variable client : Client.
Variable chain : string.

Lemma evm_scan_catches wallet w e w1 :
  evm_scan_try client chain wallet w = (Raise e, w1) ->
  is_AlchemyAPIError e = true ->
  evm_scan client chain wallet w = (Ret (ScanResult.failed chain (exn_str e)), w1).
Proof. intros H He. unfold evm_scan, try_except. rewrite H, He. reflexivity. Qed.

Lemma solana_scan_catches wallet w e w1 :
  solana_scan_try client chain wallet w = (Raise e, w1) ->
  is_AlchemyAPIError e = true ->
  solana_scan client chain wallet w = (Ret (ScanResult.failed chain (exn_str e)), w1).
Proof. intros H He. unfold solana_scan, try_except. rewrite H, He. reflexivity. Qed.

End Containment.

(** C2, amended.  A failure of the client that is an API error
    ([AlchemyAPIError] or its subclass) in the native-balance call, the
    token-balance listing, the NFT listing or the Solana asset fetch makes
    [scan] return a result with the error's message, both lists empty and
    every count zero.  No API error leaves [scan], and any result with an
    error set has empty lists and zero counts. *)
Theorem scan_contains_api_errors (client : Client) (chain wallet : string) (w : World) :
  (forall scanner,
      scanner = EVMChainScanner client chain \/ scanner = SolanaChainScanner client chain ->
      match scan scanner wallet w with
      | (Ret r, _) => ScanResult.error r = None \/ is_error_result r
      | (Raise e, _) => is_AlchemyAPIError e = false
      | (Abort _, _) => True
      end) /\
  (forall e w1,
      client_get_native_balance client chain wallet w = (Raise e, w1) ->
      is_AlchemyAPIError e = true ->
      scan (EVMChainScanner client chain) wallet w
      = (Ret (ScanResult.failed chain (exn_str e)), w1)) /\
  (forall native_balance w1 native w2 e w3,
      client_get_native_balance client chain wallet w = (Ret native_balance, w1) ->
      evm_native_step chain native_balance w1 = (Ret native, w2) ->
      client_get_token_balances client chain wallet w2 = (Raise e, w3) ->
      is_AlchemyAPIError e = true ->
      scan (EVMChainScanner client chain) wallet w
      = (Ret (ScanResult.failed chain (exn_str e)), w3)) /\
  (forall native_balance w1 native w2 token_balances w3 tokens w4 w5 e w6,
      client_get_native_balance client chain wallet w = (Ret native_balance, w1) ->
      evm_native_step chain native_balance w1 = (Ret native, w2) ->
      client_get_token_balances client chain wallet w2 = (Ret token_balances, w3) ->
      for_each (evm_token_step client chain) token_balances (fst native, 0, 0) w3
      = (Ret tokens, w4) ->
      evm_report_skipped chain (snd tokens) w4 = (Ret tt, w5) ->
      client_get_nfts_for_owner client chain wallet w5 = (Raise e, w6) ->
      is_AlchemyAPIError e = true ->
      scan (EVMChainScanner client chain) wallet w
      = (Ret (ScanResult.failed chain (exn_str e)), w6)) /\
  (forall e w1,
      client_get_solana_assets client wallet w = (Raise e, w1) ->
      is_AlchemyAPIError e = true ->
      scan (SolanaChainScanner client chain) wallet w
      = (Ret (ScanResult.failed chain (exn_str e)), w1)) /\
  (forall message, is_error_result (ScanResult.failed chain message)).
Proof.
  split; [|split; [|split; [|split; [|split]]]].
  - intros scanner [-> | ->]; simpl.
    + unfold evm_scan, try_except.
      destruct (evm_scan_try client chain wallet w) as [[r | e | why] w1] eqn:H; [| |exact I].
      * left. apply evm_scan_try_inv in H.
        destruct H as (? & ? & ? & ? & ? & ? & ? & ? & ? & ? & ? & ? & ? & H).
        destruct H as (_ & _ & _ & _ & _ & _ & ->). reflexivity.
      * destruct (is_AlchemyAPIError e) eqn:He; [|exact He].
        right. apply failed_is_error_result.
    + unfold solana_scan, try_except.
      destruct (solana_scan_try client chain wallet w) as [[r | e | why] w1] eqn:H; [| |exact I].
      * left. apply solana_scan_try_inv in H.
        destruct H as (? & ? & ? & ? & ? & _ & _ & ->). reflexivity.
      * destruct (is_AlchemyAPIError e) eqn:He; [|exact He].
        right. apply failed_is_error_result.
  - intros e w1 H He. simpl. apply evm_scan_catches; [|exact He].
    unfold evm_scan_try. apply bind_Raise. exact H.
  - intros nb w1 [assets0 nc] w2 e w3 H1 H2 H3 He. simpl.
    apply evm_scan_catches; [|exact He].
    unfold evm_scan_try.
    rewrite (bind_Ret _ _ _ _ _ H1), (bind_Ret _ _ _ _ _ H2).
    apply bind_Raise. exact H3.
  - intros nb w1 [assets0 nc] w2 tbs w3 [[assets1 tc] sk] w4 w5 e w6 H1 H2 H3 H4 H5 H6 He.
    simpl in *. apply evm_scan_catches; [|exact He].
    unfold evm_scan_try.
    rewrite (bind_Ret _ _ _ _ _ H1), (bind_Ret _ _ _ _ _ H2), (bind_Ret _ _ _ _ _ H3),
      (bind_Ret _ _ _ _ _ H4), (bind_Ret _ _ _ _ _ H5).
    apply bind_Raise. exact H6.
  - intros e w1 H He. simpl. apply solana_scan_catches; [|exact He].
    unfold solana_scan_try. apply bind_Raise. exact H.
  - apply failed_is_error_result.
Qed.

Lemma scan_contains_api_errors_witness :
  (exists w',
      scan (EVMChainScanner (alchemy fails_at_first 5) "ethereum") test_wallet world0
      = (Ret (ScanResult.failed "ethereum" "API error: Invalid request"), w')) /\
  (exists w',
      scan (EVMChainScanner (alchemy fails_at_tokens 5) "ethereum") test_wallet world0
      = (Ret (ScanResult.failed "ethereum" "API error: Invalid request"), w')) /\
  (exists w',
      scan (EVMChainScanner (alchemy fails_at_nfts 5) "ethereum") test_wallet world0
      = (Ret (ScanResult.failed "ethereum" "Invalid API key"), w')) /\
  (exists w',
      scan (SolanaChainScanner (alchemy fails_at_first 5) "solana") test_solana_wallet world0
      = (Ret (ScanResult.failed "solana" "API error: Invalid request"), w')) /\
  is_error_result (ScanResult.failed "ethereum" "API error: Invalid request") /\
  match scan (EVMChainScanner (alchemy no_result 5) "ethereum") test_wallet world0 with
  | (Ret r, _) => ScanResult.error r = None \/ is_error_result r
  | (Raise e, _) => is_AlchemyAPIError e = false
  | (Abort _, _) => True
  end.
Proof.
  split; [|split; [|split; [|split; [|split]]]].
  - eexists.
    eapply (proj1 (proj2 (scan_contains_api_errors
                            (alchemy fails_at_first 5) "ethereum" test_wallet world0))
              (AlchemyAPIError "API error: Invalid request" (Some (-32600)))).
    + vm_compute. reflexivity.
    + reflexivity.
  - eexists.
    eapply (proj1 (proj2 (proj2 (scan_contains_api_errors
                                   (alchemy fails_at_tokens 5) "ethereum" test_wallet world0)))
              0 _ ([], 0) _ (AlchemyAPIError "API error: Invalid request" (Some (-32600)))).
    + vm_compute. reflexivity.
    + reflexivity.
    + vm_compute. reflexivity.
    + reflexivity.
  - eexists.
    eapply (proj1 (proj2 (proj2 (proj2 (scan_contains_api_errors
                                   (alchemy fails_at_nfts 5) "ethereum" test_wallet world0))))
              0 _ ([], 0) _ [] _ ([], 0, 0) _ _
              (AlchemyAPIError "Invalid API key" (Some 401))).
    + vm_compute. reflexivity.
    + reflexivity.
    + vm_compute. reflexivity.
    + reflexivity.
    + reflexivity.
    + vm_compute. reflexivity.
    + reflexivity.
  - eexists.
    eapply (proj1 (proj2 (proj2 (proj2 (proj2 (scan_contains_api_errors
                                   (alchemy fails_at_first 5) "solana" test_solana_wallet
                                   world0)))))
              (AlchemyAPIError "API error: Invalid request" (Some (-32600)))).
    + vm_compute. reflexivity.
    + reflexivity.
  - apply (proj2 (proj2 (proj2 (proj2 (proj2 (scan_contains_api_errors
                                   (alchemy fails_at_first 5) "ethereum" test_wallet
                                   world0)))))).
  - apply (proj1 (scan_contains_api_errors (alchemy no_result 5) "ethereum" test_wallet world0)
             (EVMChainScanner (alchemy no_result 5) "ethereum")).
    left. reflexivity.
Defined.

(** * Further properties *)

(** ** The retry loop, in general *)

Section RetryInGeneral.

Variable self : AlchemyClient.

Lemma attempt_once_keeps_request_exceptions_in request_func attempt w e :
  fst (attempt_once self request_func attempt w) = Raise e ->
  is_RequestException e = false.
Proof.
  unfold attempt_once, try_except, bind.
  destruct (request_func w) as [[response | e0 | why] w1]; simpl.
  - destruct (status_code response =? 429).
    { destruct (attempt <? max_retries self); simpl; [discriminate|].
      intros [= <-]. reflexivity. }
    destruct (status_code response =? 401); [simpl; intros [= <-]; reflexivity|].
    destruct (500 <=? status_code response).
    { destruct (attempt <? max_retries self); simpl; [discriminate|].
      intros [= <-]. reflexivity. }
    unfold raise_for_status.
    destruct ((400 <=? status_code response) && (status_code response <? 500)).
    { simpl. destruct (attempt <? max_retries self); simpl; [discriminate|].
      intros [= <-]. reflexivity. }
    destruct ((500 <=? status_code response) && (status_code response <? 600)).
    { simpl. destruct (attempt <? max_retries self); simpl; [discriminate|].
      intros [= <-]. reflexivity. }
    simpl. discriminate.
  - destruct (is_RequestException e0) eqn:E; simpl.
    + destruct (attempt <? max_retries self); simpl; [discriminate|].
      intros [= <-]. reflexivity.
    + intros [= <-]. exact E.
  - discriminate.
Qed.

Lemma retry_loop_keeps_request_exceptions_in request_func attempts :
  forall w e,
    fst (retry_loop self request_func attempts w) = Raise e ->
    is_RequestException e = false.
Proof.
  induction attempts as [| attempt rest IH]; intros w e.
  - simpl. intros [= <-]. reflexivity.
  - simpl. unfold bind.
    pose proof (attempt_once_keeps_request_exceptions_in request_func attempt w) as H1.
    destruct (attempt_once self request_func attempt w) as [[[response |] | e0 | why] w1];
      simpl in *.
    + discriminate.
    + apply IH.
    + intros [= <-]. apply H1. reflexivity.
    + discriminate.
Qed.

End RetryInGeneral.

(** X1.  No [RequestException] leaves [_execute_with_retry], whatever the
    request function and the configuration: an exception it raises is an
    API error, or an exception of another class that the request function
    raised. *)
Theorem execute_with_retry_keeps_request_exceptions_in
    (self : AlchemyClient) (request_func : M Response) (w : World) (e : exn) :
  fst (_execute_with_retry self request_func w) = Raise e ->
  is_RequestException e = false.
Proof. apply retry_loop_keeps_request_exceptions_in. Qed.

Lemma execute_with_retry_keeps_request_exceptions_in_witness :
  let self := mkAlchemyClient test_key 1
                (always (Fails (RequestException "Connection refused"))) in
  is_RequestException
    (AlchemyAPIError "Request failed: Connection refused" None) = false.
Proof.
  intros self.
  apply (execute_with_retry_keeps_request_exceptions_in self (session_send self test_post) world0).
  vm_compute. reflexivity.
Defined.

Section RetryCharacterised.

Variable self : AlchemyClient.
Variable rq : Request.

(** One pass through the loop body, by the answer it receives. *)
Lemma attempt_once_by_answer attempt w :
  let answer := session self (List.length (sent w)) rq in
  attempt_once self (session_send self rq) attempt w
  = if retryable answer && (attempt <? max_retries self)
    then (Ret None, after 1 1 rq w)
    else (obind (settles self (reported_url (session self) (List.length (sent w)) rq) answer)
                (fun response => Ret (Some response)),
          after 1 0 rq w).
Proof.
  cbv zeta. unfold attempt_once, try_except, bind, session_send, retryable, settles.
  destruct (session self (List.length (sent w)) rq) as [r | e]; simpl.
  - destruct (reply_status r =? 429) eqn:E429; simpl.
    { destruct (attempt <? max_retries self); reflexivity. }
    destruct (reply_status r =? 401) eqn:E401; simpl.
    { assert (E500 : (500 <=? reply_status r) = false) by lia.
      rewrite E500. simpl. rewrite andb_false_r. reflexivity. }
    destruct (500 <=? reply_status r) eqn:E500; simpl.
    { destruct (attempt <? max_retries self); reflexivity. }
    unfold raise_for_status. simpl. rewrite andb_true_r.
    destruct ((400 <=? reply_status r) && (reply_status r <? 500)) eqn:E4; simpl.
    { destruct (attempt <? max_retries self); reflexivity. }
    assert (E5 : (500 <=? reply_status r) && (reply_status r <? 600) = false) by lia.
    rewrite E5. reflexivity.
  - destruct (is_RequestException e) eqn:E; simpl.
    + destruct (attempt <? max_retries self); reflexivity.
    + reflexivity.
Qed.

Lemma retry_loop_cons request_func attempt rest w :
  retry_loop self request_func (attempt :: rest) w
  = match attempt_once self request_func attempt w with
    | (Ret (Some response), w1) => (Ret response, w1)
    | (Ret None, w1) => retry_loop self request_func rest w1
    | (Raise e, w1) => (Raise e, w1)
    | (Abort why, w1) => (Abort why, w1)
    end.
Proof.
  simpl. unfold bind.
  destruct (attempt_once self request_func attempt w) as [[[response |] | e | why] w1];
    reflexivity.
Qed.

Lemma retry_loop_by_answers k :
  forall a j w,
    Z.of_nat (a + j) = max_retries self ->
    (k <= j)%nat ->
    (forall n, (n < k)%nat ->
               retryable (session self (List.length (sent w) + n)%nat rq) = true) ->
    k = j \/ retryable (session self (List.length (sent w) + k)%nat rq) = false ->
    retry_loop self (session_send self rq) (map Z.of_nat (seq a (S j))) w
    = (settles self (reported_url (session self) (List.length (sent w) + k)%nat rq)
               (session self (List.length (sent w) + k)%nat rq),
       after (S k) k rq w).
Proof.
  induction k as [| k IH]; intros a j w Ha Hk Hbefore Hlast.
  - rewrite Nat.add_0_r in *.
    change (seq a (S j)) with (a :: seq (S a) j).
    rewrite map_cons, retry_loop_cons, attempt_once_by_answer.
    assert (E : retryable (session self (List.length (sent w)) rq)
                && (Z.of_nat a <? max_retries self) = false).
    { destruct Hlast as [<- | ->]; [|reflexivity].
      apply andb_false_iff. right. lia. }
    rewrite E.
    destruct (settles self (reported_url (session self) (List.length (sent w)) rq)
                (session self (List.length (sent w)) rq)); reflexivity.
  - destruct j as [| j]; [lia|].
    change (seq a (S (S j))) with (a :: seq (S a) (S j)).
    rewrite map_cons, retry_loop_cons, attempt_once_by_answer.
    assert (E : retryable (session self (List.length (sent w)) rq)
                && (Z.of_nat a <? max_retries self) = true).
    { apply andb_true_intro. split; [|lia].
      specialize (Hbefore 0%nat ltac:(lia)). rewrite Nat.add_0_r in Hbefore. exact Hbefore. }
    rewrite E.
    rewrite (IH (S a) j (after 1 1 rq w)).
    + rewrite after_sent_length, after_after.
      replace (1 + List.length (sent w) + k)%nat with (List.length (sent w) + S k)%nat by lia.
      replace (S k + 1)%nat with (S (S k)) by lia.
      replace (k + 1)%nat with (S k) by lia. reflexivity.
    + lia.
    + lia.
    + intros n Hn. rewrite after_sent_length.
      replace (1 + List.length (sent w) + n)%nat with (List.length (sent w) + S n)%nat by lia.
      apply Hbefore. lia.
    + rewrite after_sent_length.
      replace (1 + List.length (sent w) + k)%nat with (List.length (sent w) + S k)%nat by lia.
      destruct Hlast as [Hlast | Hlast]; [left; lia | right; exact Hlast].
Qed.

End RetryCharacterised.

(** X2.  What [_execute_with_retry] returns is decided by the first answer
    that is not retryable, or by the answer to attempt [max_retries + 1]
    when all before it are retryable: after [k] retryable answers the loop
    has sent [k + 1] requests and paused [k] times, once before each
    retry and never after the last attempt.  The response returned, and
    the message of the error raised for a status from 400 to 499, carry
    the URL that the response to that last request reports. *)
Theorem execute_with_retry_by_answers
    (self : AlchemyClient) (rq : Request) (w : World) (k : nat) :
  Z.of_nat k <= max_retries self ->
  (forall n, (n < k)%nat ->
             retryable (session self (List.length (sent w) + n)%nat rq) = true) ->
  Z.of_nat k = max_retries self
  \/ retryable (session self (List.length (sent w) + k)%nat rq) = false ->
  _execute_with_retry self (session_send self rq) w
  = (settles self (reported_url (session self) (List.length (sent w) + k)%nat rq)
             (session self (List.length (sent w) + k)%nat rq),
     after (S k) k rq w).
Proof.
  intros Hk Hbefore Hlast. unfold _execute_with_retry, range.
  replace (Z.to_nat (max_retries self + 1)) with (S (Z.to_nat (max_retries self))) by lia.
  apply (retry_loop_by_answers self rq k 0%nat (Z.to_nat (max_retries self)) w).
  - lia.
  - lia.
  - exact Hbefore.
  - destruct Hlast as [Hlast | Hlast]; [left; lia | right; exact Hlast].
Qed.

Lemma execute_with_retry_by_answers_witness :
  let self := mkAlchemyClient test_key DEFAULT_MAX_RETRIES
                (scripted [plain 500 "Internal Server Error";
                           Fails (RequestException "Read timed out");
                           plain 401 "Unauthorized"]) in
  let listing := mkAlchemyClient test_key 1 not_found_with_query in
  _execute_with_retry self (session_send self test_post) world0
  = (Raise (AlchemyAPIError "Invalid API key" (Some 401)), after 3 2 test_post world0) /\
  _execute_with_retry listing (session_send listing test_get) world0
  = (Raise (AlchemyAPIError
              "Request failed: 404 Client Error: Not Found for url: https://eth-mainnet.g.alchemy.com/nft/v3/[REDACTED]/getNFTsForOwner?owner=0xd8dA6BF26964aF9D7eEd9e03E53415D37aA96045&withMetadata=true&pageSize=100"
              None),
     after 2 1 test_get world0).
Proof.
  intros self listing. split.
  - apply (execute_with_retry_by_answers self test_post world0 2).
    + vm_compute. discriminate.
    + intros n Hn. destruct n as [| [| n]]; [reflexivity | reflexivity | lia].
    + right. reflexivity.
  - apply (execute_with_retry_by_answers listing test_get world0 1).
    + vm_compute. discriminate.
    + intros n Hn. destruct n as [| n]; [reflexivity | lia].
    + left. reflexivity.
Defined.

(** ** The typed operations *)

Section Guards.

Variable self : AlchemyClient.

Lemma lookup_cons {V} k k' (v : V) rest :
  lookup k ((k', v) :: rest) = if String.eqb k' k then Some v else lookup k rest.
Proof. reflexivity. Qed.

Lemma other_network_has_no_endpoint network :
  existsb (String.eqb network) EVM_NETWORKS = false ->
  String.eqb network "solana" = false ->
  lookup network NETWORK_ENDPOINTS = None.
Proof.
  intros H Hs. unfold EVM_NETWORKS in H. simpl in H.
  repeat (apply orb_false_elim in H; destruct H as [? H]).
  unfold NETWORK_ENDPOINTS. rewrite !lookup_cons.
  rewrite (String.eqb_sym "ethereum"), (String.eqb_sym "polygon"), (String.eqb_sym "base"),
    (String.eqb_sym "bnb"), (String.eqb_sym "solana").
  repeat match goal with E : String.eqb network _ = false |- _ => rewrite E; clear E end.
  reflexivity.
Qed.

Lemma _request_without_endpoint network method params w :
  lookup network NETWORK_ENDPOINTS = None ->
  _request self network method params w
  = (Raise (ValueError ("Unsupported network: " ++ network)), w).
Proof.
  intros H. unfold _request, _get_base_url. rewrite H. reflexivity.
Qed.

End Guards.

(** X3.  The four EVM operations send nothing for a network that is not
    one of ethereum, polygon, base and bnb: each raises a [ValueError]
    before any request goes out.  For ["solana"] it is the operation's own
    guard, with the message ["Use get_solana_assets for Solana ..."] that
    names what was asked for; for any other name it is the endpoint
    lookup, with ["Unsupported network: "] followed by the name. *)
Theorem evm_operations_refuse_other_networks
    (self : AlchemyClient) (fuel : nat) (network argument : string) (w : World) :
  existsb (String.eqb network) EVM_NETWORKS = false ->
  (0 < fuel)%nat ->
  let refusal (what : string) :=
    ValueError (if String.eqb network "solana"
                then "Use get_solana_assets for Solana " ++ what
                else "Unsupported network: " ++ network) in
  get_native_balance self network argument w = (Raise (refusal "native balance"), w) /\
  get_token_balances self fuel network argument w = (Raise (refusal "tokens"), w) /\
  get_token_metadata self network argument w = (Raise (refusal "token metadata"), w) /\
  get_nfts_for_owner self fuel network argument w = (Raise (refusal "NFTs"), w).
Proof.
  intros H Hfuel refusal. subst refusal. cbv beta.
  unfold get_native_balance, get_token_balances, get_token_metadata, get_nfts_for_owner.
  destruct (String.eqb network "solana") eqn:Hs.
  - repeat split; reflexivity.
  - pose proof (other_network_has_no_endpoint network H Hs) as Hl.
    destruct fuel as [| n]; [lia|].
    repeat split.
    + rewrite (bind_Raise _ _ _ _ _ (_request_without_endpoint self _ _ _ w Hl)). reflexivity.
    + simpl token_balances_loop.
      rewrite (bind_Raise _ _ _ _ _ (_request_without_endpoint self _ _ _ w Hl)). reflexivity.
    + rewrite (bind_Raise _ _ _ _ _ (_request_without_endpoint self _ _ _ w Hl)). reflexivity.
    + simpl nfts_loop. unfold _request_nft_api, _get_nft_api_url. rewrite Hl. reflexivity.
Qed.

Lemma evm_operations_refuse_other_networks_witness :
  (get_native_balance two_pages "solana" test_wallet world0
   = (Raise (ValueError "Use get_solana_assets for Solana native balance"), world0) /\
   get_token_balances two_pages 5 "solana" test_wallet world0
   = (Raise (ValueError "Use get_solana_assets for Solana tokens"), world0) /\
   get_token_metadata two_pages "solana" test_wallet world0
   = (Raise (ValueError "Use get_solana_assets for Solana token metadata"), world0) /\
   get_nfts_for_owner two_pages 5 "solana" test_wallet world0
   = (Raise (ValueError "Use get_solana_assets for Solana NFTs"), world0)) /\
  (get_native_balance two_pages "bitcoin" test_wallet world0
   = (Raise (ValueError "Unsupported network: bitcoin"), world0) /\
   get_token_balances two_pages 5 "bitcoin" test_wallet world0
   = (Raise (ValueError "Unsupported network: bitcoin"), world0) /\
   get_token_metadata two_pages "bitcoin" test_wallet world0
   = (Raise (ValueError "Unsupported network: bitcoin"), world0) /\
   get_nfts_for_owner two_pages 5 "bitcoin" test_wallet world0
   = (Raise (ValueError "Unsupported network: bitcoin"), world0)).
Proof.
  split.
  - apply (evm_operations_refuse_other_networks two_pages 5 "solana" test_wallet world0).
    + reflexivity.
    + lia.
  - apply (evm_operations_refuse_other_networks two_pages 5 "bitcoin" test_wallet world0).
    + reflexivity.
    + lia.
Defined.

(** ** NFT pagination *)

Section NFTPagination.

Variable self : AlchemyClient.
Variables (network wallet base : string).
Hypothesis base_url : _get_nft_api_url self network = Ret base.
Hypothesis retries : 0 <= max_retries self.

Lemma _request_nft_api_answered endpoint params w document :
  (forall rq, serves_document (session self (List.length (sent w)) rq) document) ->
  _request_nft_api self network endpoint params w
  = (Ret document,
     mkWorld (mkRequest "GET" (base ++ "/" ++ endpoint) JNull params :: sent w)
             (slept w) (stderr w)).
Proof.
  intros Ha.
  destruct (Ha (mkRequest "GET" (base ++ "/" ++ endpoint) JNull params)) as (rs & Hr).
  unfold _request_nft_api. rewrite base_url, bind_lift.
  unfold session_get.
  rewrite (bind_Ret _ _ _ _ _
             (execute_answered self _ w _ retries Hr eq_refl)).
  reflexivity.
Qed.

Lemma nfts_loop_step n page_key acc w document found :
  (forall rq, serves_document (session self (List.length (sent w)) rq) document) ->
  page_nfts document = Ret found ->
  nfts_loop self (S n) network wallet page_key acc w
  = let w1 := mkWorld (nfts_request base wallet page_key :: sent w) (slept w) (stderr w) in
    if has_cursor document
    then nfts_loop self n network wallet (page_cursor document) (acc ++ found) w1
    else (Ret (acc ++ found)%list, w1).
Proof.
  intros Ha He. cbv zeta.
  unfold has_cursor, page_cursor.
  unfold page_nfts in He.
  destruct document as [| | | | |o]; try discriminate He.
  simpl dict_get in *. simpl obind in He.
  destruct (iterate _) as [items | |] eqn:Hit; try discriminate He. simpl in He.
  simpl nfts_loop.
  rewrite (bind_Ret _ _ _ _ _ (_request_nft_api_answered _ _ _ _ Ha)).
  fold (nfts_request base wallet page_key).
  rewrite bind_lift. simpl dict_get. cbv iota beta.
  rewrite bind_lift, Hit, bind_lift, He, bind_lift. simpl dict_get. cbv iota beta.
  destruct (truthy _); reflexivity.
Qed.

Lemma nfts_loop_pages first_pages :
  forall n page_key acc w last_page entries,
    (forall i page rq,
        nth_error (first_pages ++ [last_page]) i = Some page ->
        serves_document (session self (List.length (sent w) + i)%nat rq) page) ->
    Forall (fun p => has_cursor p = true) first_pages ->
    has_cursor last_page = false ->
    Forall2 (fun p es => page_nfts p = Ret es) (first_pages ++ [last_page]) entries ->
    (List.length first_pages < n)%nat ->
    nfts_loop self n network wallet page_key acc w
    = (Ret (acc ++ List.concat entries)%list,
       mkWorld (rev (map (nfts_request base wallet)
                         (page_key :: map page_cursor first_pages)) ++ sent w)
               (slept w) (stderr w)).
Proof.
  induction first_pages as [| page pages IH];
    intros n page_key acc w last_page entries Hans Hcur Hlast Hent Hn.
  - simpl in *. inversion Hent as [| p es ps ess Hes Hrest]; subst.
    inversion Hrest; subst.
    destruct n as [| n]; [lia|].
    rewrite (nfts_loop_step n page_key acc w last_page es).
    + cbv zeta. rewrite Hlast. simpl. rewrite app_nil_r. reflexivity.
    + intros rq. specialize (Hans 0%nat last_page rq eq_refl).
      rewrite Nat.add_0_r in Hans. exact Hans.
    + exact Hes.
  - simpl in Hent. inversion Hent as [| p es ps ess Hes Hrest]; subst.
    inversion Hcur as [| p' ps' Hc Hcs]; subst.
    destruct n as [| n]; [simpl in Hn; lia|].
    rewrite (nfts_loop_step n page_key acc w page es).
    + cbv zeta. rewrite Hc.
      rewrite (IH n (page_cursor page) (acc ++ es)%list _ last_page ess).
      * simpl. f_equal.
        -- rewrite <- app_assoc. reflexivity.
        -- f_equal. rewrite <- !app_assoc. reflexivity.
      * intros i pg rq Hi. simpl sent. simpl List.length.
        specialize (Hans (S i) pg rq Hi).
        replace (S (List.length (sent w)) + i)%nat with (List.length (sent w) + S i)%nat by lia.
        exact Hans.
      * exact Hcs.
      * exact Hlast.
      * exact Hrest.
      * simpl in Hn. lia.
    + intros rq. specialize (Hans 0%nat page rq eq_refl).
      rewrite Nat.add_0_r in Hans. exact Hans.
    + exact Hes.
Qed.

End NFTPagination.

(** X4.  [get_nfts_for_owner] follows the [pageKey] cursor of the REST
    listing: for [k] pages with a cursor followed by one without it sends
    exactly [k + 1] GET requests, the first without a [pageKey] and each
    later one with the key of the page before, and returns the records of
    the pages in page order. *)
Theorem get_nfts_for_owner_paginates
    (self : AlchemyClient) (fuel : nat) (network wallet base : string) (w : World)
    (first_pages : list json) (last_page : json) (entries : list (list NFT.t)) :
  String.eqb network "solana" = false ->
  _get_nft_api_url self network = Ret base ->
  0 <= max_retries self ->
  (forall i page rq,
      nth_error (first_pages ++ [last_page]) i = Some page ->
      serves_document (session self (List.length (sent w) + i)%nat rq) page) ->
  Forall (fun p => has_cursor p = true) first_pages ->
  has_cursor last_page = false ->
  Forall2 (fun p es => page_nfts p = Ret es) (first_pages ++ [last_page]) entries ->
  (List.length first_pages < fuel)%nat ->
  get_nfts_for_owner self fuel network wallet w
  = (Ret (List.concat entries),
     mkWorld (rev (map (nfts_request base wallet) (JNull :: map page_cursor first_pages))
              ++ sent w)
             (slept w) (stderr w)).
Proof.
  intros Hsol Hbase Hm Hans Hcur Hlast Hent Hfuel.
  unfold get_nfts_for_owner. rewrite Hsol.
  exact (nfts_loop_pages self network wallet base Hbase Hm first_pages
           fuel JNull [] w last_page entries Hans Hcur Hlast Hent Hfuel).
Qed.

Lemma get_nfts_for_owner_paginates_witness :
  get_nfts_for_owner two_nft_pages 5 "ethereum" test_wallet world0
  = (Ret [NFT.mk "0xNFT1" "1" "ERC1155" None None "3" false;
          NFT.mk "0xNFT2" "2" "ERC721" None None "1" true],
     mkWorld [nfts_request "https://eth-mainnet.g.alchemy.com/nft/v3/test-api-key-12345"
                test_wallet (JStr "page2");
              nfts_request "https://eth-mainnet.g.alchemy.com/nft/v3/test-api-key-12345"
                test_wallet JNull] 0 []).
Proof.
  apply (get_nfts_for_owner_paginates two_nft_pages 5 "ethereum" test_wallet
           "https://eth-mainnet.g.alchemy.com/nft/v3/test-api-key-12345" world0
           [nft_page_one] nft_page_two
           [[NFT.mk "0xNFT1" "1" "ERC1155" None None "3" false];
            [NFT.mk "0xNFT2" "2" "ERC721" None None "1" true]]).
  - reflexivity.
  - reflexivity.
  - vm_compute. discriminate.
  - intros i page rq Hi.
    destruct i as [| [| i]]; simpl in Hi.
    + injection Hi as <-. eexists. reflexivity.
    + injection Hi as <-. eexists. reflexivity.
    + destruct i; discriminate Hi.
  - repeat constructor.
  - reflexivity.
  - repeat constructor.
  - simpl. lia.
Defined.

(** ** Solana pagination *)

Section SolanaPagination.

Variable self : AlchemyClient.
Variables (wallet base : string).
Hypothesis retries : 0 <= max_retries self.
Hypothesis solana_base_url : _get_base_url self "solana" = Ret base.

Lemma solana_assets_loop_step n page acc w result found count :
  (forall rq, answers_with (session self (List.length (sent w)) rq) result) ->
  page_assets result = Ret found ->
  page_count result = Ret count ->
  solana_assets_loop self (S n) wallet page acc w
  = let w1 := mkWorld (solana_request base wallet page :: sent w) (slept w) (stderr w) in
    if count <? 1000
    then (Ret (acc ++ found)%list, w1)
    else solana_assets_loop self n wallet (page + 1) (acc ++ found) w1.
Proof.
  intros Ha He Hc. cbv zeta.
  unfold page_assets in He. unfold page_count in Hc.
  destruct result as [| | | | |o]; try discriminate He.
  simpl dict_get in *. simpl obind in He, Hc.
  destruct (iterate _) as [items | |] eqn:Hit; try discriminate He. simpl in He.
  simpl solana_assets_loop.
  rewrite (bind_Ret _ _ _ _ _ (_request_answered self _ _ _ _ _ _ solana_base_url retries Ha)).
  fold (solana_request base wallet page).
  rewrite bind_lift. simpl dict_get. cbv iota beta.
  rewrite bind_lift, Hit, bind_lift, He, bind_lift, Hc.
  destruct (count <? 1000); reflexivity.
Qed.

Lemma solana_assets_loop_pages full_pages :
  forall n page acc w last_page entries,
    (forall i p rq,
        nth_error (full_pages ++ [last_page]) i = Some p ->
        answers_with (session self (List.length (sent w) + i)%nat rq) p) ->
    Forall (fun p => exists count, page_count p = Ret count /\ 1000 <= count) full_pages ->
    (exists count, page_count last_page = Ret count /\ count < 1000) ->
    Forall2 (fun p es => page_assets p = Ret es) (full_pages ++ [last_page]) entries ->
    (List.length full_pages < n)%nat ->
    solana_assets_loop self n wallet page acc w
    = (Ret (acc ++ List.concat entries)%list,
       mkWorld (rev (map (fun i => solana_request base wallet (page + Z.of_nat i))
                         (seq 0 (S (List.length full_pages)))) ++ sent w)
               (slept w) (stderr w)).
Proof.
  induction full_pages as [| p pages IH];
    intros n page acc w last_page entries Hans Hfull Hlast Hent Hn.
  - simpl in *. inversion Hent as [| p es ps ess Hes Hrest]; subst.
    inversion Hrest; subst.
    destruct Hlast as (count & Hc & Hlt).
    destruct n as [| n]; [lia|].
    rewrite (solana_assets_loop_step n page acc w last_page es count).
    + cbv zeta. replace (count <? 1000) with true by lia.
      simpl. rewrite app_nil_r, Z.add_0_r. reflexivity.
    + intros rq. specialize (Hans 0%nat last_page rq eq_refl).
      rewrite Nat.add_0_r in Hans. exact Hans.
    + exact Hes.
    + exact Hc.
  - simpl in Hent. inversion Hent as [| p0 es ps ess Hes Hrest]; subst.
    inversion Hfull as [| p' ps' (count & Hc & Hge) Hcs]; subst.
    destruct n as [| n]; [simpl in Hn; lia|].
    rewrite (solana_assets_loop_step n page acc w p es count).
    + cbv zeta. replace (count <? 1000) with false by lia.
      rewrite (IH n (page + 1) (acc ++ es)%list _ last_page ess).
      * simpl List.concat. simpl sent. simpl slept. simpl stderr.
        f_equal; [rewrite <- app_assoc; reflexivity|].
        f_equal.
        change (seq 0 (S (List.length (p :: pages))))
          with (0%nat :: seq 1 (S (List.length pages))).
        rewrite <- seq_shift, map_cons, map_map. cbn [rev].
        rewrite <- app_assoc. cbn [app].
        replace (page + Z.of_nat 0) with page by lia.
        f_equal. f_equal.
        apply map_ext. intros i. f_equal. lia.
      * intros i pg rq Hi. simpl sent. simpl List.length.
        specialize (Hans (S i) pg rq Hi).
        replace (S (List.length (sent w)) + i)%nat with (List.length (sent w) + S i)%nat by lia.
        exact Hans.
      * exact Hcs.
      * exact Hlast.
      * exact Hrest.
      * simpl in Hn. lia.
    + intros rq. specialize (Hans 0%nat p rq eq_refl).
      rewrite Nat.add_0_r in Hans. exact Hans.
    + exact Hes.
    + exact Hc.
Qed.

End SolanaPagination.

(** X5.  [get_solana_assets] asks for page 1, 2, ... and stops at the first
    page with fewer than 1000 items: for [k] pages of at least 1000 items
    followed by a shorter page it sends exactly [k + 1] requests, numbered
    from 1, and returns the records of the pages in page order.  A last
    page of exactly 1000 items is therefore followed by one more request. *)
Theorem get_solana_assets_paginates
    (self : AlchemyClient) (fuel : nat) (wallet : string) (w : World)
    (full_pages : list json) (last_page : json) (entries : list (list SolanaAsset.t)) :
  0 <= max_retries self ->
  (forall i p rq,
      nth_error (full_pages ++ [last_page]) i = Some p ->
      answers_with (session self (List.length (sent w) + i)%nat rq) p) ->
  Forall (fun p => exists count, page_count p = Ret count /\ 1000 <= count) full_pages ->
  (exists count, page_count last_page = Ret count /\ count < 1000) ->
  Forall2 (fun p es => page_assets p = Ret es) (full_pages ++ [last_page]) entries ->
  (List.length full_pages < fuel)%nat ->
  get_solana_assets self fuel wallet w
  = (Ret (List.concat entries),
     mkWorld (rev (map (fun i => solana_request
                                   ("https://solana-mainnet.g.alchemy.com/v2/" ++ api_key self)
                                   wallet (1 + Z.of_nat i))
                       (seq 0 (S (List.length full_pages)))) ++ sent w)
             (slept w) (stderr w)).
Proof.
  intros Hm Hans Hfull Hlast Hent Hfuel.
  unfold get_solana_assets.
  exact (solana_assets_loop_pages self wallet _ Hm eq_refl full_pages fuel 1 [] w last_page
           entries Hans Hfull Hlast Hent Hfuel).
Qed.

Lemma get_solana_assets_paginates_witness :
  get_solana_assets full_page_then_empty 5 test_solana_wallet world0
  = (Ret (repeat (SolanaAsset.mk "Mint" "V1_NFT" None None None None) 1000),
     mkWorld [solana_request "https://solana-mainnet.g.alchemy.com/v2/test-api-key-12345"
                test_solana_wallet 2;
              solana_request "https://solana-mainnet.g.alchemy.com/v2/test-api-key-12345"
                test_solana_wallet 1] 0 []).
Proof.
  pose proof (get_solana_assets_paginates full_page_then_empty 5 test_solana_wallet world0
                [thousand_items] (JObj [("items", JArr [])])
                [repeat (SolanaAsset.mk "Mint" "V1_NFT" None None None None) 1000; []]) as T.
  simpl List.concat in T. rewrite app_nil_r in T.
  apply T.
  - vm_compute. discriminate.
  - intros i page rq Hi.
    destruct i as [| [| i]]; simpl in Hi.
    + injection Hi as <-. eexists. eexists. repeat split; reflexivity.
    + injection Hi as <-. eexists. eexists. repeat split; reflexivity.
    + destruct i; discriminate Hi.
  - constructor; [|constructor]. exists 1000. split; [vm_compute; reflexivity | lia].
  - exists 0. split; [reflexivity | lia].
  - constructor; [vm_compute; reflexivity|]. constructor; [reflexivity | constructor].
  - simpl. lia.
Defined.

(** ** The EVM scanner: every record is accounted for *)

Section EVMAccounting.

Variable client : Client.
Variable chain : string.

(** A turn of the token loop appends one ERC-20 asset and counts it, or
    counts one skipped token. *)
Lemma evm_token_step_counts acc tb w acc' w' :
  evm_token_step client chain acc tb w = (Ret acc', w') ->
  (exists a,
      acc' = ((fst (fst acc) ++ [a])%list, snd (fst acc) + 1, snd acc) /\
      Asset.token_type a = "ERC20") \/
  acc' = (fst (fst acc), snd (fst acc), snd acc + 1).
Proof.
  destruct acc as [[assets tc] sk]. simpl. intros H.
  unfold evm_token_step in H.
  apply try_except_inv_Ret in H. destruct H as [H | (e & w1 & _ & _ & H)].
  - apply bind_inv_Ret in H. destruct H as (metadata & w1 & _ & H).
    apply bind_inv_Ret in H. destruct H as (balance_int & w2 & _ & H).
    apply bind_inv_Ret in H. destruct H as (quantity & w3 & _ & H).
    injection H as <- _. left. eexists. split; reflexivity.
  - injection H as <- _. right. reflexivity.
Qed.

Lemma evm_token_loop_counts tbs :
  forall acc w acc' w',
    for_each (evm_token_step client chain) tbs acc w = (Ret acc', w') ->
    exists added,
      fst (fst acc') = (fst (fst acc) ++ added)%list /\
      snd (fst acc') = snd (fst acc) + zlen added /\
      snd acc' = snd acc + (zlen tbs - zlen added) /\
      zlen added <= zlen tbs /\
      Forall (fun a => Asset.token_type a = "ERC20") added.
Proof.
  unfold zlen.
  induction tbs as [| tb rest IH]; intros acc w acc' w' H.
  - injection H as <- _. exists []. rewrite app_nil_r. simpl.
    repeat split; try lia. constructor.
  - simpl in H. apply bind_inv_Ret in H. destruct H as (acc1 & w1 & H1 & H).
    apply IH in H. destruct H as (added & Ha & Ht & Hs & Hle & Hall).
    apply evm_token_step_counts in H1. destruct H1 as [(a & -> & Hty) | ->].
    + exists (a :: added). cbn [fst snd] in *. rewrite Ha, Ht, Hs, <- app_assoc.
      cbn [app List.length]. rewrite !Nat2Z.inj_succ.
      repeat split; try lia. constructor; assumption.
    + exists added. cbn [fst snd] in *. rewrite Ha, Ht, Hs.
      cbn [List.length]. rewrite !Nat2Z.inj_succ.
      repeat split; try lia. exact Hall.
Qed.

Lemma clean_or_spam (nfts : list NFT.t) :
  zlen (filter clean nfts) + zlen (filter NFT.is_spam nfts) = zlen nfts.
Proof.
  unfold zlen, clean. induction nfts as [| nft rest IH]; [reflexivity|].
  cbn [filter]. destruct (NFT.is_spam nft); cbn [negb List.length];
    rewrite !Nat2Z.inj_succ; lia.
Qed.

Lemma typed_among_clean (nfts : list NFT.t) :
  zlen (filter clean_erc721 nfts) + zlen (filter clean_erc1155 nfts)
  <= zlen (filter clean nfts).
Proof.
  unfold zlen, clean_erc721, clean_erc1155, clean.
  induction nfts as [| nft rest IH]; [simpl; lia|].
  cbn [filter]. destruct (NFT.is_spam nft); cbn [negb andb List.length]; [lia|].
  destruct (String.eqb_spec (NFT.token_type nft) "ERC721") as [E | E].
  - rewrite E. cbn [String.eqb Ascii.eqb Bool.eqb andb List.length].
    rewrite !Nat2Z.inj_succ. lia.
  - destruct (String.eqb (NFT.token_type nft) "ERC1155"); cbn [List.length];
      rewrite ?Nat2Z.inj_succ; lia.
Qed.

Lemma evm_native_step_inv nb w assets nc w' :
  evm_native_step chain nb w = (Ret (assets, nc), w') ->
  w' = w /\
  ((nb <= 0 /\ assets = [] /\ nc = 0) \/
   (0 < nb /\ nc = 1 /\
    exists info q,
      lookup chain NATIVE_TOKENS = Some info /\
      format_quantity nb (native_decimals info) = Ret q /\
      assets = [Asset.mk chain (native_name info) (native_symbol info) "NATIVE" q "NATIVE"
                         None None false])).
Proof.
  unfold evm_native_step. destruct (Z.ltb_spec 0 nb) as [Hpos | Hle].
  - destruct (lookup chain NATIVE_TOKENS) as [info |]; [|discriminate].
    intros H. apply bind_inv_Ret in H. destruct H as (a & w1 & Ha & H).
    injection H as <- <- <-. apply lift_inv_Ret in Ha. destruct Ha as [Ha ->].
    split; [reflexivity|]. right. split; [exact Hpos|]. split; [reflexivity|].
    unfold _create_native_asset in Ha.
    destruct (format_quantity nb (native_decimals info)) as [q | |] eqn:Hq; try discriminate.
    injection Ha as <-. exists info, q. repeat split. exact Hq.
  - intros [= <- <- <-]. split; [reflexivity|]. left. repeat split. exact Hle.
Qed.

End EVMAccounting.

(** X6.  A scan of an EVM chain that goes through accounts for every record
    the client returned: the native count is one for a positive balance and
    zero otherwise; every token balance is either counted as a token or as
    skipped; every NFT record is either counted as an NFT or as spam; the
    main list holds as many assets as the native, token and NFT counts add
    up to; and the typed NFT counts never exceed the NFT count. *)
Theorem evm_scan_accounts_for_every_record (client : Client) (chain wallet : string)
    (w w' : World) (r : ScanResult.t) :
  evm_scan client chain wallet w = (Ret r, w') ->
  ScanResult.error r = None ->
  exists native_balance w1 w2 token_balances w3 w5 nfts,
    client_get_native_balance client chain wallet w = (Ret native_balance, w1) /\
    client_get_token_balances client chain wallet w2 = (Ret token_balances, w3) /\
    client_get_nfts_for_owner client chain wallet w5 = (Ret nfts, w') /\
    ScanResult.native_count r = (if 0 <? native_balance then 1 else 0) /\
    ScanResult.token_count r + ScanResult.skipped_tokens r = zlen token_balances /\
    0 <= ScanResult.token_count r /\ 0 <= ScanResult.skipped_tokens r /\
    ScanResult.nft_count r + ScanResult.spam_count r = zlen nfts /\
    ScanResult.spam_count r = zlen (ScanResult.spam_assets r) /\
    zlen (ScanResult.assets r)
    = ScanResult.native_count r + ScanResult.token_count r + ScanResult.nft_count r /\
    ScanResult.erc721_count r + ScanResult.erc1155_count r <= ScanResult.nft_count r.
Proof.
  intros H Herr. unfold evm_scan in H.
  apply try_except_inv_Ret in H. destruct H as [H | (e & w1 & _ & _ & H)].
  2: { injection H as <- _. discriminate Herr. }
  apply evm_scan_try_inv in H.
  destruct H as (nb & w1 & assets0 & nc & w2 & tbs & w3 & assets1 & tc & sk & w4 & w5 & nfts
                 & H1 & H2 & H3 & H4 & H5 & H6 & ->).
  exists nb, w1, w2, tbs, w3, w5, nfts. simpl.
  apply evm_native_step_inv in H2. destruct H2 as [_ H2].
  apply evm_token_loop_counts in H4. destruct H4 as (added & Ha & Ht & Hs & Hle & _).
  simpl in Ha, Ht, Hs. subst assets1.
  pose proof (clean_or_spam nfts) as Hcs. pose proof (typed_among_clean nfts) as Hty.
  assert (Hlen : zlen ((assets0 ++ added) ++ map (evm_nft_asset chain) (filter clean nfts))
                 = zlen assets0 + zlen added + zlen (filter clean nfts)).
  { unfold zlen. rewrite !length_app, length_map. lia. }
  assert (Hspam : zlen (map (evm_nft_asset chain) (filter NFT.is_spam nfts))
                  = zlen (filter NFT.is_spam nfts)).
  { unfold zlen. rewrite length_map. reflexivity. }
  assert (Hadded : 0 <= zlen added) by (unfold zlen; lia).
  rewrite Hlen, Hspam.
  destruct H2 as [(Hnb & -> & ->) | (Hnb & -> & info & q & _ & _ & ->)].
  - destruct (Z.ltb_spec 0 nb); [lia|]. repeat split; try assumption; try lia.
    unfold zlen in *. cbn [List.length] in *. lia.
  - destruct (Z.ltb_spec 0 nb); [|lia]. repeat split; try assumption; try lia.
    unfold zlen in *. cbn [List.length] in *. lia.
Qed.

Lemma evm_scan_accounts_for_every_record_witness :
  exists r w',
    evm_scan (alchemy mixed_wallet 5) "ethereum" test_wallet world0 = (Ret r, w') /\
    ScanResult.native_count r = 1 /\ ScanResult.token_count r = 1 /\
    ScanResult.skipped_tokens r = 1 /\ ScanResult.nft_count r = 1 /\
    ScanResult.spam_count r = 1 /\ zlen (ScanResult.assets r) = 3 /\
    exists native_balance w1 w2 token_balances w3 w5 nfts,
      client_get_native_balance (alchemy mixed_wallet 5) "ethereum" test_wallet world0
      = (Ret native_balance, w1) /\
      client_get_token_balances (alchemy mixed_wallet 5) "ethereum" test_wallet w2
      = (Ret token_balances, w3) /\
      client_get_nfts_for_owner (alchemy mixed_wallet 5) "ethereum" test_wallet w5
      = (Ret nfts, w') /\
      ScanResult.native_count r = (if 0 <? native_balance then 1 else 0) /\
      ScanResult.token_count r + ScanResult.skipped_tokens r = zlen token_balances /\
      0 <= ScanResult.token_count r /\ 0 <= ScanResult.skipped_tokens r /\
      ScanResult.nft_count r + ScanResult.spam_count r = zlen nfts /\
      ScanResult.spam_count r = zlen (ScanResult.spam_assets r) /\
      zlen (ScanResult.assets r)
      = ScanResult.native_count r + ScanResult.token_count r + ScanResult.nft_count r /\
      ScanResult.erc721_count r + ScanResult.erc1155_count r <= ScanResult.nft_count r.
Proof.
  pose proof (evm_scan_accounts_for_every_record (alchemy mixed_wallet 5) "ethereum"
                test_wallet world0) as T.
  destruct (evm_scan (alchemy mixed_wallet 5) "ethereum" test_wallet world0)
    as [[r | e | why] w'] eqn:run; vm_compute in run; try discriminate run.
  injection run as <- <-.
  eexists. eexists. split; [reflexivity|].
  do 6 (split; [reflexivity|]).
  apply T; reflexivity.
Defined.

(** X7.  When the native balance the client returns is positive, the first
    asset of a scan that goes through is the chain's native asset: name,
    symbol and decimals come from [NATIVE_TOKENS], the address and the type
    are ["NATIVE"], and the quantity is the balance formatted with the
    table's decimals.  When the balance is not positive the list starts
    with the tokens and the native count is zero. *)
Theorem evm_scan_native_asset_comes_first (client : Client) (chain wallet : string)
    (w w' w1 : World) (r : ScanResult.t) (native_balance : Z) :
  evm_scan client chain wallet w = (Ret r, w') ->
  ScanResult.error r = None ->
  client_get_native_balance client chain wallet w = (Ret native_balance, w1) ->
  (0 < native_balance ->
   exists info quantity rest,
     lookup chain NATIVE_TOKENS = Some info /\
     format_quantity native_balance (native_decimals info) = Ret quantity /\
     ScanResult.assets r
     = Asset.mk chain (native_name info) (native_symbol info) "NATIVE" quantity "NATIVE"
                None None false :: rest /\
     zlen rest = ScanResult.token_count r + ScanResult.nft_count r) /\
  (native_balance <= 0 ->
   ScanResult.native_count r = 0 /\
   zlen (ScanResult.assets r) = ScanResult.token_count r + ScanResult.nft_count r).
Proof.
  intros H Herr Hnb. unfold evm_scan in H.
  apply try_except_inv_Ret in H. destruct H as [H | (e & w2 & _ & _ & H)].
  2: { injection H as <- _. discriminate Herr. }
  apply evm_scan_try_inv in H.
  destruct H as (nb & w1' & assets0 & nc & w2 & tbs & w3 & assets1 & tc & sk & w4 & w5 & nfts
                 & H1 & H2 & H3 & H4 & H5 & H6 & ->).
  rewrite Hnb in H1. injection H1 as <- <-. simpl.
  apply evm_native_step_inv in H2. destruct H2 as [_ H2].
  apply evm_token_loop_counts in H4. destruct H4 as (added & Ha & Ht & _).
  simpl in Ha, Ht. subst assets1 tc.
  destruct H2 as [(Hle & -> & ->) | (Hpos & -> & info & q & Hinfo & Hq & ->)].
  - split; [lia|]. intros _. split; [reflexivity|].
    unfold zlen. simpl. rewrite length_app, length_map. lia.
  - split; [|lia]. intros _.
    exists info, q, (added ++ map (evm_nft_asset chain) (filter clean nfts))%list.
    repeat split; try assumption.
    unfold zlen. rewrite length_app, length_map. lia.
Qed.

Lemma evm_scan_native_asset_comes_first_witness :
  exists r w',
    evm_scan (alchemy mixed_wallet 5) "ethereum" test_wallet world0 = (Ret r, w') /\
    exists rest,
      ScanResult.assets r
      = Asset.mk "ethereum" "Ethereum" "ETH" "NATIVE" "1" "NATIVE" None None false :: rest /\
      zlen rest = ScanResult.token_count r + ScanResult.nft_count r.
Proof.
  destruct (evm_scan (alchemy mixed_wallet 5) "ethereum" test_wallet world0)
    as [[r | e | why] w'] eqn:run; vm_compute in run; try discriminate run.
  destruct (client_get_native_balance (alchemy mixed_wallet 5) "ethereum" test_wallet world0)
    as [[nb | e | why] w1] eqn:bal; vm_compute in bal; try discriminate bal.
  pose proof (evm_scan_native_asset_comes_first (alchemy mixed_wallet 5) "ethereum"
                test_wallet world0 w' w1 r nb run) as T.
  injection run as <- <-. injection bal as <- <-.
  destruct T as [T _]; [reflexivity | reflexivity |].
  destruct (T eq_refl) as (info & q & rest & Hinfo & Hq & Hassets & Hrest).
  vm_compute in Hinfo. injection Hinfo as <-.
  vm_compute in Hq. injection Hq as <-.
  eexists. eexists. split; [reflexivity|].
  exists rest. split; [exact Hassets | exact Hrest].
Defined.

(** ** The Solana scanner: one asset per record *)

Section SolanaAccounting.

Variable chain : string.

(** What a turn of the loop appends. *)
Lemma solana_step_asset acc sa acc' :
  solana_step chain acc sa = Ret acc' ->
  exists a,
    fst (fst (fst acc')) = (fst (fst (fst acc)) ++ [a])%list /\
    Asset.asset_address a = solana_address sa /\
    Asset.token_id a = (if nft_like sa then Some (SolanaAsset.asset_id sa) else None) /\
    Asset.is_spam a = false /\
    Asset.chain a = chain.
Proof.
  destruct acc as [[[assets nc] tc] nftc]. unfold solana_step, solana_address.
  unfold native_like, nft_like, has_balance, fungible_interface, is_wrapped_sol.
  destruct (String.eqb (SolanaAsset.interface sa) "FungibleToken"
            || String.eqb (SolanaAsset.interface sa) "FungibleAsset"); cbn [andb negb].
  - destruct (SolanaAsset.balance sa) as [b |]; cbn [andb negb].
    + destruct (format_quantity b _) as [q | |]; cbn [obind]; try discriminate.
      destruct (match SolanaAsset.symbol sa with Some s => String.eqb s "SOL" | None => false end
                && String.eqb (SolanaAsset.asset_id sa) WRAPPED_SOL_MINT);
        intros [= <-]; eexists; cbn [fst snd]; repeat split.
    + intros [= <-]. eexists. cbn [fst snd]. repeat split.
  - intros [= <-]. eexists. cbn [fst snd]. repeat split.
Qed.

Lemma solana_loop_assets sas :
  forall acc w acc' w',
    for_each (fun acc sa => lift (solana_step chain acc sa)) sas acc w = (Ret acc', w') ->
    exists added,
      fst (fst (fst acc')) = (fst (fst (fst acc)) ++ added)%list /\
      map Asset.asset_address added = map solana_address sas /\
      map Asset.token_id added
      = map (fun sa => if nft_like sa then Some (SolanaAsset.asset_id sa) else None) sas /\
      Forall not_spam added /\
      Forall (fun a => Asset.chain a = chain) added.
Proof.
  induction sas as [| sa rest IH]; intros acc w acc' w' H.
  - injection H as <- _. exists []. rewrite app_nil_r. repeat split; constructor.
  - simpl in H. apply bind_inv_Ret in H. destruct H as (acc1 & w1 & H1 & H).
    apply lift_inv_Ret in H1. destruct H1 as [H1 _].
    apply solana_step_asset in H1. destruct H1 as (a & Ha & Haddr & Hid & Hspam & Hchain).
    apply IH in H. destruct H as (added & Hadd & Haddrs & Hids & Hall & Hchains).
    exists (a :: added). rewrite Hadd, Ha, <- app_assoc. cbn [app map].
    rewrite Haddr, Hid, Haddrs, Hids. repeat split; constructor; assumption.
Qed.

Lemma native_token_or_nft (sas : list SolanaAsset.t) :
  zlen (filter native_like sas) + zlen (filter token_like sas) + zlen (filter nft_like sas)
  = zlen sas.
Proof.
  unfold zlen, native_like, token_like, nft_like.
  induction sas as [| sa rest IH]; [reflexivity|].
  cbn [filter].
  destruct (fungible_interface sa && has_balance sa), (is_wrapped_sol sa);
    cbn [andb negb List.length]; rewrite !Nat2Z.inj_succ; lia.
Qed.

End SolanaAccounting.

(** X8.  A Solana scan that goes through lists one asset per record the
    client returned, in the client's order: the address is the record's id,
    or ["NATIVE"] for a wrapped-SOL record with a balance; only the records
    counted as NFTs carry a token id, which is the record's id; no asset is
    flagged as spam.  The token and NFT counts are the numbers of records of
    each kind, and the native count is one as soon as there is a native
    record, however many there are: with several native records the three
    counts add up to less than the number of assets listed.  Every asset
    carries the scanner's chain. *)
Theorem solana_scan_lists_every_record (client : Client) (chain wallet : string)
    (w w' : World) (r : ScanResult.t) :
  solana_scan client chain wallet w = (Ret r, w') ->
  ScanResult.error r = None ->
  exists sas,
    client_get_solana_assets client wallet w = (Ret sas, w') /\
    map Asset.asset_address (ScanResult.assets r) = map solana_address sas /\
    map Asset.token_id (ScanResult.assets r)
    = map (fun sa => if nft_like sa then Some (SolanaAsset.asset_id sa) else None) sas /\
    Forall not_spam (ScanResult.assets r) /\
    Forall (fun a => Asset.chain a = chain) (ScanResult.assets r) /\
    ScanResult.native_count r = (if existsb native_like sas then 1 else 0) /\
    ScanResult.token_count r = zlen (filter token_like sas) /\
    ScanResult.nft_count r = zlen (filter nft_like sas) /\
    zlen (filter native_like sas) + ScanResult.token_count r + ScanResult.nft_count r
    = zlen (ScanResult.assets r) /\
    ScanResult.erc721_count r = 0 /\ ScanResult.erc1155_count r = 0 /\
    ScanResult.spam_count r = 0 /\ ScanResult.skipped_tokens r = 0.
Proof.
  intros H Herr. apply solana_scan_inv in H. destruct H as [H | (e & ->)].
  2: { discriminate Herr. }
  apply solana_scan_try_inv in H.
  destruct H as (sas & assets & nc & tc & nftc & Hsas & Hloop & ->). cbn [ScanResult.assets
    ScanResult.native_count ScanResult.token_count ScanResult.nft_count
    ScanResult.erc721_count ScanResult.erc1155_count ScanResult.spam_count
    ScanResult.skipped_tokens].
  pose proof (solana_loop_counts chain sas _ _ _ _ Hloop) as (Hn & Ht & Hf).
  pose proof (solana_loop_assets chain sas _ _ _ _ Hloop)
    as (added & Ha & Haddr & Hid & Hall & Hchain).
  cbn [fst snd app] in Hn, Ht, Hf, Ha. subst assets.
  exists sas. repeat split; try assumption; try lia.
  pose proof (native_token_or_nft sas) as Hsum.
  assert (Hlen : zlen added = zlen sas).
  { unfold zlen. rewrite <- (length_map Asset.asset_address added), Haddr, length_map.
    reflexivity. }
  lia.
Qed.

Lemma solana_scan_lists_every_record_witness :
  exists r w',
    solana_scan (alchemy two_native_records 5) "solana" test_solana_wallet world0 = (Ret r, w') /\
    map Asset.asset_address (ScanResult.assets r)
    = ["NATIVE"; "TokenMint"; "NATIVE"; "NftMint"] /\
    ScanResult.native_count r = 1 /\ ScanResult.token_count r = 1 /\
    ScanResult.nft_count r = 1 /\
    exists sas,
      client_get_solana_assets (alchemy two_native_records 5) test_solana_wallet world0
      = (Ret sas, w') /\
      map Asset.asset_address (ScanResult.assets r) = map solana_address sas /\
      map Asset.token_id (ScanResult.assets r)
      = map (fun sa => if nft_like sa then Some (SolanaAsset.asset_id sa) else None) sas /\
      Forall not_spam (ScanResult.assets r) /\
      Forall (fun a => Asset.chain a = "solana"%string) (ScanResult.assets r) /\
      ScanResult.native_count r = (if existsb native_like sas then 1 else 0) /\
      ScanResult.token_count r = zlen (filter token_like sas) /\
      ScanResult.nft_count r = zlen (filter nft_like sas) /\
      zlen (filter native_like sas) + ScanResult.token_count r + ScanResult.nft_count r
      = zlen (ScanResult.assets r) /\
      ScanResult.erc721_count r = 0 /\ ScanResult.erc1155_count r = 0 /\
      ScanResult.spam_count r = 0 /\ ScanResult.skipped_tokens r = 0.
Proof.
  pose proof (solana_scan_lists_every_record (alchemy two_native_records 5) "solana"
                test_solana_wallet world0) as T.
  destruct (solana_scan (alchemy two_native_records 5) "solana" test_solana_wallet world0)
    as [[r | e | why] w'] eqn:run; vm_compute in run; try discriminate run.
  injection run as <- <-.
  eexists. eexists. split; [reflexivity|].
  do 4 (split; [reflexivity|]).
  apply T; reflexivity.
Defined.

(** ** Combining the results of several scans *)

Lemma combine_fold (results : list ScanResult.t) :
  forall acc,
    fold_left combine_step results acc
    = ((fst acc ++ List.concat (map ScanResult.assets (filter succeeded results)))%list,
       (snd acc ++ List.concat (map ScanResult.spam_assets (filter succeeded results)))%list).
Proof.
  induction results as [| r rest IH]; intros [assets spam].
  - simpl. rewrite !app_nil_r. reflexivity.
  - cbn [fold_left filter]. rewrite IH. unfold combine_step, succeeded.
    destruct (ScanResult.error r); cbn [fst snd map List.concat].
    + reflexivity.
    + rewrite <- !app_assoc. reflexivity.
Qed.

(** What every result of a scan satisfies. *)
Lemma scan_result_shape (r : ScanResult.t) :
  from_a_scan r ->
  Forall not_spam (ScanResult.assets r) /\
  Forall (fun a => Asset.is_spam a = true) (ScanResult.spam_assets r) /\
  (succeeded r = false -> ScanResult.assets r = [] /\ ScanResult.spam_assets r = []).
Proof.
  intros (scanner & wallet & w & w' & H).
  destruct scanner as [client chain | client chain]; cbn [scan] in H.
  - unfold evm_scan in H.
    apply try_except_inv_Ret in H. destruct H as [H | (e & w1 & _ & _ & H)].
    2: { injection H as <- _. repeat split; constructor. }
    apply evm_scan_try_inv in H.
    destruct H as (nb & w1 & assets0 & nc & w2 & tbs & w3 & assets1 & tc & sk & w4 & w5 & nfts
                   & H1 & H2 & H3 & H4 & H5 & H6 & ->).
    cbn [ScanResult.assets ScanResult.spam_assets]. split; [|split].
    + apply Forall_app. split.
      * apply evm_native_step_not_spam in H2.
        exact (for_each_invariant (fun s => Forall not_spam (fst (fst s)))
                 (evm_token_step client chain) tbs
                 (fun s x w s' w' => evm_token_step_not_spam client chain s x w s' w')
                 (assets0, 0, 0) w3 (assets1, tc, sk) w4 H2 H4).
      * apply Forall_map. apply Forall_forall. intros nft Hin.
        apply filter_In in Hin. destruct Hin as [_ Hc].
        unfold not_spam, clean in *. cbn [evm_nft_asset Asset.is_spam].
        destruct (NFT.is_spam nft); [discriminate | reflexivity].
    + apply Forall_map. apply Forall_forall. intros nft Hin.
      apply filter_In in Hin. destruct Hin as [_ Hc]. exact Hc.
    + unfold succeeded. cbn [ScanResult.error]. discriminate.
  - apply solana_scan_inv in H. destruct H as [H | (e & ->)].
    2: { repeat split; constructor. }
    apply solana_scan_try_inv in H.
    destruct H as (sas & assets & nc & tc & nftc & Hsas & Hloop & ->).
    cbn [ScanResult.assets ScanResult.spam_assets]. split; [|split].
    + pose proof (solana_loop_assets chain sas _ _ _ _ Hloop)
        as (added & Ha & _ & _ & Hall & _).
      cbn [fst app] in Ha. subst assets. exact Hall.
    + constructor.
    + unfold succeeded. cbn [ScanResult.error]. discriminate.
Qed.

Lemma concat_succeeded {A} (field : ScanResult.t -> list A) (results : list ScanResult.t) :
  Forall (fun r => succeeded r = false -> field r = []) results ->
  List.concat (map field (filter succeeded results)) = List.concat (map field results).
Proof.
  induction 1 as [| r rest Hr _ IH]; [reflexivity|].
  cbn [filter map List.concat]. destruct (succeeded r) eqn:Hs.
  - cbn [map List.concat]. rewrite IH. reflexivity.
  - rewrite (Hr eq_refl), IH. reflexivity.
Qed.

(** X9.  [combine_scan_results] concatenates, in order, the asset lists and
    the spam lists of the results without an error.  For results that
    scanners returned nothing is lost by leaving the failed ones out, since
    a failed scan has no assets; no asset of the combined main list is
    flagged as spam and every asset of the combined spam list is. *)
Theorem combine_scan_results_of_scans (results : list ScanResult.t) :
  combine_scan_results results
  = (List.concat (map ScanResult.assets (filter succeeded results)),
     List.concat (map ScanResult.spam_assets (filter succeeded results))) /\
  (Forall from_a_scan results ->
   combine_scan_results results
   = (List.concat (map ScanResult.assets results),
      List.concat (map ScanResult.spam_assets results)) /\
   Forall not_spam (fst (combine_scan_results results)) /\
   Forall (fun a => Asset.is_spam a = true) (snd (combine_scan_results results))).
Proof.
  assert (Hfold : combine_scan_results results
                  = (List.concat (map ScanResult.assets (filter succeeded results)),
                     List.concat (map ScanResult.spam_assets (filter succeeded results)))).
  { unfold combine_scan_results. rewrite combine_fold. reflexivity. }
  split; [exact Hfold|]. intros Hscans.
  assert (Hshape : Forall (fun r =>
            Forall not_spam (ScanResult.assets r) /\
            Forall (fun a => Asset.is_spam a = true) (ScanResult.spam_assets r) /\
            (succeeded r = false ->
             ScanResult.assets r = [] /\ ScanResult.spam_assets r = [])) results).
  { eapply Forall_impl; [|exact Hscans]. intros r. apply scan_result_shape. }
  rewrite Hfold.
  rewrite (concat_succeeded ScanResult.assets), (concat_succeeded ScanResult.spam_assets).
  - split; [reflexivity|]. cbn [fst snd]. split.
    + apply Forall_concat. apply Forall_map.
      eapply Forall_impl; [|exact Hshape]. intros r (Ha & _). exact Ha.
    + apply Forall_concat. apply Forall_map.
      eapply Forall_impl; [|exact Hshape]. intros r (_ & Hs & _). exact Hs.
  - eapply Forall_impl; [|exact Hshape]. intros r (_ & _ & He) Hs. apply (He Hs).
  - eapply Forall_impl; [|exact Hshape]. intros r (_ & _ & He) Hs. apply (He Hs).
Qed.

Lemma combine_scan_results_of_scans_witness :
  exists good bad w1 w2,
    scan (EVMChainScanner (alchemy mixed_wallet 5) "ethereum") test_wallet world0
    = (Ret good, w1) /\
    scan (SolanaChainScanner (alchemy fails_at_first 5) "solana") test_solana_wallet world0
    = (Ret bad, w2) /\
    succeeded good = true /\ succeeded bad = false /\
    combine_scan_results [bad; good; bad]
    = (ScanResult.assets good, ScanResult.spam_assets good) /\
    Forall not_spam (fst (combine_scan_results [bad; good; bad])) /\
    Forall (fun a => Asset.is_spam a = true) (snd (combine_scan_results [bad; good; bad])).
Proof.
  destruct (scan (EVMChainScanner (alchemy mixed_wallet 5) "ethereum") test_wallet world0)
    as [[good | e | why] w1] eqn:run1; vm_compute in run1; try discriminate run1.
  destruct (scan (SolanaChainScanner (alchemy fails_at_first 5) "solana") test_solana_wallet
              world0)
    as [[bad | e | why] w2] eqn:run2; vm_compute in run2; try discriminate run2.
  assert (Hgood : from_a_scan good).
  { exists (EVMChainScanner (alchemy mixed_wallet 5) "ethereum"), test_wallet, world0, w1.
    injection run1 as <- <-. vm_compute. reflexivity. }
  assert (Hbad : from_a_scan bad).
  { exists (SolanaChainScanner (alchemy fails_at_first 5) "solana"), test_solana_wallet,
      world0, w2.
    injection run2 as <- <-. vm_compute. reflexivity. }
  destruct (combine_scan_results_of_scans [bad; good; bad]) as [_ T].
  destruct T as (Heq & Hmain & Hspam).
  { repeat constructor; assumption. }
  exists good, bad, w1, w2.
  split; [reflexivity|]. split; [reflexivity|].
  injection run1 as <- <-. injection run2 as <- <-.
  split; [reflexivity|]. split; [reflexivity|].
  split; [vm_compute; reflexivity|]. split; [exact Hmain | exact Hspam].
Defined.

(** ** The command line: network names *)

Lemma supported_In (network : string) :
  supported network = true -> In (lower network) SUPPORTED_NETWORKS.
Proof.
  unfold supported. intros H. apply existsb_exists in H.
  destruct H as (x & Hin & Heq). apply String.eqb_eq in Heq. rewrite Heq. exact Hin.
Qed.

Lemma lower_of_supported (network : string) :
  In network SUPPORTED_NETWORKS -> lower network = network /\ supported network = true.
Proof.
  unfold SUPPORTED_NETWORKS. cbn [In].
  intros [<- | [<- | [<- | [<- | [<- | []]]]]]; split; reflexivity.
Qed.

Lemma validate_loop_all (networks : list string) :
  forall validated,
    forallb supported networks = true ->
    validate_loop networks validated = Ret (validated ++ map lower networks)%list.
Proof.
  induction networks as [| network rest IH]; intros validated H.
  - cbn [validate_loop map]. rewrite app_nil_r. reflexivity.
  - cbn [forallb] in H. apply andb_true_iff in H. destruct H as [Hn Hrest].
    cbn [validate_loop]. unfold supported in Hn. rewrite Hn. cbn [negb].
    rewrite (IH _ Hrest), <- app_assoc. reflexivity.
Qed.

Lemma validate_loop_first (before : list string) :
  forall network rest validated,
    forallb supported before = true ->
    supported network = false ->
    validate_loop (before ++ network :: rest) validated
    = Raise (ValueError ("Unsupported network: " ++ network
                         ++ ". Supported: ethereum, polygon, base, bnb, solana")).
Proof.
  induction before as [| b before IH]; intros network rest validated Hb Hn.
  - cbn [app validate_loop]. unfold supported in Hn. rewrite Hn. reflexivity.
  - cbn [forallb] in Hb. apply andb_true_iff in Hb. destruct Hb as [Hb Hrest].
    cbn [app validate_loop]. unfold supported in Hb. rewrite Hb. cbn [negb].
    apply IH; assumption.
Qed.

Lemma first_unsupported (networks : list string) :
  forallb supported networks = false ->
  exists before network rest,
    networks = (before ++ network :: rest)%list /\
    forallb supported before = true /\ supported network = false.
Proof.
  induction networks as [| n rest IH]; [discriminate|].
  cbn [forallb]. destruct (supported n) eqn:Hn; cbn [andb]; intros H.
  - destruct (IH H) as (before & network & rest' & -> & Hb & Hu).
    exists (n :: before), network, rest'. cbn [forallb app]. rewrite Hn.
    repeat split; assumption.
  - exists [], n, rest. repeat split. exact Hn.
Qed.

(** What [validate_networks] returns when it returns. *)
Lemma validate_networks_shape (networks validated : list string) :
  validate_networks networks = Ret validated ->
  forallb supported networks = true /\
  validated = map lower networks /\
  Forall (fun network => In network SUPPORTED_NETWORKS) validated.
Proof.
  unfold validate_networks. intros H.
  destruct (forallb supported networks) eqn:Hall.
  - rewrite (validate_loop_all networks [] Hall) in H. cbn [app] in H.
    injection H as <-. split; [reflexivity|]. split; [reflexivity|].
    apply Forall_map. apply Forall_forall. intros n Hn.
    apply supported_In. rewrite forallb_forall in Hall. exact (Hall n Hn).
  - destruct (first_unsupported networks Hall) as (before & network & rest & -> & Hb & Hn).
    rewrite (validate_loop_first before network rest [] Hb Hn) in H. discriminate H.
Qed.

(** X10.  [validate_networks] returns the names in lower case, in the order
    given and with their repetitions, when every name is supported once in
    lower case; otherwise it raises a [ValueError] that quotes the first
    unsupported name as it was typed.  What it returns holds supported
    names only, and validating it again changes nothing. *)
Theorem validate_networks_lowercases_or_rejects (networks : list string) :
  (forallb supported networks = true ->
   validate_networks networks = Ret (map lower networks)) /\
  (forall before network rest,
      networks = (before ++ network :: rest)%list ->
      forallb supported before = true ->
      supported network = false ->
      validate_networks networks
      = Raise (ValueError ("Unsupported network: " ++ network
                           ++ ". Supported: ethereum, polygon, base, bnb, solana"))) /\
  (forall validated,
      validate_networks networks = Ret validated ->
      validated = map lower networks /\
      Forall (fun network => In network SUPPORTED_NETWORKS) validated /\
      validate_networks validated = Ret validated).
Proof.
  unfold validate_networks. split; [|split].
  - intros H. rewrite (validate_loop_all networks [] H). reflexivity.
  - intros before network rest -> Hb Hn. apply validate_loop_first; assumption.
  - intros validated H.
    destruct (validate_networks_shape networks validated H) as (Hall & -> & Hin).
    split; [reflexivity|]. split; [exact Hin|].
    rewrite (validate_loop_all (map lower networks) []).
    + cbn [app]. f_equal. rewrite map_map. apply map_ext_in.
      intros n Hn. apply lower_of_supported. apply supported_In.
      rewrite forallb_forall in Hall. exact (Hall n Hn).
    + apply forallb_forall. intros n Hn. rewrite Forall_forall in Hin.
      apply lower_of_supported. exact (Hin n Hn).
Qed.

Lemma validate_networks_lowercases_or_rejects_witness :
  validate_networks ["Ethereum"; "SOLANA"; "ethereum"] = Ret ["ethereum"; "solana"; "ethereum"] /\
  validate_networks ["Base"; "Bitcoin"; "Dogecoin"]
  = Raise (ValueError
             "Unsupported network: Bitcoin. Supported: ethereum, polygon, base, bnb, solana") /\
  validate_networks ["ethereum"; "solana"; "ethereum"] = Ret ["ethereum"; "solana"; "ethereum"].
Proof.
  destruct (validate_networks_lowercases_or_rejects ["Ethereum"; "SOLANA"; "ethereum"])
    as (Hall & _ & Hagain).
  destruct (validate_networks_lowercases_or_rejects ["Base"; "Bitcoin"; "Dogecoin"])
    as (_ & Hfirst & _).
  split; [exact (Hall eq_refl)|]. split.
  - exact (Hfirst ["Base"] "Bitcoin" ["Dogecoin"] eq_refl eq_refl eq_refl).
  - destruct (Hagain _ (Hall eq_refl)) as (_ & _ & H). exact H.
Defined.

(** X11.  Every name [validate_networks] lets through can be served by the
    rest of the program: [create_scanner] builds a scanner for it (the
    Solana scanner for ["solana"], the EVM scanner for the others), the
    client has an RPC and an NFT endpoint for it, and [NATIVE_TOKENS] has
    its native token, so that neither ["Unsupported network"] nor
    ["Unsupported chain"] nor a missing table entry can follow a successful
    validation. *)
Theorem validated_networks_are_served
    (networks validated : list string) (self : AlchemyClient) (client : Client) :
  validate_networks networks = Ret validated ->
  Forall (fun network =>
            create_scanner client network
            = Ret (if String.eqb network "solana" then SolanaChainScanner client network
                   else EVMChainScanner client network) /\
            (exists endpoint,
                _get_base_url self network
                = Ret ("https://" ++ endpoint ++ "/v2/" ++ api_key self) /\
                _get_nft_api_url self network
                = Ret ("https://" ++ endpoint ++ "/nft/v3/" ++ api_key self)) /\
            (exists info,
                lookup network NATIVE_TOKENS = Some info /\
                get_native_token_info network = Ret info))
         validated.
Proof.
  intros H.
  destruct (validate_networks_shape networks validated H) as (_ & _ & Hin).
  eapply Forall_impl; [|exact Hin].
  unfold SUPPORTED_NETWORKS. cbn [In].
  intros network [<- | [<- | [<- | [<- | [<- | []]]]]];
    (split; [reflexivity|]; split; eexists; split; reflexivity).
Qed.

Lemma validated_networks_are_served_witness :
  create_scanner (alchemy two_pages 5) "polygon"
  = Ret (EVMChainScanner (alchemy two_pages 5) "polygon") /\
  create_scanner (alchemy two_pages 5) "solana"
  = Ret (SolanaChainScanner (alchemy two_pages 5) "solana").
Proof.
  pose proof (validated_networks_are_served ["Polygon"; "Solana"] ["polygon"; "solana"]
                two_pages (alchemy two_pages 5) eq_refl) as T.
  inversion T as [| n1 l1 (H1 & _) T1]. inversion T1 as [| n2 l2 (H2 & _) T2].
  split; [exact H1 | exact H2].
Defined.

(** ** The command line: scanning one network *)

Lemma append_assoc (a b c : string) : ((a ++ b) ++ c)%string = (a ++ b ++ c)%string.
Proof. induction a as [| x a IH]; [reflexivity|]. cbn [append]. rewrite IH. reflexivity. Qed.

Lemma prefix_append (p s : string) : prefix p (p ++ s) = true.
Proof.
  induction p as [| x p IH]; [destruct s; reflexivity|].
  cbn [append prefix]. destruct (ascii_dec x x) as [_ | N]; [exact IH | contradiction].
Qed.

Lemma log_eq (network message : string) (w : World) :
  log network message w
  = (Ret tt, mkWorld (sent w) (slept w) ((log_tag network ++ message) :: stderr w)).
Proof.
  unfold log, print_stderr, log_tag.
  change ("[" ++ network ++ "] " ++ message)%string
    with ("[" ++ (network ++ "] " ++ message))%string.
  rewrite <- (append_assoc network "] " message), <- (append_assoc "[" (network ++ "] ") message).
  reflexivity.
Qed.

Section Logging.

Variable network : string.

Lemma logs_ret {A} (a : A) : logs network a (ret a).
Proof. intros w. exists []. split; [destruct w; reflexivity | constructor]. Qed.

Lemma logs_log (message : string) : logs network tt (log network message).
Proof.
  intros w. exists [(log_tag network ++ message)%string]. split.
  - apply log_eq.
  - constructor; [apply prefix_append | constructor].
Qed.

Lemma logs_bind {A B} (a : A) (b : B) (m : M A) (k : A -> M B) :
  logs network a m -> logs network b (k a) -> logs network b (bind m k).
Proof.
  intros Hm Hk w. destruct (Hm w) as (l1 & H1 & F1).
  destruct (Hk (mkWorld (sent w) (slept w) (l1 ++ stderr w)%list)) as (l2 & H2 & F2).
  exists (l2 ++ l1)%list. split.
  - rewrite (bind_Ret _ _ _ _ _ H1), H2. cbn [sent slept stderr].
    rewrite app_assoc. reflexivity.
  - apply Forall_app. split; assumption.
Qed.

End Logging.

(** X12.  [scan_network] announces the scan on [stderr], runs the scanner
    that [create_scanner] builds and hands back exactly what the scanner
    returned or raised.  It sends no request and pauses no more than the scan
    itself; all it adds are lines on [stderr], each tagged with the network.
    A result with a non-empty error message is reported on one line,
    ["ERROR: <message>. Skipping network."], and on nothing else.  When
    [create_scanner] refuses the network its [ValueError] comes out after
    the announcement. *)
Theorem scan_network_reports_the_scan (client : Client) (network wallet : string) (w : World) :
  (forall e,
      create_scanner client network = Raise e ->
      scan_network client network wallet w = (Raise e, announced network w)) /\
  (forall scanner,
      create_scanner client network = Ret scanner ->
      (forall e w1,
          scan scanner wallet (announced network w) = (Raise e, w1) ->
          scan_network client network wallet w = (Raise e, w1)) /\
      (forall r w1,
          scan scanner wallet (announced network w) = (Ret r, w1) ->
          exists lines,
            scan_network client network wallet w
            = (Ret r, mkWorld (sent w1) (slept w1) (lines ++ stderr w1)%list) /\
            Forall (fun line => prefix (log_tag network) line = true) lines /\
            (forall message,
                ScanResult.error r = Some message -> message <> ""%string ->
                lines = [(log_tag network ++ "ERROR: " ++ message
                          ++ ". Skipping network.")%string]))).
Proof.
  assert (Hstart : log network "Starting wallet scan..." w = (Ret tt, announced network w)).
  { apply log_eq. }
  split.
  - intros e He. unfold scan_network.
    rewrite (bind_Ret _ _ _ _ _ Hstart), bind_lift, He. reflexivity.
  - intros scanner Hs. split.
    + intros e w1 Hscan. unfold scan_network.
      rewrite (bind_Ret _ _ _ _ _ Hstart), bind_lift, Hs.
      rewrite (bind_Raise _ _ _ _ _ Hscan). reflexivity.
    + intros r w1 Hscan. unfold scan_network.
      rewrite (bind_Ret _ _ _ _ _ Hstart), bind_lift, Hs.
      rewrite (bind_Ret _ _ _ _ _ Hscan).
      cbv beta.
      match goal with
      | |- exists lines, ?report w1 = _ /\ _ => assert (Hlogs : logs network r report)
      end.
      { destruct (truthy_str (ScanResult.error r)).
        - apply (logs_bind network tt); [apply logs_log | apply logs_ret].
        - apply (logs_bind network tt).
          { destruct (0 <? ScanResult.native_count r); [apply logs_log | apply logs_ret]. }
          apply (logs_bind network tt); [|apply logs_ret].
          destruct (String.eqb network "solana").
          + apply (logs_bind network tt); [apply logs_log|].
            apply (logs_bind network tt); [apply logs_log|]. apply logs_log.
          + apply (logs_bind network tt); [apply logs_log|].
            apply (logs_bind network tt).
            { destruct ((0 <? ScanResult.nft_count r) || (0 <? ScanResult.erc721_count r)
                        || (0 <? ScanResult.erc1155_count r));
                [apply logs_log | apply logs_ret]. }
            destruct (0 <? ScanResult.spam_count r); [apply logs_log | apply logs_ret]. }
      destruct (Hlogs w1) as (lines & Hrun & Htagged).
      exists lines. split; [exact Hrun|]. split; [exact Htagged|].
      intros message Herr Hne. rewrite Herr in Hrun. cbn [truthy_str or_str] in Hrun.
      apply String.eqb_neq in Hne. rewrite Hne in Hrun. cbn [negb] in Hrun.
      rewrite (bind_Ret _ _ _ _ _ (log_eq network _ w1)) in Hrun.
      unfold ret in Hrun. injection Hrun as Hlines.
      apply (app_inv_tail (stderr w1)). rewrite <- Hlines. reflexivity.
Qed.

Lemma scan_network_reports_the_scan_witness :
  scan_network (alchemy fails_at_first 5) "ethereum" test_wallet world0
  = (Ret (ScanResult.failed "ethereum" "API error: Invalid request"),
     mkWorld [rpc_request "https://eth-mainnet.g.alchemy.com/v2/test-api-key-12345"
                "eth_getBalance" (JArr [JStr test_wallet; JStr "latest"])]
             0
             ["[ethereum] ERROR: API error: Invalid request. Skipping network.";
              "[ethereum] Starting wallet scan..."]) /\
  scan_network (alchemy fails_at_first 5) "bitcoin" test_wallet world0
  = (Raise (ValueError "Unsupported chain: bitcoin"), announced "bitcoin" world0).
Proof.
  destruct (scan_network_reports_the_scan (alchemy fails_at_first 5) "ethereum" test_wallet
              world0) as [_ T].
  destruct (T (EVMChainScanner (alchemy fails_at_first 5) "ethereum") eq_refl) as [_ T'].
  destruct (scan (EVMChainScanner (alchemy fails_at_first 5) "ethereum") test_wallet
              (announced "ethereum" world0)) as [[r | e | why] w1] eqn:run;
    vm_compute in run; try discriminate run.
  destruct (T' r w1 eq_refl) as (lines & Hrun & _ & Herr).
  injection run as <- <-.
  rewrite (Herr "API error: Invalid request"%string eq_refl ltac:(discriminate)) in Hrun.
  split; [exact Hrun|].
  destruct (scan_network_reports_the_scan (alchemy fails_at_first 5) "bitcoin" test_wallet
              world0) as [U _].
  exact (U _ eq_refl).
Defined.

(** ** Credential redaction, in general *)

Section Redaction.

Variable old : string.

Local Abbreviation redact := (Py.replace_from old "[REDACTED]").

Lemma prefix_nil (s : string) : prefix "" s = true.
Proof. destruct s; reflexivity. Qed.

Lemma prefix_cons (a b : ascii) (x s : string) :
  prefix (String a x) (String b s) = Ascii.eqb a b && prefix x s.
Proof.
  cbn [prefix]. destruct (ascii_dec a b) as [-> | N].
  - rewrite Ascii.eqb_refl. reflexivity.
  - apply Ascii.eqb_neq in N. rewrite N. reflexivity.
Qed.

Lemma contains_eq (x s : string) :
  Py.contains x s
  = prefix x s || match s with
                  | "" => false
                  | String _ t => Py.contains x t
                  end.
Proof. destruct s; reflexivity. Qed.

Lemma prefix_head_absent (a : ascii) (x rest : string) :
  x <> ""%string -> Py.contains_char a x = false -> prefix x (String a rest) = false.
Proof.
  destruct x as [| b x]; [contradiction|]. intros _ H.
  rewrite prefix_cons. cbn [Py.contains_char] in H.
  apply orb_false_iff in H. destruct H as [Hb _]. rewrite Hb. reflexivity.
Qed.

Lemma contains_nil (x : string) : x <> ""%string -> Py.contains x "" = false.
Proof. destruct x; [contradiction | reflexivity]. Qed.

(** A message without the text is left as it is. *)
Lemma replace_from_absent (s : string) :
  Py.contains old s = false -> redact 0 s = s.
Proof.
  induction s as [| c t IH]; [reflexivity|].
  rewrite contains_eq. intros H. apply orb_false_iff in H. destruct H as [Hp Ht].
  cbn [Py.replace_from]. rewrite Hp, (IH Ht). reflexivity.
Qed.

(** A text that does not hold [stop] and starts a string in which [stop]
    follows [u] starts [u]. *)
Lemma prefix_before (stop : ascii) (u : string) :
  forall x rest,
    Py.contains_char stop x = false ->
    prefix x (u ++ String stop rest) = true ->
    prefix x u = true.
Proof.
  induction u as [| a u IH]; intros x rest Hx H.
  - destruct x as [| b x]; [reflexivity|].
    cbn [append] in H. rewrite prefix_cons in H.
    cbn [Py.contains_char] in Hx. apply orb_false_iff in Hx. destruct Hx as [Hb _].
    rewrite Hb in H. discriminate H.
  - destruct x as [| b x]; [reflexivity|].
    cbn [append] in H. rewrite prefix_cons in H |- *.
    apply andb_true_iff in H. destruct H as [Hab H].
    cbn [Py.contains_char] in Hx. apply orb_false_iff in Hx. destruct Hx as [_ Hx].
    rewrite Hab. exact (IH x rest Hx H).
Qed.

Lemma contains_before (stop : ascii) (u : string) :
  forall rest,
    old <> ""%string ->
    Py.contains_char stop old = false ->
    Py.contains old u = false ->
    Py.contains old rest = false ->
    Py.contains old (u ++ String stop rest) = false.
Proof.
  intros rest Hne Hstop. revert rest.
  assert (Hhead : forall rest, prefix old (String stop rest) = false).
  { intros rest. apply prefix_head_absent; assumption. }
  induction u as [| a u IH]; intros rest Hu Hrest.
  - cbn [append]. rewrite contains_eq, Hhead, Hrest. reflexivity.
  - rewrite contains_eq in Hu. apply orb_false_iff in Hu. destruct Hu as [Hp Hu].
    cbn [append]. rewrite contains_eq, (IH rest Hu Hrest), orb_false_r.
    destruct (prefix old (String a (u ++ String stop rest))) eqn:E; [|reflexivity].
    change (String a (u ++ String stop rest)) with (String a u ++ String stop rest)%string in E.
    rewrite (prefix_before stop (String a u) old rest Hstop E) in Hp. discriminate Hp.
Qed.

(** A text without an opening bracket that starts the redacted message
    starts the message. *)
Lemma prefix_of_redacted (s : string) :
  forall x,
    Py.contains_char "[" x = false ->
    prefix x (redact 0 s) = true ->
    prefix x s = true.
Proof.
  induction s as [| c t IH]; intros x Hx H; [exact H|].
  destruct x as [| b x]; [reflexivity|].
  cbn [Py.contains_char] in Hx. apply orb_false_iff in Hx. destruct Hx as [Hb Hx].
  cbn [Py.replace_from] in H. destruct (prefix old (String c t)).
  - cbn [append] in H. rewrite prefix_cons, Hb in H. discriminate H.
  - rewrite prefix_cons in H |- *. apply andb_true_iff in H. destruct H as [Hbc H].
    rewrite Hbc. exact (IH x Hx H).
Qed.

Lemma prefix_of_redacted_cons (c : ascii) (t x : string) :
  Py.contains_char "[" x = false ->
  prefix x (String c (redact 0 t)) = true ->
  prefix x (String c t) = true.
Proof.
  destruct x as [| b x]; [reflexivity|]. intros Hx H.
  cbn [Py.contains_char] in Hx. apply orb_false_iff in Hx. destruct Hx as [_ Hx].
  rewrite prefix_cons in H |- *. apply andb_true_iff in H. destruct H as [Hbc H].
  rewrite Hbc. exact (prefix_of_redacted t x Hx H).
Qed.

Hypothesis old_not_empty : old <> ""%string.
Hypothesis no_opening_bracket : Py.contains_char "[" old = false.
Hypothesis no_closing_bracket : Py.contains_char "]" old = false.
Hypothesis not_in_the_mark : Py.contains old "REDACTED" = false.

Lemma replace_from_removes (s : string) :
  forall skip, Py.contains old (redact skip s) = false.
Proof.
  induction s as [| c t IH]; intros skip.
  - cbn [Py.replace_from]. apply contains_nil. exact old_not_empty.
  - cbn [Py.replace_from]. destruct skip as [| k]; [|apply IH].
    destruct (prefix old (String c t)) eqn:Hp.
    + change ("[REDACTED]" ++ redact (String.length old - 1) t)%string
        with (String "[" ("REDACTED" ++ String "]" (redact (String.length old - 1) t))).
      rewrite contains_eq.
      rewrite (contains_before "]" "REDACTED" _ old_not_empty no_closing_bracket
                 not_in_the_mark (IH _)), orb_false_r.
      apply prefix_head_absent; assumption.
    + rewrite contains_eq, (IH 0%nat), orb_false_r.
      destruct (prefix old (String c (redact 0 t))) eqn:E; [|reflexivity].
      rewrite (prefix_of_redacted_cons c t old no_opening_bracket E) in Hp. discriminate Hp.
Qed.

End Redaction.

(** X13.  [_sanitize_error_message] leaves a message that does not hold the
    API key as it is.  For a key that is not empty, holds no square bracket
    and is not a part of the word [REDACTED], the sanitized message never
    holds the key, whatever the message, overlapping occurrences
    included. *)
Theorem sanitized_message_hides_the_key (self : AlchemyClient) (message : string) :
  (Py.contains (api_key self) message = false ->
   _sanitize_error_message self message = message) /\
  (api_key self <> ""%string ->
   Py.contains_char "[" (api_key self) = false ->
   Py.contains_char "]" (api_key self) = false ->
   Py.contains (api_key self) "REDACTED" = false ->
   Py.contains (api_key self) (_sanitize_error_message self message) = false).
Proof.
  unfold _sanitize_error_message, Py.replace. split.
  - intros H. destruct (api_key self) as [| c key] eqn:K.
    + rewrite contains_eq, prefix_nil in H. discriminate H.
    + apply replace_from_absent. exact H.
  - intros Hne Ho Hc Hm. destruct (api_key self) as [| c key] eqn:K; [contradiction|].
    apply replace_from_removes; assumption.
Qed.

Lemma sanitized_message_hides_the_key_witness :
  _sanitize_error_message two_pages "503 Server Error for url: https://host/v2/other-key"
  = "503 Server Error for url: https://host/v2/other-key"%string /\
  Py.contains (api_key two_pages)
    (_sanitize_error_message two_pages
       "for url: https://host/v2/test-api-key-12345test-api-key-12345/x") = false.
Proof.
  split.
  - apply (sanitized_message_hides_the_key two_pages). reflexivity.
  - apply (sanitized_message_hides_the_key two_pages);
      [discriminate | reflexivity | reflexivity | reflexivity].
Defined.

(** ** The CSV output can be read back *)

Lemma append_nil_r (s : string) : (s ++ "")%string = s.
Proof. induction s as [| c s IH]; [reflexivity|]. cbn [append]. rewrite IH. reflexivity. Qed.

Lemma append_inv_head (p s1 s2 : string) : (p ++ s1)%string = (p ++ s2)%string -> s1 = s2.
Proof.
  induction p as [| c p IH]; [trivial|]. cbn [append]. intros [= H]. exact (IH H).
Qed.

Lemma special_false (c : ascii) :
  Csv.special c = false ->
  Ascii.eqb c "," = false /\ Ascii.eqb c dquote = false /\
  Ascii.eqb c Csv.cr = false /\ Ascii.eqb c Csv.lf = false.
Proof.
  unfold Csv.special. intros H.
  apply orb_false_iff in H. destruct H as [H Hlf].
  apply orb_false_iff in H. destruct H as [H Hcr].
  apply orb_false_iff in H. destruct H as [Hcomma Hq].
  repeat split; assumption.
Qed.

Section Reading.

(** A plain field is read up to what follows it. *)
Lemma read_plain (field : string) :
  forall fields current text,
    Csv.needs_quotes field = false ->
    read_record InPlain fields current (field ++ text)
    = match text with
      | "" => None
      | _ => read_record InPlain fields (current ++ field) text
      end.
Proof.
  induction field as [| c field IH]; intros fields current text H.
  - cbn [append]. rewrite append_nil_r. destruct text; reflexivity.
  - cbn [Csv.needs_quotes] in H. apply orb_false_iff in H. destruct H as [Hc H].
    apply special_false in Hc. destruct Hc as (Hcomma & _ & Hcr & _).
    cbn [append read_record]. rewrite Hcomma, Hcr, (IH _ _ _ H), append_assoc.
    reflexivity.
Qed.

(** A quoted field is read up to its closing quote. *)
Lemma read_quoted (field : string) :
  forall fields current text,
    read_record InQuoted fields current (Csv.double_quotes field ++ String dquote text)
    = read_record AfterQuote fields (current ++ field) text.
Proof.
  induction field as [| c field IH]; intros fields current text.
  - cbn [Csv.double_quotes append read_record]. rewrite append_nil_r.
    rewrite Ascii.eqb_refl. reflexivity.
  - cbn [Csv.double_quotes]. destruct (Ascii.eqb c dquote) eqn:Hq.
    + apply Ascii.eqb_eq in Hq. subst c.
      cbn [append read_record]. rewrite Ascii.eqb_refl.
      rewrite IH, append_assoc. reflexivity.
    + cbn [append read_record]. rewrite Hq, IH, append_assoc. reflexivity.
Qed.

(** A field followed by a comma. *)
Lemma read_field_then_comma (field : string) (fields : list string) (text : string) :
  read_record AtField fields "" (Csv.write_field field ++ String "," text)
  = read_record AtField (fields ++ [field])%list "" text.
Proof.
  unfold Csv.write_field. destruct (Csv.needs_quotes field) eqn:Hn.
  - cbn [append read_record]. rewrite Ascii.eqb_refl.
    rewrite append_assoc. cbn [append]. rewrite read_quoted. cbn [append read_record].
    reflexivity.
  - destruct field as [| c field]; [reflexivity|].
    cbn [Csv.needs_quotes] in Hn. apply orb_false_iff in Hn. destruct Hn as [Hc Hn].
    apply special_false in Hc. destruct Hc as (Hcomma & Hq & Hcr & _).
    cbn [append read_record]. rewrite Hq, Hcomma, Hcr, (read_plain field _ _ _ Hn).
    cbn [append read_record]. reflexivity.
Qed.

(** A field followed by the end of the record. *)
Lemma read_field_then_end (field : string) (fields : list string) (text : string) :
  fields <> [] \/ field <> ""%string ->
  read_record AtField fields "" (Csv.write_field field ++ Csv.lineterminator ++ text)
  = Some ((fields ++ [field])%list, text).
Proof.
  intros Hne. unfold Csv.write_field, Csv.lineterminator.
  destruct (Csv.needs_quotes field) eqn:Hn.
  - cbn [append read_record]. rewrite Ascii.eqb_refl.
    rewrite append_assoc. cbn [append]. rewrite read_quoted. cbn [append read_record].
    reflexivity.
  - destruct field as [| c field].
    + cbn [append read_record]. destruct fields as [| f fields]; [|reflexivity].
      destruct Hne as [Hne | Hne]; contradiction.
    + cbn [Csv.needs_quotes] in Hn. apply orb_false_iff in Hn. destruct Hn as [Hc Hn].
      apply special_false in Hc. destruct Hc as (Hcomma & Hq & Hcr & _).
      cbn [append read_record]. rewrite Hq, Hcomma, Hcr, (read_plain field _ _ _ Hn).
      cbn [append read_record]. reflexivity.
Qed.

Lemma read_fields (row : list string) :
  forall fields text,
    row <> [] ->
    fields <> [] \/ row <> [""%string] ->
    read_record AtField fields "" (Csv.join_fields row ++ Csv.lineterminator ++ text)
    = Some ((fields ++ row)%list, text).
Proof.
  induction row as [| field row IH]; intros fields text Hrow Hne; [contradiction|].
  destruct row as [| next row].
  - cbn [Csv.join_fields]. apply read_field_then_end.
    destruct Hne as [Hne | Hne]; [left; exact Hne|].
    right. intros ->. apply Hne. reflexivity.
  - change (Csv.join_fields (field :: next :: row))
      with (Csv.write_field field ++ String "," (Csv.join_fields (next :: row)))%string.
    rewrite append_assoc. cbn [append]. rewrite read_field_then_comma.
    rewrite IH.
    + rewrite <- app_assoc. reflexivity.
    + discriminate.
    + left. destruct fields; discriminate.
Qed.

(** The reader gives back the row that was written. *)
Lemma read_writerow (row : list string) (text : string) :
  read_record AtField [] "" (Csv.writerow row ++ text) = Some (row, text).
Proof.
  destruct row as [| field row]; [reflexivity|].
  destruct field as [| c field].
  - destruct row as [| next row]; [reflexivity|].
    unfold Csv.writerow. rewrite append_assoc.
    apply (read_fields ("" :: next :: row)%string [] text); [discriminate|].
    right. discriminate.
  - unfold Csv.writerow. rewrite append_assoc.
    apply (read_fields (String c field :: row) [] text); [discriminate|].
    right. discriminate.
Qed.

Lemma writerow_inj (row1 row2 : list string) (text1 text2 : string) :
  (Csv.writerow row1 ++ text1)%string = (Csv.writerow row2 ++ text2)%string ->
  row1 = row2 /\ text1 = text2.
Proof.
  intros H. pose proof (read_writerow row1 text1) as H1.
  rewrite H, read_writerow in H1. injection H1 as <- <-. split; reflexivity.
Qed.

Lemma written_rows_cons (row : list string) (rows : list (list string)) :
  written_rows (row :: rows) = (Csv.writerow row ++ written_rows rows)%string.
Proof.
  unfold written_rows. cbn [map String.concat].
  destruct (map Csv.writerow rows) as [| line lines] eqn:E.
  - cbn [String.concat]. rewrite append_nil_r. reflexivity.
  - reflexivity.
Qed.

Lemma written_rows_inj (rows1 : list (list string)) :
  forall rows2, written_rows rows1 = written_rows rows2 -> rows1 = rows2.
Proof.
  induction rows1 as [| row1 rows1 IH]; intros [| row2 rows2] H.
  - reflexivity.
  - rewrite written_rows_cons in H.
    pose proof (read_writerow row2 (written_rows rows2)) as R. rewrite <- H in R.
    discriminate R.
  - rewrite written_rows_cons in H.
    pose proof (read_writerow row1 (written_rows rows1)) as R. rewrite H in R.
    discriminate R.
  - rewrite !written_rows_cons in H. apply writerow_inj in H. destruct H as [-> H].
    rewrite (IH _ H). reflexivity.
Qed.

Lemma write_csv_to_stream_layout (assets : list Asset.t) :
  forall stream header,
    fold_left (fun written asset => (written ++ Csv.writerow (to_csv_row asset))%string)
              assets (stream ++ header)%string
    = (stream ++ header ++ written_rows (map to_csv_row assets))%string.
Proof.
  induction assets as [| asset assets IH]; intros stream header.
  - cbn [fold_left map]. unfold written_rows. cbn [map String.concat].
    rewrite append_nil_r. reflexivity.
  - cbn [fold_left map]. rewrite append_assoc, IH, written_rows_cons, append_assoc.
    reflexivity.
Qed.

End Reading.

(** X14.  [write_csv_to_stream] appends to the stream the header line and
    one line per asset, in order, each ended by CR LF.  The text it writes
    determines the rows: two lists of assets that give the same output
    have the same rows, field by field, whatever commas, quotes or line
    breaks the fields hold. *)
Theorem written_csv_determines_the_rows (assets1 assets2 : list Asset.t) (stream : string) :
  write_csv_to_stream assets1 stream
  = (stream ++ Csv.writerow CSV_COLUMNS ++ written_rows (map to_csv_row assets1))%string /\
  (write_csv_to_stream assets1 stream = write_csv_to_stream assets2 stream ->
   map to_csv_row assets1 = map to_csv_row assets2).
Proof.
  unfold write_csv_to_stream. rewrite !write_csv_to_stream_layout.
  split; [reflexivity|]. intros H.
  apply append_inv_head in H. apply append_inv_head in H.
  apply written_rows_inj. exact H.
Qed.

Lemma written_csv_determines_the_rows_witness :
  map to_csv_row awkward_assets = map to_csv_row awkward_assets_again.
Proof.
  apply (written_csv_determines_the_rows awkward_assets awkward_assets_again "").
  vm_compute. reflexivity.
Defined.

(** ** What the client leaves alone *)

Lemma silent_ret {A} (a : A) : silent (ret a).
Proof. intros w. split; [reflexivity | exists []; reflexivity]. Qed.

Lemma silent_raise {A} (e : exn) : silent (@raise A e).
Proof. intros w. split; [reflexivity | exists []; reflexivity]. Qed.

Lemma silent_lift {A} (o : outcome A) : silent (lift o).
Proof. intros w. split; [reflexivity | exists []; reflexivity]. Qed.

Lemma silent_sleep : silent sleep.
Proof. intros w. split; [reflexivity | exists []; reflexivity]. Qed.

Lemma silent_bind {A B} (m : M A) (k : A -> M B) :
  silent m -> (forall a, silent (k a)) -> silent (bind m k).
Proof.
  intros Hm Hk w. unfold bind. destruct (Hm w) as (Hs & reqs & Hr).
  destruct (m w) as [[a | e | why] w1]; cbn [snd] in *.
  - destruct (Hk a w1) as (Hs' & reqs' & Hr'). split.
    + rewrite Hs'. exact Hs.
    + exists (reqs' ++ reqs)%list. rewrite Hr', Hr, app_assoc. reflexivity.
  - split; [exact Hs | exists reqs; exact Hr].
  - split; [exact Hs | exists reqs; exact Hr].
Qed.

Lemma silent_try {A} (m : M A) (catches : exn -> bool) (handler : exn -> M A) :
  silent m -> (forall e, silent (handler e)) -> silent (try_except m catches handler).
Proof.
  intros Hm Hh w. unfold try_except. destruct (Hm w) as (Hs & reqs & Hr).
  destruct (m w) as [[a | e | why] w1]; cbn [snd] in *.
  - split; [exact Hs | exists reqs; exact Hr].
  - destruct (catches e).
    + destruct (Hh e w1) as (Hs' & reqs' & Hr'). split.
      * rewrite Hs'. exact Hs.
      * exists (reqs' ++ reqs)%list. rewrite Hr', Hr, app_assoc. reflexivity.
    + split; [exact Hs | exists reqs; exact Hr].
  - split; [exact Hs | exists reqs; exact Hr].
Qed.

Lemma silent_for_each {A S} (step : S -> A -> M S) (xs : list A) :
  (forall acc x, silent (step acc x)) -> forall acc, silent (for_each step xs acc).
Proof.
  intros Hstep. induction xs as [| x rest IH]; intros acc.
  - apply silent_ret.
  - cbn [for_each]. apply silent_bind; [apply Hstep | exact IH].
Qed.

Section Silence.

Variable self : AlchemyClient.

Lemma silent_send (rq : Request) : silent (session_send self rq).
Proof.
  intros w. unfold session_send.
  destruct (session self (List.length (sent w)) rq);
    (split; [reflexivity | exists [rq]; reflexivity]).
Qed.

Ltac silent_step :=
  first
    [ apply silent_ret | apply silent_raise | apply silent_lift | apply silent_sleep
    | apply silent_send
    | assumption
    | apply silent_bind; [| intros ?]
    | apply silent_try; [| intros ?]
    | match goal with |- silent (if ?b then _ else _) => destruct b end
    | match goal with |- silent (match ?x with _ => _ end) => destruct x end ].

Lemma silent_attempt_once (request_func : M Response) (attempt : Z) :
  silent request_func -> silent (attempt_once self request_func attempt).
Proof.
  intros H. unfold attempt_once, raise_for_status, backoff. repeat silent_step.
Qed.

Lemma silent_execute (request_func : M Response) :
  silent request_func -> silent (_execute_with_retry self request_func).
Proof.
  intros H. unfold _execute_with_retry.
  induction (range (max_retries self + 1)) as [| attempt rest IH].
  - apply silent_raise.
  - cbn [retry_loop]. apply silent_bind; [apply silent_attempt_once; exact H|].
    intros [response |]; [apply silent_ret | exact IH].
Qed.

Lemma silent_request (network method : string) (params : json) :
  silent (_request self network method params).
Proof.
  unfold _request, session_post, response_json.
  apply silent_bind; [apply silent_lift | intros base].
  apply silent_bind; [apply silent_execute; apply silent_send | intros response].
  repeat silent_step.
Qed.

Lemma silent_request_nft_api (network endpoint : string) (params : list (string * json)) :
  silent (_request_nft_api self network endpoint params).
Proof.
  unfold _request_nft_api, session_get, response_json.
  apply silent_bind; [apply silent_lift | intros base].
  apply silent_bind; [apply silent_execute; apply silent_send | intros response].
  repeat silent_step.
Qed.

Lemma silent_token_balances_loop (n : nat) (network wallet : string) :
  forall page_key all_balances,
    silent (token_balances_loop self n network wallet page_key all_balances).
Proof.
  induction n as [| n IH]; intros page_key all_balances; cbn [token_balances_loop].
  - apply silent_lift.
  - apply silent_bind; [apply silent_request | intros result].
    repeat (apply silent_bind; [apply silent_lift | intros ?]).
    destruct (negb (truthy _)); [apply silent_ret | apply IH].
Qed.

Lemma silent_nfts_loop (n : nat) (network wallet : string) :
  forall page_key all_nfts, silent (nfts_loop self n network wallet page_key all_nfts).
Proof.
  induction n as [| n IH]; intros page_key all_nfts; cbn [nfts_loop].
  - apply silent_lift.
  - apply silent_bind; [apply silent_request_nft_api | intros result].
    repeat (apply silent_bind; [apply silent_lift | intros ?]).
    destruct (negb (truthy _)); [apply silent_ret | apply IH].
Qed.

Lemma silent_solana_assets_loop (n : nat) (wallet : string) :
  forall page all_assets, silent (solana_assets_loop self n wallet page all_assets).
Proof.
  induction n as [| n IH]; intros page all_assets; cbn [solana_assets_loop].
  - apply silent_lift.
  - apply silent_bind; [apply silent_request | intros result].
    repeat (apply silent_bind; [apply silent_lift | intros ?]).
    destruct (_ <? _); [apply silent_ret | apply IH].
Qed.

Lemma silent_get_native_balance (network wallet : string) :
  silent (get_native_balance self network wallet).
Proof.
  unfold get_native_balance. destruct (String.eqb network "solana"); [apply silent_raise|].
  apply silent_bind; [apply silent_request | intros result; apply silent_lift].
Qed.

Lemma silent_get_token_metadata (network contract : string) :
  silent (get_token_metadata self network contract).
Proof.
  unfold get_token_metadata. destruct (String.eqb network "solana"); [apply silent_raise|].
  apply silent_bind; [apply silent_request | intros result].
  repeat (apply silent_bind; [apply silent_lift | intros ?]). apply silent_ret.
Qed.

Lemma silent_get_token_balances (fuel : nat) (network wallet : string) :
  silent (get_token_balances self fuel network wallet).
Proof.
  unfold get_token_balances. destruct (String.eqb network "solana"); [apply silent_raise|].
  apply silent_token_balances_loop.
Qed.

Lemma silent_get_nfts_for_owner (fuel : nat) (network wallet : string) :
  silent (get_nfts_for_owner self fuel network wallet).
Proof.
  unfold get_nfts_for_owner. destruct (String.eqb network "solana"); [apply silent_raise|].
  apply silent_nfts_loop.
Qed.

End Silence.

(** X15.  No operation of the client prints: whatever the upstream answers
    and however often the request is retried, [get_native_balance],
    [get_token_balances], [get_token_metadata], [get_nfts_for_owner] and
    [get_solana_assets] leave [stderr] as it was, and the requests sent
    before the call stay in the log, the new ones coming on top.  The same
    holds for [_execute_with_retry] around any request function that
    behaves so. *)
Theorem client_operations_are_silent
    (self : AlchemyClient) (fuel : nat) (network wallet contract : string) :
  silent (get_native_balance self network wallet) /\
  silent (get_token_balances self fuel network wallet) /\
  silent (get_token_metadata self network contract) /\
  silent (get_nfts_for_owner self fuel network wallet) /\
  silent (get_solana_assets self fuel wallet) /\
  (forall request_func, silent request_func -> silent (_execute_with_retry self request_func)).
Proof.
  split; [apply silent_get_native_balance|].
  split; [apply silent_get_token_balances|].
  split; [apply silent_get_token_metadata|].
  split; [apply silent_get_nfts_for_owner|].
  split; [apply silent_solana_assets_loop|].
  apply silent_execute.
Qed.

Section ScanDiagnostics.

Variable self : AlchemyClient.
Variable fuel : nat.
Variable chain : string.

Lemma silent_evm_token_step acc tb : silent (evm_token_step (alchemy self fuel) chain acc tb).
Proof.
  destruct acc as [[assets tc] sk]. unfold evm_token_step. cbn [client_get_token_metadata alchemy].
  apply silent_try; [|intros e; apply silent_ret].
  apply silent_bind; [apply silent_get_token_metadata | intros metadata].
  repeat (apply silent_bind; [apply silent_lift | intros ?]). apply silent_ret.
Qed.

End ScanDiagnostics.

(** X16.  Scanning with the client prints at most one line.  After an EVM
    scan that goes through, [stderr] holds one more line, the count of the
    skipped tokens, when tokens were skipped, and is unchanged otherwise;
    a Solana scan, however it ends, leaves [stderr] as it was. *)
Theorem scans_print_only_the_skipped_tokens
    (self : AlchemyClient) (fuel : nat) (chain wallet : string) (w : World) :
  (forall r w',
      evm_scan (alchemy self fuel) chain wallet w = (Ret r, w') ->
      ScanResult.error r = None ->
      stderr w'
      = ((if 0 <? ScanResult.skipped_tokens r
          then [skipped_line chain (ScanResult.skipped_tokens r)] else []) ++ stderr w)%list) /\
  stderr (snd (solana_scan (alchemy self fuel) chain wallet w)) = stderr w.
Proof.
  split.
  - intros r w' H Herr. unfold evm_scan in H.
    apply try_except_inv_Ret in H. destruct H as [H | (e & w1 & _ & _ & H)].
    2: { injection H as <- _. discriminate Herr. }
    apply evm_scan_try_inv in H.
    destruct H as (nb & w1 & assets0 & nc & w2 & tbs & w3 & assets1 & tc & sk & w4 & w5 & nfts
                   & H1 & H2 & H3 & H4 & H5 & H6 & ->).
    cbn [ScanResult.skipped_tokens]. cbn [alchemy client_get_native_balance
      client_get_token_balances client_get_nfts_for_owner] in H1, H3, H6.
    pose proof (proj1 (silent_get_native_balance self chain wallet w)) as S1.
    rewrite H1 in S1. cbn [snd] in S1.
    apply evm_native_step_inv in H2. destruct H2 as [-> _].
    pose proof (proj1 (silent_get_token_balances self fuel chain wallet w1)) as S3.
    rewrite H3 in S3. cbn [snd] in S3.
    pose proof (proj1 (silent_for_each _ tbs (silent_evm_token_step self fuel chain)
                         (assets0, 0, 0) w3)) as S4.
    rewrite H4 in S4. cbn [snd] in S4.
    pose proof (proj1 (silent_get_nfts_for_owner self fuel chain wallet w5)) as S6.
    rewrite H6 in S6. cbn [snd] in S6.
    rewrite S6. unfold evm_report_skipped in H5. destruct (0 <? sk).
    + unfold print_stderr in H5. injection H5 as <-. cbn [stderr app].
      rewrite S4, S3, S1. reflexivity.
    + injection H5 as <-. cbn [app]. rewrite S4, S3, S1. reflexivity.
  - assert (S : silent (solana_scan (alchemy self fuel) chain wallet)).
    { unfold solana_scan, solana_scan_try. cbn [alchemy client_get_solana_assets].
      apply silent_try; [|intros e; apply silent_ret].
      apply silent_bind; [apply silent_solana_assets_loop | intros sas].
      apply silent_bind.
      - apply silent_for_each. intros acc sa. apply silent_lift.
      - intros [[[assets nc] tc] nftc]. apply silent_ret. }
    exact (proj1 (S w)).
Qed.

Lemma scans_print_only_the_skipped_tokens_witness :
  exists r w',
    evm_scan (alchemy mixed_wallet 5) "ethereum" test_wallet world0 = (Ret r, w') /\
    stderr w' = ["[ethereum] Skipped 1 token(s) due to metadata fetch failures"%string].
Proof.
  destruct (scans_print_only_the_skipped_tokens mixed_wallet 5 "ethereum" test_wallet world0)
    as [T _].
  destruct (evm_scan (alchemy mixed_wallet 5) "ethereum" test_wallet world0)
    as [[r | e | why] w'] eqn:run; vm_compute in run; try discriminate run.
  exists r, w'. split; [reflexivity|].
  rewrite (T r w' eq_refl); injection run as <- <-; reflexivity.
Defined.

(** ** Quantities of up to 28 digits

    [Py.str_of_N] is the standard library's conversion to decimal; the
    first lemmas give it the positional reading the rest needs: the string
    of [10 * q + k] is the string of [q] followed by the digit [k]. *)

Lemma digit_cases (k : N) :
  (k < 10)%N ->
  (k = 0 \/ k = 1 \/ k = 2 \/ k = 3 \/ k = 4 \/ k = 5 \/ k = 6 \/ k = 7 \/ k = 8 \/ k = 9)%N.
Proof. lia. Qed.

Lemma to_lu_step (q k : N) :
  (0 < q)%N -> (k < 10)%N ->
  DecimalPos.Unsigned.to_lu (10 * q + k) = digit_cons k (DecimalPos.Unsigned.to_lu q).
Proof.
  intros Hq Hk. destruct q as [| p]; [lia|].
  pose proof (DecimalPos.Unsigned.to_ldec_tenfold p) as T.
  destruct (digit_cases k Hk) as [-> | [-> | [-> | [-> | [-> | [-> | [-> | [-> | [-> | ->]]]]]]]]].
  - rewrite N.add_0_r. exact T.
  - replace (10 * N.pos p + 1)%N with (N.succ (10 * N.pos p)) by lia.
    rewrite DecimalPos.Unsigned.to_lu_succ, T. reflexivity.
  - replace (10 * N.pos p + 2)%N with (N.succ (N.succ (10 * N.pos p))) by lia.
    rewrite !DecimalPos.Unsigned.to_lu_succ, T. reflexivity.
  - replace (10 * N.pos p + 3)%N with (N.succ (N.succ (N.succ (10 * N.pos p)))) by lia.
    rewrite !DecimalPos.Unsigned.to_lu_succ, T. reflexivity.
  - replace (10 * N.pos p + 4)%N
      with (N.succ (N.succ (N.succ (N.succ (10 * N.pos p))))) by lia.
    rewrite !DecimalPos.Unsigned.to_lu_succ, T. reflexivity.
  - replace (10 * N.pos p + 5)%N
      with (N.succ (N.succ (N.succ (N.succ (N.succ (10 * N.pos p)))))) by lia.
    rewrite !DecimalPos.Unsigned.to_lu_succ, T. reflexivity.
  - replace (10 * N.pos p + 6)%N
      with (N.succ (N.succ (N.succ (N.succ (N.succ (N.succ (10 * N.pos p))))))) by lia.
    rewrite !DecimalPos.Unsigned.to_lu_succ, T. reflexivity.
  - replace (10 * N.pos p + 7)%N
      with (N.succ (N.succ (N.succ (N.succ (N.succ (N.succ (N.succ (10 * N.pos p))))))))
      by lia.
    rewrite !DecimalPos.Unsigned.to_lu_succ, T. reflexivity.
  - replace (10 * N.pos p + 8)%N
      with (N.succ (N.succ (N.succ (N.succ (N.succ (N.succ (N.succ
             (N.succ (10 * N.pos p))))))))) by lia.
    rewrite !DecimalPos.Unsigned.to_lu_succ, T. reflexivity.
  - replace (10 * N.pos p + 9)%N
      with (N.succ (N.succ (N.succ (N.succ (N.succ (N.succ (N.succ
             (N.succ (N.succ (10 * N.pos p)))))))))) by lia.
    rewrite !DecimalPos.Unsigned.to_lu_succ, T. reflexivity.
Qed.

Lemma string_of_revapp (x : Decimal.uint) :
  forall acc,
    NilEmpty.string_of_uint (Decimal.revapp x acc)
    = NilEmpty.string_of_uint (Decimal.rev x) ++ NilEmpty.string_of_uint acc.
Proof.
  unfold Decimal.rev.
  induction x as [| x IH | x IH | x IH | x IH | x IH | x IH | x IH | x IH | x IH | x IH];
    intros acc; cbn [Decimal.revapp]; [reflexivity | ..];
    rewrite IH, (IH (_ Decimal.Nil)); cbn [NilEmpty.string_of_uint];
    rewrite append_assoc; reflexivity.
Qed.

Lemma str_of_N_pos (n : N) :
  (0 < n)%N ->
  Py.str_of_N n = NilEmpty.string_of_uint (Decimal.rev (DecimalPos.Unsigned.to_lu n)).
Proof.
  destruct n as [| p]; [lia|]. intros _. unfold Py.str_of_N, NilZero.string_of_uint.
  cbn [N.to_uint DecimalPos.Unsigned.to_lu]. unfold Pos.to_uint.
  pose proof (DecimalPos.Unsigned.to_uint_nonnil p) as Hn. unfold Pos.to_uint in Hn.
  destruct (Decimal.rev (Pos.to_little_uint p)); [contradiction | reflexivity ..].
Qed.

Lemma str_of_N_digit (k : N) : (k < 10)%N -> Py.str_of_N k = String (digit_char k) "".
Proof.
  intros Hk.
  destruct (digit_cases k Hk) as [-> | [-> | [-> | [-> | [-> | [-> | [-> | [-> | [-> | ->]]]]]]]]];
    reflexivity.
Qed.

Lemma str_of_N_step (q k : N) :
  (0 < q)%N -> (k < 10)%N ->
  Py.str_of_N (10 * q + k) = Py.str_of_N q ++ String (digit_char k) "".
Proof.
  intros Hq Hk. rewrite (str_of_N_pos (10 * q + k)) by lia.
  rewrite (str_of_N_pos q Hq), (to_lu_step q k Hq Hk).
  destruct (digit_cases k Hk) as [-> | [-> | [-> | [-> | [-> | [-> | [-> | [-> | [-> | ->]]]]]]]]];
    cbn [digit_cons]; unfold Decimal.rev at 1; cbn [Decimal.revapp];
    rewrite string_of_revapp; reflexivity.
Qed.

Lemma length_append (a b : string) :
  String.length (a ++ b) = (String.length a + String.length b)%nat.
Proof. induction a as [| c a IH]; [reflexivity|]. cbn [append String.length]. rewrite IH. reflexivity. Qed.

Lemma repeat_char_snoc (c : ascii) (n : nat) :
  (Py.repeat_char c n ++ String c "")%string = Py.repeat_char c (S n).
Proof. induction n as [| n IH]; [reflexivity|]. cbn [Py.repeat_char append] in *. rewrite IH. reflexivity. Qed.

Lemma length_repeat_char (c : ascii) (n : nat) : String.length (Py.repeat_char c n) = n.
Proof. induction n as [| n IH]; [reflexivity|]. cbn [Py.repeat_char String.length]. rewrite IH. reflexivity. Qed.

(** The decimal string of a number of two digits or more. *)
Lemma str_of_N_div (n : N) :
  (10 <= n)%N ->
  Py.str_of_N n = Py.str_of_N (n / 10) ++ String (digit_char (n mod 10)) "".
Proof.
  intros Hn. rewrite (N.div_mod n 10) at 1 by lia.
  apply str_of_N_step.
  - apply N.div_str_pos. lia.
  - apply N.mod_lt. lia.
Qed.

Lemma str_of_N_small (n : N) :
  (n < 10)%N -> Py.str_of_N n = String (digit_char (n mod 10)) "".
Proof. intros Hn. rewrite N.mod_small by exact Hn. apply str_of_N_digit. exact Hn. Qed.

Lemma str_of_N_last (n : N) :
  exists front, Py.str_of_N n = front ++ String (digit_char (n mod 10)) "".
Proof.
  destruct (N.lt_ge_cases n 10) as [H | H].
  - exists "". apply str_of_N_small. exact H.
  - exists (Py.str_of_N (n / 10)). apply str_of_N_div. exact H.
Qed.

Lemma length_last_digits (t : nat) : forall x, String.length (last_digits t x) = t.
Proof.
  induction t as [| t IH]; intros x; [reflexivity|].
  cbn [last_digits]. rewrite length_append, IH. cbn [String.length]. lia.
Qed.

Lemma pow10_succ (t : nat) : (10 ^ N.of_nat (S t) = 10 * 10 ^ N.of_nat t)%N.
Proof. rewrite Nat2N.inj_succ, N.pow_succ_r'. reflexivity. Qed.

Lemma pow10_pos (t : nat) : (0 < 10 ^ N.of_nat t)%N.
Proof. apply N.neq_0_lt_0. apply N.pow_nonzero. discriminate. Qed.

(** A number of more than [t] digits: its string is the string of the
    number without its last [t] digits, followed by these. *)
Lemma str_of_N_split (t : nat) :
  forall n,
    (10 ^ N.of_nat t <= n)%N ->
    Py.str_of_N n = Py.str_of_N (n / 10 ^ N.of_nat t) ++ last_digits t n.
Proof.
  induction t as [| t IH]; intros n Hn.
  - cbn [last_digits N.of_nat]. rewrite N.pow_0_r, N.div_1_r, append_nil_r. reflexivity.
  - rewrite pow10_succ in Hn |- *. pose proof (pow10_pos t) as Hp.
    cbn [last_digits]. rewrite str_of_N_div by lia.
    rewrite (IH (n / 10)%N).
    + rewrite N.Div0.div_div, append_assoc. reflexivity.
    + apply N.div_le_lower_bound; lia.
Qed.

Lemma last_digits_zero (t : nat) : last_digits t 0 = Py.repeat_char "0" t.
Proof.
  induction t as [| t IH]; [reflexivity|].
  cbn [last_digits]. change (0 / 10)%N with 0%N. change (0 mod 10)%N with 0%N.
  rewrite IH. change (digit_char 0) with "0"%char. apply repeat_char_snoc.
Qed.

(** A number of at most [t] digits: its last [t] digits are its string,
    padded with zeros on the left. *)
Lemma last_digits_pad (t : nat) :
  forall n,
    (n < 10 ^ N.of_nat t)%N -> (1 <= t)%nat ->
    last_digits t n
    = Py.repeat_char "0" (t - String.length (Py.str_of_N n)) ++ Py.str_of_N n.
Proof.
  induction t as [| t IH]; intros n Hn Ht; [lia|].
  cbn [last_digits]. destruct (N.lt_ge_cases n 10) as [Hs | Hl].
  - rewrite (N.div_small n 10 Hs), last_digits_zero, (str_of_N_small n Hs).
    cbn [String.length]. replace (S t - 1)%nat with t by lia. reflexivity.
  - rewrite pow10_succ in Hn.
    assert (Ht' : (1 <= t)%nat).
    { destruct t; [|lia]. cbn in Hn. lia. }
    rewrite (IH (n / 10)%N); [|apply N.Div0.div_lt_upper_bound; lia | exact Ht'].
    rewrite (str_of_N_div n Hl), length_append. cbn [String.length].
    rewrite append_assoc.
    replace (S t - (String.length (Py.str_of_N (n / 10)) + 1))%nat
      with (t - String.length (Py.str_of_N (n / 10)))%nat by lia.
    reflexivity.
Qed.

Lemma str_of_N_not_empty (n : N) : (1 <= String.length (Py.str_of_N n))%nat.
Proof.
  destruct (str_of_N_last n) as (front & ->). rewrite length_append. cbn [String.length]. lia.
Qed.

(** The number of digits against the magnitude. *)
Lemma length_str_upper (t : nat) :
  forall n, (n < 10 ^ N.of_nat t)%N -> (1 <= t)%nat ->
            (String.length (Py.str_of_N n) <= t)%nat.
Proof.
  induction t as [| t IH]; intros n Hn Ht; [lia|].
  destruct (N.lt_ge_cases n 10) as [Hs | Hl].
  - rewrite (str_of_N_small n Hs). cbn [String.length]. lia.
  - rewrite pow10_succ in Hn.
    assert (Ht' : (1 <= t)%nat).
    { destruct t; [|lia]. cbn in Hn. lia. }
    rewrite (str_of_N_div n Hl), length_append. cbn [String.length].
    pose proof (IH (n / 10)%N) as H. 
    assert (n / 10 < 10 ^ N.of_nat t)%N by (apply N.Div0.div_lt_upper_bound; lia).
    specialize (H H0 Ht'). lia.
Qed.

Lemma length_str_lower (t : nat) (n : N) :
  (10 ^ N.of_nat t <= n)%N -> (t < String.length (Py.str_of_N n))%nat.
Proof.
  intros Hn. rewrite (str_of_N_split t n Hn), length_append, length_last_digits.
  pose proof (str_of_N_not_empty (n / 10 ^ N.of_nat t)). lia.
Qed.

Lemma length_str_pow10 (t : nat) :
  String.length (Py.str_of_N (10 ^ N.of_nat t)) = S t.
Proof.
  rewrite (str_of_N_split t (10 ^ N.of_nat t)) by lia.
  rewrite N.div_same by (apply N.pow_nonzero; discriminate).
  rewrite length_append, length_last_digits. reflexivity.
Qed.

(** The last digits of a multiple of a power of ten. *)
Lemma last_digits_shift (k : nat) :
  forall t m,
    last_digits (t + k) (m * 10 ^ N.of_nat k) = last_digits t m ++ Py.repeat_char "0" k.
Proof.
  induction k as [| k IH]; intros t m.
  - rewrite Nat.add_0_r. cbn [N.of_nat Py.repeat_char]. rewrite N.pow_0_r, N.mul_1_r, append_nil_r.
    reflexivity.
  - replace (t + S k)%nat with (S (t + k)) by lia. cbn [last_digits].
    rewrite pow10_succ.
    replace (m * (10 * 10 ^ N.of_nat k))%N with ((m * 10 ^ N.of_nat k) * 10)%N by lia.
    rewrite N.div_mul by discriminate. rewrite N.Div0.mod_mul.
    rewrite IH, append_assoc. change (digit_char 0) with "0"%char.
    rewrite repeat_char_snoc. reflexivity.
Qed.

Lemma last_digits_mod (t : nat) :
  forall x, last_digits t (x mod 10 ^ N.of_nat t) = last_digits t x.
Proof.
  induction t as [| t IH]; intros x; [reflexivity|].
  cbn [last_digits]. rewrite pow10_succ.
  pose proof (pow10_pos t) as Hp.
  rewrite (N.Div0.mod_mul_r x 10 (10 ^ N.of_nat t)).
  replace (x mod 10 + 10 * ((x / 10) mod 10 ^ N.of_nat t))%N
    with ((x / 10) mod 10 ^ N.of_nat t * 10 + x mod 10)%N by lia.
  rewrite N.div_add_l by discriminate.
  rewrite (N.div_small (x mod 10) 10) by (apply N.mod_lt; discriminate).
  rewrite N.add_0_r, IH.
  rewrite N.add_comm, N.Div0.mod_add, N.Div0.mod_mod. reflexivity.
Qed.

Lemma pow10_of_nat (t : nat) : PyDecimal.pow10 (Z.of_nat t) = (10 ^ N.of_nat t)%N.
Proof.
  unfold PyDecimal.pow10. apply N2Z.inj. rewrite Z2N.id by (apply Z.pow_nonneg; lia).
  rewrite N2Z.inj_pow, nat_N_Z. reflexivity.
Qed.

Lemma ndigits_pow10 (t : nat) : PyDecimal.ndigits (10 ^ N.of_nat t) = Z.of_nat t + 1.
Proof. unfold PyDecimal.ndigits. rewrite length_str_pow10. lia. Qed.

(** [strip_to_ideal] takes off the zeros it is allowed to. *)
Lemma strip_zeros (s : nat) :
  forall n c e ideal,
    (s <= n)%nat -> e + Z.of_nat s <= ideal -> (0 < c)%N ->
    PyDecimal.strip_to_ideal n (c * 10 ^ N.of_nat s) e ideal
    = PyDecimal.strip_to_ideal (n - s) c (e + Z.of_nat s) ideal.
Proof.
  induction s as [| s IH]; intros n c e ideal Hn He Hc.
  - cbn [N.of_nat]. rewrite N.pow_0_r, N.mul_1_r, Nat.sub_0_r, Z.add_0_r. reflexivity.
  - destruct n as [| n]; [lia|]. cbn [PyDecimal.strip_to_ideal].
    rewrite pow10_succ.
    replace (c * (10 * 10 ^ N.of_nat s))%N with ((c * 10 ^ N.of_nat s) * 10)%N by lia.
    rewrite N.Div0.mod_mul, N.div_mul by discriminate.
    destruct (Z.ltb_spec e ideal) as [_ | H]; [|lia]. cbn [andb N.eqb].
    rewrite IH by lia. f_equal. lia.
Qed.

Lemma strip_stops (n : nat) (c : N) (e ideal : Z) :
  ideal <= e \/ (c mod 10 <> 0)%N ->
  PyDecimal.strip_to_ideal n c e ideal = (c, e).
Proof.
  intros H. destruct n as [| n]; [reflexivity|]. cbn [PyDecimal.strip_to_ideal].
  destruct H as [H | H].
  - destruct (Z.ltb_spec e ideal); [lia | reflexivity].
  - apply N.eqb_neq in H. rewrite H, andb_false_r. reflexivity.
Qed.

(** A coefficient of at most 28 digits with an exponent in range is left
    as it is. *)
Lemma fix_exact (s : bool) (c : N) (e : Z) :
  (0 < c)%N -> PyDecimal.ndigits c <= 28 -> PyDecimal.Etiny <= e <= 0 ->
  PyDecimal.fix_ (PyDecimal.mk s c e) = Ret (PyDecimal.mk s c e).
Proof.
  intros Hc Hl He. unfold PyDecimal.fix_. cbn [PyDecimal.coeff PyDecimal.exp PyDecimal.sign].
  destruct (N.eqb_spec c 0) as [-> | _]; [lia|].
  unfold PyDecimal.Etop, PyDecimal.Etiny in *.
  unfold PyDecimal.Emax, PyDecimal.Emin, PyDecimal.prec in *.
  destruct (Z.ltb_spec (999999 - 28 + 1) (PyDecimal.ndigits c + e - 28)); [lia|].
  destruct (Z.ltb_spec e (Z.max (PyDecimal.ndigits c + e - 28) (-999999 - 28 + 1))); [lia|].
  reflexivity.
Qed.

(** The trailing zeros of a number, up to [d] of them. *)
Lemma trailing_zeros (d : nat) :
  forall n, (0 < n)%N ->
    exists k c, (k <= d)%nat /\ n = (c * 10 ^ N.of_nat k)%N /\ (0 < c)%N /\
                (k = d \/ (c mod 10 <> 0)%N).
Proof.
  induction d as [| d IH]; intros n Hn.
  - exists 0%nat, n. cbn [N.of_nat]. rewrite N.pow_0_r, N.mul_1_r.
    split; [lia|]. split; [reflexivity|]. split; [exact Hn|]. left. reflexivity.
  - destruct (N.eq_dec (n mod 10) 0) as [Hz | Hnz].
    + pose proof (N.div_mod n 10 ltac:(discriminate)) as Hdm.
      assert (Hq : (0 < n / 10)%N) by (apply N.div_str_pos; lia).
      destruct (IH (n / 10)%N Hq) as (k & c & Hk & Hc & Hpos & Hstop).
      exists (S k), c. rewrite pow10_succ.
      split; [lia|]. split; [lia|]. split; [exact Hpos|].
      destruct Hstop as [-> | H]; [left; reflexivity | right; exact H].
    + exists 0%nat, n. cbn [N.of_nat]. rewrite N.pow_0_r, N.mul_1_r.
      split; [lia|]. split; [reflexivity|]. split; [exact Hn|]. right. exact Hnz.
Qed.

(** The quotient of an integer of at most 28 digits by a power of ten. *)
Lemma truediv_exact (raw c : N) (d k : nat) :
  (0 < c)%N -> raw = (c * 10 ^ N.of_nat k)%N -> (k <= d)%nat ->
  k = d \/ (c mod 10 <> 0)%N ->
  PyDecimal.ndigits raw <= 28 ->
  Z.of_nat d <= 1000026 ->
  PyDecimal.truediv (PyDecimal.mk false raw 0) (PyDecimal.mk false (10 ^ N.of_nat d) 0)
  = Ret (PyDecimal.mk false c (- Z.of_nat (d - k))).
Proof.
  intros Hc Hraw Hk Hstop Hlen Hd.
  assert (Hrawpos : (0 < raw)%N).
  { subst raw. pose proof (pow10_pos k). lia. }
  assert (Hlen1 : 1 <= PyDecimal.ndigits raw).
  { unfold PyDecimal.ndigits. pose proof (str_of_N_not_empty raw). lia. }
  unfold PyDecimal.truediv. cbn [PyDecimal.coeff PyDecimal.exp PyDecimal.sign xorb].
  destruct (N.eqb_spec (10 ^ N.of_nat d) 0) as [E | _].
  { pose proof (pow10_pos d). lia. }
  destruct (N.eqb_spec raw 0) as [E | _]; [lia|].
  rewrite ndigits_pow10. unfold PyDecimal.prec.
  set (L := PyDecimal.ndigits raw) in *.
  remember (Z.to_nat (30 - L)) as z eqn:Hz.
  assert (Hshift : Z.of_nat d + 1 - L + 28 + 1 = Z.of_nat (d + z)) by lia.
  rewrite Hshift. destruct (Z.leb_spec 0 (Z.of_nat (d + z))) as [_ | H]; [|lia].
  rewrite pow10_of_nat.
  assert (Hnum : (raw * 10 ^ N.of_nat (d + z) = (c * 10 ^ N.of_nat (k + z)) * 10 ^ N.of_nat d)%N).
  { subst raw. rewrite !Nat2N.inj_add, !N.pow_add_r. lia. }
  rewrite Hnum, N.div_mul, N.Div0.mod_mul by (apply N.pow_nonzero; discriminate).
  cbn [N.eqb]. rewrite Z.sub_0_r. 
  replace (0 - Z.of_nat (d + z) ) with (- Z.of_nat (d + z)) by lia.
  replace (0 - - Z.of_nat (d + z)) with (Z.of_nat (d + z)) by lia.
  rewrite Nat2Z.id.
  rewrite strip_zeros by lia.
  rewrite strip_stops.
  - replace (- Z.of_nat (d + z) + Z.of_nat (k + z)) with (- Z.of_nat (d - k)) by lia.
    apply fix_exact.
    + exact Hc.
    + (* the digits of c are at most those of raw *)
      unfold PyDecimal.ndigits in *.
      destruct (N.lt_ge_cases c (10 ^ N.of_nat 28)) as [Hlt | Hge].
      * pose proof (length_str_upper 28 c Hlt ltac:(lia)). lia.
      * exfalso. assert (Hr : (10 ^ N.of_nat 28 <= raw)%N).
        { subst raw. pose proof (pow10_pos k). nia. }
        pose proof (length_str_lower 28 raw Hr). subst L. lia.
    + unfold PyDecimal.Etiny, PyDecimal.Emin, PyDecimal.prec. lia.
  - destruct Hstop as [-> | H]; [left; lia | right; exact H].
Qed.

(** *** Stripping and searching *)

Lemma rstrip_repeat (c : ascii) (k : nat) : Py.rstrip c (Py.repeat_char c k) = "".
Proof.
  induction k as [| k IH]; [reflexivity|].
  cbn [Py.repeat_char Py.rstrip]. rewrite IH, Ascii.eqb_refl. reflexivity.
Qed.

Lemma rstrip_app_repeat (c : ascii) (s : string) (k : nat) :
  Py.rstrip c (s ++ Py.repeat_char c k) = Py.rstrip c s.
Proof.
  induction s as [| a s IH]; [apply rstrip_repeat|].
  cbn [append Py.rstrip]. rewrite IH. reflexivity.
Qed.

Lemma rstrip_keeps (c a : ascii) (s : string) :
  Ascii.eqb a c = false -> Py.rstrip c (s ++ String a "") = s ++ String a "".
Proof.
  intros Ha. induction s as [| b s IH].
  - cbn [append Py.rstrip]. rewrite Ha. reflexivity.
  - cbn [append Py.rstrip]. rewrite IH.
    destruct (s ++ String a "") eqn:E; [|reflexivity].
    destruct s; discriminate E.
Qed.

Lemma contains_char_app (c : ascii) (a b : string) :
  Py.contains_char c (a ++ b) = Py.contains_char c a || Py.contains_char c b.
Proof.
  induction a as [| x a IH]; [reflexivity|].
  cbn [append Py.contains_char]. rewrite IH, orb_assoc. reflexivity.
Qed.

Lemma digit_is_not_a_point (k : N) : (k < 10)%N -> Ascii.eqb (digit_char k) "." = false.
Proof.
  intros Hk.
  destruct (digit_cases k Hk) as [-> | [-> | [-> | [-> | [-> | [-> | [-> | [-> | [-> | ->]]]]]]]]];
    reflexivity.
Qed.

Lemma digit_is_not_zero (k : N) :
  (k < 10)%N -> k <> 0%N -> Ascii.eqb (digit_char k) "0" = false.
Proof.
  intros Hk Hz.
  destruct (digit_cases k Hk) as [-> | [-> | [-> | [-> | [-> | [-> | [-> | [-> | [-> | ->]]]]]]]]];
    try reflexivity. contradiction.
Qed.

Lemma last_digits_no_point (t : nat) :
  forall x, Py.contains_char "." (last_digits t x) = false.
Proof.
  induction t as [| t IH]; intros x; [reflexivity|].
  cbn [last_digits]. rewrite contains_char_app, IH. cbn [Py.contains_char orb].
  rewrite digit_is_not_a_point by (apply N.mod_lt; discriminate). reflexivity.
Qed.

Lemma str_of_N_no_point (n : N) : Py.contains_char "." (Py.str_of_N n) = false.
Proof.
  destruct (N.lt_ge_cases n 10) as [Hs | Hl].
  - rewrite (str_of_N_small n Hs). cbn [Py.contains_char].
    rewrite digit_is_not_a_point by (apply N.mod_lt; discriminate). reflexivity.
  - assert (Hb : (n < 10 ^ N.of_nat (String.length (Py.str_of_N n)))%N).
    { destruct (N.lt_ge_cases n (10 ^ N.of_nat (String.length (Py.str_of_N n)))) as [H | H];
        [exact H|]. apply length_str_lower in H. lia. }
    pose proof (last_digits_pad _ n Hb (str_of_N_not_empty n)) as Hp.
    rewrite Nat.sub_diag in Hp. cbn [Py.repeat_char append] in Hp.
    rewrite <- Hp. apply last_digits_no_point.
Qed.

(** *** Substrings *)

Lemma substring_all (s : string) : substring 0 (String.length s) s = s.
Proof. induction s as [| c s IH]; [reflexivity|]. cbn [String.length substring]. rewrite IH. reflexivity. Qed.

Lemma substring_none (n : nat) (s : string) : substring n 0 s = "".
Proof.
  revert n. induction s as [| c s IH]; intros [| n]; try reflexivity. cbn [substring]. apply IH.
Qed.

Lemma take_app (a b : string) : Py.take (String.length a) (a ++ b) = a.
Proof.
  unfold Py.take. induction a as [| c a IH].
  - cbn [String.length append]. apply (substring_none 0).
  - cbn [String.length append substring]. rewrite IH. reflexivity.
Qed.

Lemma drop_app (a b : string) : Py.drop (String.length a) (a ++ b) = b.
Proof.
  unfold Py.drop. rewrite length_append.
  replace (String.length a + String.length b - String.length a)%nat
    with (String.length b) by lia.
  induction a as [| c a IH].
  - cbn [String.length append]. apply substring_all.
  - cbn [String.length append substring]. exact IH.
Qed.

(** *** [format(d, "f")] of a positive coefficient with [places] decimal
    places *)

Lemma format_f_places (c : N) (places : nat) :
  (0 < c)%N ->
  PyDecimal.format_f (PyDecimal.mk false c (- Z.of_nat places))
  = match places with
    | O => Py.str_of_N c
    | S _ => Py.str_of_N (c / 10 ^ N.of_nat places) ++ "." ++ last_digits places c
    end.
Proof.
  intros Hc. unfold PyDecimal.format_f.
  cbn [PyDecimal.coeff PyDecimal.exp PyDecimal.sign].
  destruct (N.eqb_spec c 0) as [-> | _]; [lia|]. cbn [andb].
  cbn [PyDecimal.coeff PyDecimal.exp PyDecimal.sign]. cbn [append].
  pose proof (str_of_N_not_empty c) as Hlen.
  set (digits := Py.str_of_N c) in *.
  destruct places as [| p].
  - cbn [Z.of_nat Z.opp]. rewrite Z.add_0_l, Nat2Z.id.
    destruct (Z.ltb_spec (Z.of_nat (String.length digits)) 0) as [H | _]; [lia|].
    rewrite Z.ltb_irrefl.
    change (Py.take (String.length digits) digits)
      with (substring 0 (String.length digits) digits).
    rewrite substring_all.
    unfold Py.drop. rewrite Nat.sub_diag, substring_none.
    destruct digits; [cbn in Hlen; lia|]. rewrite append_nil_r. reflexivity.
  - set (places := S p) in *.
    assert (Hfrac : forall F, F = last_digits places c ->
                      match F with "" => "" | String _ _ => String "." F end
                      = String "." (last_digits places c)).
    { intros F ->. unfold places. cbn [last_digits].
      destruct (last_digits p (c / 10)); reflexivity. }
    destruct (N.lt_ge_cases c (10 ^ N.of_nat places)) as [Hsmall | Hlarge].
    + pose proof (length_str_upper places c Hsmall ltac:(lia)) as Hup. fold digits in Hup.
      rewrite (N.div_small c _ Hsmall). change (Py.str_of_N 0) with "0".
      pose proof (last_digits_pad places c Hsmall ltac:(lia)) as Hpad. fold digits in Hpad.
      destruct (Z.ltb_spec (- Z.of_nat places + Z.of_nat (String.length digits)) 0) as [Hneg | Hz].
      * replace (Z.to_nat (- (- Z.of_nat places + Z.of_nat (String.length digits))))
          with (places - String.length digits)%nat by lia.
        rewrite <- Hpad. rewrite (Hfrac _ eq_refl). reflexivity.
      * assert (Heq : String.length digits = places) by lia.
        replace (- Z.of_nat places + Z.of_nat (String.length digits)) with 0 by lia.
        destruct (Z.ltb_spec (Z.of_nat (String.length digits)) 0) as [H | _]; [lia|].
        cbn [Z.to_nat]. unfold Py.take. rewrite substring_none.
        unfold Py.drop. rewrite Nat.sub_0_r, substring_all.
        rewrite Heq, Nat.sub_diag in Hpad. cbn [Py.repeat_char append] in Hpad.
        rewrite (Hfrac digits (eq_sym Hpad)). reflexivity.
    + pose proof (str_of_N_split places c Hlarge) as Hsplit. fold digits in Hsplit.
      pose proof (str_of_N_not_empty (c / 10 ^ N.of_nat places)) as Hi.
      set (I := Py.str_of_N (c / 10 ^ N.of_nat places)) in *.
      assert (Hl : String.length digits = (String.length I + places)%nat).
      { rewrite Hsplit, length_append, length_last_digits. reflexivity. }
      destruct (Z.ltb_spec (- Z.of_nat places + Z.of_nat (String.length digits)) 0) as [H | _];
        [lia|].
      destruct (Z.ltb_spec (Z.of_nat (String.length digits))
                  (- Z.of_nat places + Z.of_nat (String.length digits))) as [H | _]; [lia|].
      replace (Z.to_nat (- Z.of_nat places + Z.of_nat (String.length digits)))
        with (String.length I) by lia.
      rewrite Hsplit, take_app, drop_app.
      rewrite (Hfrac _ eq_refl).
      destruct I; [cbn in Hi; lia | reflexivity].
Qed.

Lemma str_of_Z_of_N (n : N) : Py.str_of_Z (Z.of_N n) = Py.str_of_N n.
Proof. destruct n; reflexivity. Qed.

Lemma of_int_of_N (n : N) : PyDecimal.of_int (Z.of_N n) = PyDecimal.mk false n 0.
Proof.
  unfold PyDecimal.of_int. rewrite Zabs2N.id.
  destruct (Z.ltb_spec (Z.of_N n) 0); [lia | reflexivity].
Qed.

Lemma pow10_Z (t : nat) : 10 ^ Z.of_nat t = Z.of_N (10 ^ N.of_nat t).
Proof. rewrite N2Z.inj_pow, nat_N_Z. reflexivity. Qed.

(** Stripping leaves the fixed-point notation as it is. *)
Lemma strip_fixed_point (c : N) (places : nat) (zeros : nat) :
  (0 < c)%N ->
  (places = 0%nat \/ (c mod 10 <> 0)%N) ->
  (places = 0%nat -> (1 <= zeros)%nat) ->
  Py.rstrip "." (Py.rstrip "0"
    (Py.str_of_N (c / 10 ^ N.of_nat places) ++ "." ++ last_digits places c
     ++ Py.repeat_char "0" zeros))
  = fixed_point c places.
Proof.
  intros Hc Hstop Hz. unfold fixed_point. destruct places as [| p].
  - cbn [last_digits N.of_nat append]. rewrite N.pow_0_r, N.div_1_r.
    change (Py.str_of_N c ++ String "." (Py.repeat_char "0" zeros))
      with (Py.str_of_N c ++ String "." "" ++ Py.repeat_char "0" zeros).
    rewrite <- append_assoc, rstrip_app_repeat.
    rewrite rstrip_keeps by reflexivity.
    change (String "." "") with (Py.repeat_char "." 1).
    rewrite rstrip_app_repeat.
    destruct (str_of_N_last c) as (front & ->).
    apply rstrip_keeps. apply digit_is_not_a_point. apply N.mod_lt. discriminate.
  - destruct Hstop as [H | Hstop]; [discriminate|].
    cbn [last_digits].
    set (I := Py.str_of_N (c / 10 ^ N.of_nat (S p))).
    set (F := last_digits p (c / 10)).
    replace (I ++ "." ++ (F ++ String (digit_char (c mod 10)) "") ++ Py.repeat_char "0" zeros)
      with (((I ++ "." ++ F) ++ String (digit_char (c mod 10)) "") ++ Py.repeat_char "0" zeros).
    2: { rewrite ?append_assoc. cbn [append]. rewrite ?append_assoc. reflexivity. }
    rewrite rstrip_app_repeat.
    rewrite rstrip_keeps
      by (apply digit_is_not_zero; [apply N.mod_lt; discriminate | exact Hstop]).
    rewrite rstrip_keeps by (apply digit_is_not_a_point; apply N.mod_lt; discriminate).
    rewrite ?append_assoc. cbn [append]. rewrite ?append_assoc. reflexivity.
Qed.

Section Exactness.

Variables (raw c : N) (decimals k : nat).
Hypothesis c_positive : (0 < c)%N.
Hypothesis raw_split : raw = (c * 10 ^ N.of_nat k)%N.
Hypothesis k_bound : (k <= decimals)%nat.
Hypothesis k_stops : k = decimals \/ (c mod 10 <> 0)%N.

Lemma exact_quantity_fixed_point :
  exact_quantity (Z.of_N raw) (Z.of_nat decimals) = fixed_point c (decimals - k).
Proof.
  unfold exact_quantity.
  rewrite pow10_Z, <- N2Z.inj_div, <- N2Z.inj_mod, !str_of_Z_of_N, Nat2Z.id.
  pose proof (pow10_pos decimals) as Hp. pose proof (pow10_pos k) as Hpk.
  assert (Hquot : (raw / 10 ^ N.of_nat decimals = c / 10 ^ N.of_nat (decimals - k))%N).
  { rewrite raw_split.
    replace (10 ^ N.of_nat decimals)%N
      with (10 ^ N.of_nat (decimals - k) * 10 ^ N.of_nat k)%N.
    - apply N.Div0.div_mul_cancel_r. lia.
    - rewrite <- N.pow_add_r. f_equal. lia. }
  rewrite Hquot.
  destruct decimals as [| d] eqn:Hd.
  - assert (k = 0%nat) by lia. subst k.
    cbn [N.of_nat Nat.sub]. rewrite N.pow_0_r, N.mod_1_r.
    change (Py.str_of_N 0) with "0". cbn [String.length Nat.sub Py.repeat_char append].
    pose proof (strip_fixed_point c 0 1 c_positive ltac:(left; reflexivity) ltac:(lia)) as Hs.
    cbn [last_digits N.of_nat append Py.repeat_char] in Hs.
    rewrite N.pow_0_r in Hs. exact Hs.
  - rewrite <- Hd in *.
    rewrite <- (last_digits_pad decimals (raw mod 10 ^ N.of_nat decimals)%N)
      by (try apply N.mod_lt; lia).
    rewrite last_digits_mod, raw_split.
    replace decimals with ((decimals - k) + k)%nat at 2 by lia.
    rewrite last_digits_shift.
    apply strip_fixed_point.
    + exact c_positive.
    + destruct k_stops as [-> | H]; [left; lia | right; exact H].
    + lia.
Qed.

Hypothesis raw_digits : (raw < 10 ^ 28)%N.
Hypothesis decimals_bound : Z.of_nat decimals <= 1000000.

Lemma format_quantity_fixed_point :
  format_quantity (Z.of_N raw) (Z.of_nat decimals) = Ret (fixed_point c (decimals - k)).
Proof.
  pose proof (pow10_pos k) as Hpk.
  assert (Hraw : (0 < raw)%N) by (rewrite raw_split; lia).
  unfold format_quantity.
  destruct (Z.eqb_spec (Z.of_N raw) 0) as [E | _]; [lia|].
  destruct (Z.eqb_spec (Z.of_nat decimals) 0) as [E | Hd].
  - assert (decimals = 0%nat) by lia. assert (k = 0%nat) by lia. subst.
    cbn [N.of_nat Nat.sub fixed_point]. rewrite N.pow_0_r, N.mul_1_r, str_of_Z_of_N.
    reflexivity.
  - destruct (Z.ltb_spec (Z.of_nat decimals) 0) as [E | _]; [lia|].
    rewrite pow10_Z, !of_int_of_N.
    rewrite (truediv_exact raw c decimals k c_positive raw_split k_bound k_stops).
    + cbn [obind]. rewrite (format_f_places c (decimals - k) c_positive).
      fold (fixed_point c (decimals - k)). f_equal.
      destruct (decimals - k)%nat as [| p] eqn:Hplaces.
      * cbn [fixed_point]. rewrite str_of_N_no_point. reflexivity.
      * assert (Hpoint : Py.contains_char "." (fixed_point c (S p)) = true).
        { cbn [fixed_point]. rewrite contains_char_app. cbn [append Py.contains_char].
          rewrite Ascii.eqb_refl. cbn [orb]. apply orb_true_r. }
        rewrite Hpoint.
        pose proof (strip_fixed_point c (S p) 0 c_positive) as Hs.
        cbn [Py.repeat_char] in Hs. rewrite append_nil_r in Hs.
        apply Hs; [|discriminate].
        destruct k_stops as [-> | H]; [lia | right; exact H].
    + unfold PyDecimal.ndigits.
      pose proof (length_str_upper 28 raw raw_digits ltac:(lia)). lia.
    + lia.
Qed.

End Exactness.

(** X17.  For a positive raw balance below [10^28] and from 0 to 1000000
    decimals, [format_quantity] is exact: it returns the fixed-point
    notation of [raw_balance / 10^decimals] with the trailing zeros and a
    lone decimal point removed, as the docstring says.  The rounding to 28
    significant digits only shows from [10^28] on. *)
Theorem format_quantity_is_exact_up_to_28_digits (raw_balance decimals : Z) :
  0 < raw_balance < 10 ^ 28 ->
  0 <= decimals <= 1000000 ->
  format_quantity raw_balance decimals = Ret (exact_quantity raw_balance decimals).
Proof.
  intros Hraw Hdec.
  destruct (trailing_zeros (Z.to_nat decimals) (Z.to_N raw_balance) ltac:(lia))
    as (k & c & Hk & Hsplit & Hc & Hstop).
  rewrite <- (Z2N.id raw_balance) by lia. rewrite <- (Z2Nat.id decimals) by lia.
  rewrite (exact_quantity_fixed_point _ c _ k Hc Hsplit Hk Hstop).
  apply format_quantity_fixed_point; try assumption.
  - change (10 ^ 28)%N with (Z.to_N (10 ^ 28)). apply Z2N.inj_lt; lia.
  - lia.
Qed.

Lemma format_quantity_is_exact_up_to_28_digits_witness :
  format_quantity 1230000000000000000 18 = Ret "1.23" /\
  exact_quantity 1230000000000000000 18 = "1.23".
Proof.
  pose proof (format_quantity_is_exact_up_to_28_digits 1230000000000000000 18
                ltac:(lia) ltac:(lia)) as T.
  split; [|reflexivity].
  rewrite T. reflexivity.
Defined.

(** ** The EVM scanner: the order of the assets *)

Section EVMOrder.

Variable client : Client.
Variable chain : string.

Lemma evm_token_step_asset acc tb w acc' w' :
  evm_token_step client chain acc tb w = (Ret acc', w') ->
  (exists a,
      fst (fst acc') = (fst (fst acc) ++ [a])%list /\
      erc20_asset chain a /\
      Asset.asset_address a = TokenBalance.contract_address tb) \/
  fst (fst acc') = fst (fst acc).
Proof.
  destruct acc as [[assets tc] sk]. cbn [fst]. intros H.
  unfold evm_token_step in H.
  apply try_except_inv_Ret in H. destruct H as [H | (e & w1 & _ & _ & H)].
  - apply bind_inv_Ret in H. destruct H as (metadata & w1 & _ & H).
    apply bind_inv_Ret in H. destruct H as (balance_int & w2 & _ & H).
    apply bind_inv_Ret in H. destruct H as (quantity & w3 & _ & H).
    injection H as <- _. left. eexists. cbn [fst]. split; [reflexivity|].
    split; [|reflexivity]. repeat split.
  - injection H as <- _. right. reflexivity.
Qed.

Lemma evm_token_loop_assets tbs :
  forall acc w acc' w',
    for_each (evm_token_step client chain) tbs acc w = (Ret acc', w') ->
    exists added,
      fst (fst acc') = (fst (fst acc) ++ added)%list /\
      Forall (erc20_asset chain) added /\
      subsequence (map Asset.asset_address added) (map TokenBalance.contract_address tbs).
Proof.
  induction tbs as [| tb rest IH]; intros acc w acc' w' H.
  - injection H as <- _. exists []. rewrite app_nil_r. repeat split; constructor.
  - simpl in H. apply bind_inv_Ret in H. destruct H as (acc1 & w1 & H1 & H).
    apply IH in H. destruct H as (added & Ha & Hall & Hsub).
    apply evm_token_step_asset in H1. destruct H1 as [(a & H1 & Hshape & Haddr) | H1].
    + exists (a :: added). rewrite Ha, H1, <- app_assoc. split; [reflexivity|].
      split; [constructor; assumption|].
      cbn [map]. rewrite Haddr. constructor. exact Hsub.
    + exists added. rewrite Ha, H1. split; [reflexivity|]. split; [exact Hall|].
      cbn [map]. constructor. exact Hsub.
Qed.

End EVMOrder.

(** X18.  The main list of an EVM scan that goes through is laid out as the
    native asset, if any, then the ERC-20 assets, then the clean NFTs.  The
    ERC-20 assets carry the type ["ERC20"] and no token id or collection
    name, and their addresses are the contract addresses of the token
    balances the client returned, in the same order, those of the skipped
    tokens left out.  The result and every asset of both lists carry the
    scanner's chain. *)
Theorem evm_scan_lists_assets_in_order (client : Client) (chain wallet : string)
    (w w' : World) (r : ScanResult.t) :
  evm_scan client chain wallet w = (Ret r, w') ->
  ScanResult.error r = None ->
  exists native tokens token_balances nfts w2 w3 w5,
    client_get_token_balances client chain wallet w2 = (Ret token_balances, w3) /\
    client_get_nfts_for_owner client chain wallet w5 = (Ret nfts, w') /\
    ScanResult.assets r
    = (native ++ tokens ++ map (evm_nft_asset chain) (filter clean nfts))%list /\
    zlen native = ScanResult.native_count r /\
    Forall (fun a => Asset.token_type a = "NATIVE"%string) native /\
    zlen tokens = ScanResult.token_count r /\
    Forall (erc20_asset chain) tokens /\
    subsequence (map Asset.asset_address tokens)
                (map TokenBalance.contract_address token_balances) /\
    ScanResult.chain r = chain /\
    Forall (fun a => Asset.chain a = chain)
           (ScanResult.assets r ++ ScanResult.spam_assets r).
Proof.
  intros H Herr. unfold evm_scan in H.
  apply try_except_inv_Ret in H. destruct H as [H | (e & w1 & _ & _ & H)].
  2: { injection H as <- _. discriminate Herr. }
  apply evm_scan_try_inv in H.
  destruct H as (nb & w1 & assets0 & nc & w2 & tbs & w3 & assets1 & tc & sk & w4 & w5 & nfts
                 & H1 & H2 & H3 & H4 & H5 & H6 & ->).
  cbn [ScanResult.assets ScanResult.spam_assets ScanResult.native_count
       ScanResult.token_count ScanResult.chain].
  pose proof (evm_token_loop_assets client chain tbs _ _ _ _ H4) as (added & Ha & Hall & Hsub).
  pose proof (evm_token_loop_counts client chain tbs _ _ _ _ H4) as (added' & Ha' & Ht & _).
  cbn [fst snd] in Ha, Ha', Ht.
  assert (added' = added) by (apply (app_inv_head assets0); congruence). subst added'.
  subst assets1.
  apply evm_native_step_inv in H2. destruct H2 as [_ H2].
  assert (Hnative : zlen assets0 = nc /\
                    Forall (fun a => Asset.token_type a = "NATIVE"%string) assets0 /\
                    Forall (fun a => Asset.chain a = chain) assets0).
  { destruct H2 as [(_ & -> & ->) | (_ & -> & info & q & _ & _ & ->)].
    - repeat split; constructor.
    - repeat split; repeat constructor. }
  destruct Hnative as (Hn & Hty & Hch).
  exists assets0, added, tbs, nfts, w2, w3, w5.
  split; [exact H3|]. split; [exact H6|].
  split; [rewrite <- app_assoc; reflexivity|].
  split; [exact Hn|]. split; [exact Hty|].
  split; [lia|]. split; [exact Hall|]. split; [exact Hsub|]. split; [reflexivity|].
  repeat (apply Forall_app; split).
  - exact Hch.
  - eapply Forall_impl; [|exact Hall]. intros a (Hc & _). exact Hc.
  - apply Forall_map. apply Forall_forall. intros nft _. reflexivity.
  - apply Forall_map. apply Forall_forall. intros nft _. reflexivity.
Qed.

Lemma evm_scan_lists_assets_in_order_witness :
  exists r w',
    evm_scan (alchemy mixed_wallet 5) "ethereum" test_wallet world0 = (Ret r, w') /\
    map Asset.asset_address (ScanResult.assets r) = ["NATIVE"; "0xToken1"; "0xGoodNFT"] /\
    exists native tokens token_balances nfts w2 w3 w5,
      client_get_token_balances (alchemy mixed_wallet 5) "ethereum" test_wallet w2
      = (Ret token_balances, w3) /\
      client_get_nfts_for_owner (alchemy mixed_wallet 5) "ethereum" test_wallet w5
      = (Ret nfts, w') /\
      ScanResult.assets r
      = (native ++ tokens ++ map (evm_nft_asset "ethereum") (filter clean nfts))%list /\
      zlen native = ScanResult.native_count r /\
      Forall (fun a => Asset.token_type a = "NATIVE"%string) native /\
      zlen tokens = ScanResult.token_count r /\
      Forall (erc20_asset "ethereum") tokens /\
      subsequence (map Asset.asset_address tokens)
                  (map TokenBalance.contract_address token_balances) /\
      ScanResult.chain r = "ethereum"%string /\
      Forall (fun a => Asset.chain a = "ethereum"%string)
             (ScanResult.assets r ++ ScanResult.spam_assets r).
Proof.
  pose proof (evm_scan_lists_assets_in_order (alchemy mixed_wallet 5) "ethereum"
                test_wallet world0) as T.
  destruct (evm_scan (alchemy mixed_wallet 5) "ethereum" test_wallet world0)
    as [[r | e | why] w'] eqn:run; vm_compute in run; try discriminate run.
  injection run as <- <-.
  eexists. eexists. split; [reflexivity|]. split; [reflexivity|].
  apply T; reflexivity.
Defined.
